(** * SW2PDEPLOY/front: the upload / compress / submit / download workflow

    A shallow embedding of the TypeScript sources
      - [src/services/imageAnalysisService.ts]
      - [src/services/apiService.ts]
      - [src/types/api.ts]
      - the pages [MobileAppFromImagePage], [MobileAppFromPromptPage],
        [MobileAppsPage] and the component [MobileAppManager]
    followed by the properties of the specification that were checked
    against them.

    Conventions.
      - A JavaScript string is the list of its UTF-16 code units ([Js.str]);
        [.length] counts code units.
      - A JavaScript number that the code only ever computes from integers
        is a rational ([Q]); every value met below is either an integer
        below 2^53 or a quotient whose truncation is decided long before
        the 53rd bit, so the IEEE result and the exact one agree on every
        integer read from them (the hypotheses of the theorems say where).
      - [async] code runs in a small monad: a log of the observable events
        (remote calls, object URLs, downloads) and an exception channel.
        What the outside world answers is read from an environment [Env].
      - A page over time is its state and the handlers in flight.
        [MobileAppFromImagePage.fire] lets a handler in flight run to its
        end in one piece; [ImagePageSteps.fire] and [PromptPageSteps.fire]
        let it run from one [await] to the next, so that the user and the
        other handlers can come in between any two.
      - [console.log] and [console.error] are not observable here and are
        left out, as are the object URL [compressImage] makes for the
        source file and the anchor element a download is clicked on. *)

From Stdlib Require Import List ZArith NArith QArith Qround String Ascii Bool Lia.
From Stdlib Require Import DecimalString.
Import ListNotations.

Local Open Scope Z_scope.

(* ================================================================== *)
(** * JavaScript strings and numbers                                   *)
(* ================================================================== *)

Module Js.

(** A string value: its UTF-16 code units. *)
Definition str := list N.

(** An ASCII literal of the source. *)
Definition lit (s : string) : str := map N_of_ascii (list_ascii_of_string s).

(** [s.length] *)
Definition length (s : str) : Z := Z.of_nat (List.length s).

(** [a === b] on strings. *)
Fixpoint eqb (a b : str) : bool :=
  match a, b with
  | [], [] => true
  | x :: a', y :: b' => N.eqb x y && eqb a' b'
  | _, _ => false
  end.

(** Truthiness of a string: only the empty string is falsy. *)
Definition truthy (s : str) : bool :=
  match s with [] => false | _ :: _ => true end.

(** Truthiness of an optional string property ([undefined] is falsy). *)
Definition truthy_opt (o : option str) : bool :=
  match o with Some s => truthy s | None => false end.

(** [o || d] for an optional string [o] and a string [d]. *)
Definition or_default (o : option str) (d : str) : str :=
  match o with
  | Some s => if truthy s then s else d
  | None => d
  end.

(** ECMAScript WhiteSpace and LineTerminator code points, the ones
    [String.prototype.trim] strips. *)
Definition isWhiteSpace (c : N) : bool :=
  let c := Z.of_N c in
  (c =? 9) || (c =? 10) || (c =? 11) || (c =? 12) || (c =? 13) ||
  (c =? 32) || (c =? 160) || (c =? 5760) ||
  ((8192 <=? c) && (c <=? 8202)) ||
  (c =? 8232) || (c =? 8233) || (c =? 8239) || (c =? 8287) ||
  (c =? 12288) || (c =? 65279).

Fixpoint trimStart (s : str) : str :=
  match s with
  | [] => []
  | c :: r => if isWhiteSpace c then trimStart r else s
  end.

Definition trimEnd (s : str) : str := rev (trimStart (rev s)).

(** [s.trim()] *)
Definition trim (s : str) : str := trimEnd (trimStart s).

(** [s.split(sep)] for a separator of one code unit: always at least
    one segment. *)
Fixpoint split (sep : N) (s : str) : list str :=
  match s with
  | [] => [[]]
  | c :: r =>
      if N.eqb c sep then [] :: split sep r
      else match split sep r with
           | seg :: segs => (c :: seg) :: segs
           | [] => [[c]]
           end
  end.

(** [s.startsWith(p)] *)
Fixpoint startsWith (p s : str) : bool :=
  match p, s with
  | [], _ => true
  | x :: p', y :: s' => N.eqb x y && startsWith p' s'
  | _ :: _, [] => false
  end.

(** [s.includes(p)] *)
Fixpoint includes (p s : str) : bool :=
  startsWith p s ||
  match s with
  | [] => false
  | _ :: s' => includes p s'
  end.

(** [arr.includes(x)] on an array of strings. *)
Definition array_includes (x : str) (arr : list str) : bool :=
  existsb (eqb x) arr.

(** [String(n)] for an integer [n]: its decimal digits. *)
Definition Number_toString (n : Z) : str :=
  lit (NilZero.string_of_int (Z.to_int n)).

(** [Math.round]: the nearest integer, halves go up. *)
Definition Math_round (x : Q) : Z := Qfloor (x + (1 # 2)).

(** WebIDL IntegerPart: truncation toward zero. *)
Definition IntegerPart (x : Q) : Z :=
  if Qle_bool 0 x then Qfloor x else Qceiling x.

(** WebIDL conversion of a number to [unsigned long]. *)
Definition ToUint32 (x : Q) : Z := (IntegerPart x) mod 4294967296.

(** Code units above ASCII used by the messages of the source. *)
Definition a_acute : N := 225.
Definition e_acute : N := 233.
Definition o_acute : N := 243.
Definition inv_excl : N := 161.

(** A thrown value: whether it is an [Error] instance, its [message],
    and, for an axios error, [error.response?.status]. *)
Record Thrown := {
  is_Error : bool;
  message : str;
  response_status : option Z
}.

(** [new Error(msg)] *)
Definition new_Error (msg : str) : Thrown :=
  {| is_Error := true; message := msg; response_status := None |}.

(** [err instanceof Error ? err.message : fallback] *)
Definition message_or (err : Thrown) (fallback : str) : str :=
  if is_Error err then message err else fallback.

End Js.

(* ================================================================== *)
(** * src/types/api.ts                                                 *)
(* ================================================================== *)

Module api.

Inductive ProjectType := FLUTTER | ANGULAR.

(** The string value of the enum member. *)
Definition ProjectType_value (t : ProjectType) : Js.str :=
  match t with
  | FLUTTER => Js.lit "flutter"
  | ANGULAR => Js.lit "angular"
  end.

Record MobileApp := {
  id : Js.str;
  nombre : Js.str;
  xml : option Js.str;
  prompt : option Js.str;
  mockup_id : option Js.str;
  project_type : ProjectType;
  user_id : Js.str
}.

(** [CreateFromPromptRequest] *)
Record CreateFromPromptRequest := {
  req_prompt : Js.str;
  req_nombre : option Js.str;
  req_project_type : option ProjectType
}.

(** [CreateFromPromptResponse] *)
Record CreateFromPromptResponse := {
  res_id : Js.str;
  res_nombre : Js.str;
  res_prompt : Js.str;
  res_project_type : ProjectType;
  res_user_id : Js.str
}.

End api.

(* ================================================================== *)
(** * Browser objects                                                  *)
(* ================================================================== *)

(** A [File]: declared media type, size in bytes, and a handle on its
    content. *)
Record File := {
  file_type : Js.str;
  file_size : Z;
  file_handle : N
}.

(** A decoded [Image]: [img.width] and [img.height]. *)
Record Image := {
  img_width : Z;
  img_height : Z
}.

(** The bitmap size of a [canvas]. *)
Record Canvas := {
  canvas_width : Z;
  canvas_height : Z
}.

(** Assignment to [canvas.width] / [canvas.height]: the value is
    converted to [unsigned long]; HTML resets a value above 2^31 - 1 to
    the attribute's default (300 and 150). *)
Definition canvas_dimension (default : Z) (x : Q) : Z :=
  let u := Js.ToUint32 x in
  if u <=? 2147483647 then u else default.

Record Blob := {
  blob_type : Js.str;
  blob_handle : N
}.

(* ================================================================== *)
(** * The outside world and the effect monad                           *)
(* ================================================================== *)

(** What [fetch] settles with: a rejection (no response at all), or a
    response with its status, its [content-type] header, its body read
    as a blob and its body read as JSON ([response.json()] rejects when
    the body is not JSON). *)
Inductive FetchResult (J : Type) :=
| FetchRejected (e : Js.Thrown)
| FetchResponse (status : Z) (contentType : option Js.str) (blob : Blob)
                (json : Js.Thrown + J).
Arguments FetchRejected {J} e.
Arguments FetchResponse {J} status contentType blob json.

(** [response.ok] *)
Definition response_ok (status : Z) : bool :=
  (200 <=? status) && (status <=? 299).

(** What the server answers to an axios request: nothing, or a status,
    a [content-type] and the response data. *)
Inductive AxiosResult (D : Type) :=
| AxiosNoResponse (e : Js.Thrown)
| AxiosResponse (status : Z) (contentType : option Js.str) (data : D).
Arguments AxiosNoResponse {D} e.
Arguments AxiosResponse {D} status contentType data.

(** [ImageAnalysisResponse], also the JSON body of the analyze endpoint. *)
Record ImageAnalysisResponse := {
  ia_success : bool;
  ia_description : option Js.str;
  ia_error : option Js.str
}.

(** [ProjectGenerationRequest] *)
Record ProjectGenerationRequest := {
  pg_description : Js.str;
  pg_projectType : api.ProjectType;
  pg_nombre : option Js.str
}.

(** [ProjectGenerationResponse] *)
Record ProjectGenerationResponse := {
  pg_success : bool;
  pg_downloadUrl : option Js.str;
  pg_error : option Js.str
}.

(** The JSON error body of the generate endpoint: [result.message]. *)
Record GenerateErrorBody := {
  gen_message : option Js.str
}.

(** Everything the code reads from the browser and from the server. *)
Record Env := {
  (** [img.onload] with the decoded image, or [img.onerror] *)
  decode : File -> option Image;
  (** [canvas.toDataURL(type, quality)] after the file was drawn *)
  toDataURL : File -> Canvas -> Js.str -> Q -> Js.str;
  (** [FileReader.readAsDataURL]: [onload] result or [onerror] event *)
  readAsDataURL : File -> Js.Thrown + Js.str;
  (** [URL.createObjectURL] *)
  createObjectURL : Blob -> Js.str;
  (** [String.prototype.toUpperCase] *)
  toUpperCase : Js.str -> Js.str;
  (** [authApi.getCurrentUser()]: [None] for [null], else [user.id] *)
  currentUser : option (option Js.str);
  (** [window.location.pathname === "/login"] *)
  onLoginPage : bool;
  (** POST /mobile-generator/analyze-image, through [fetch] *)
  fetch_analyze_image : Js.str -> api.ProjectType ->
                        FetchResult ImageAnalysisResponse;
  (** POST /mobile-generator/from-prompt, through [fetch] *)
  fetch_from_prompt : Js.str -> api.ProjectType -> option Js.str ->
                      FetchResult api.CreateFromPromptResponse;
  (** POST /mobile-generator/{id}/generate, through [fetch] *)
  fetch_generate : Js.str -> FetchResult GenerateErrorBody;
  (** POST /mobile-generator/from-prompt, through axios *)
  axios_from_prompt : Js.str -> option Js.str -> api.ProjectType ->
                      AxiosResult api.CreateFromPromptResponse;
  (** POST /mobile-generator/{id}/generate, [responseType: 'blob'] *)
  axios_generate : Js.str -> AxiosResult Blob
}.

(** Observable events, in the order they happen. *)
Inductive Event :=
| EvAnalyzeImage (image : Js.str) (projectType : api.ProjectType)
| EvFromPrompt (prompt : Js.str) (nombre : option Js.str)
               (project_type : api.ProjectType)
| EvGenerate (id : Js.str)
| EvCreateObjectURL (b : Blob)
| EvRevokeObjectURL (url : Js.str)
| EvDownload (href : Js.str) (download : Js.str)
| EvClearFileInput
| EvLogoutRedirect
| EvNavigateLater (nombre : Js.str) (appId : Js.str).

Definition Log := list Event.

Inductive Completion (A : Type) :=
| Normal (a : A)
| Abrupt (e : Js.Thrown).
Arguments Normal {A} a.
Arguments Abrupt {A} e.

(** A computation over a mutable state [S] (the [useState] cells of a
    page; [unit] for the services), a log, and exceptions. *)
Definition M (S A : Type) := S -> Log -> Completion A * S * Log.

Definition ret {S A} (a : A) : M S A := fun s l => (Normal a, s, l).

Definition bind {S A B} (m : M S A) (k : A -> M S B) : M S B :=
  fun s l =>
    match m s l with
    | (Normal a, s', l') => k a s' l'
    | (Abrupt e, s', l') => (Abrupt e, s', l')
    end.

Definition throw {S A} (e : Js.Thrown) : M S A := fun s l => (Abrupt e, s, l).

Definition emit {S} (e : Event) : M S unit :=
  fun s l => (Normal tt, s, l ++ [e]).

(** [try { m } catch (err) { h err }] *)
Definition try_catch {S A} (m : M S A) (h : Js.Thrown -> M S A) : M S A :=
  fun s l =>
    match m s l with
    | (Normal a, s', l') => (Normal a, s', l')
    | (Abrupt e, s', l') => h e s' l'
    end.

(** [try { m } finally { f }] *)
Definition try_finally {S A} (m : M S A) (f : M S unit) : M S A :=
  fun s l =>
    match m s l with
    | (r, s', l') =>
        match f s' l' with
        | (Normal _, s'', l'') => (r, s'', l'')
        | (Abrupt e, s'', l'') => (Abrupt e, s'', l'')
        end
    end.

(** A state update, as a [useState] setter does it. *)
Definition modify {S} (f : S -> S) : M S unit :=
  fun s l => (Normal tt, f s, l).

(** A service call made from a page: it does not touch the page state. *)
Definition lift {S A} (m : M unit A) : M S A :=
  fun s l =>
    match m tt l with
    | (r, _, l') => (r, s, l')
    end.

Declare Scope js_scope.
Delimit Scope js_scope with js.
Notation "x <- m ;; k" := (bind m (fun x => k))
  (at level 61, m at next level, right associativity) : js_scope.
Notation "m ;; k" := (bind m (fun _ => k))
  (at level 61, right associativity) : js_scope.

Definition IO (A : Type) := M unit A.

(* ================================================================== *)
(** * src/services/imageAnalysisService.ts                             *)
(* ================================================================== *)

Module imageAnalysisService.

Local Open Scope js_scope.

(** The canvas [compressImage] draws on and encodes: the body of
    [img.onload] up to the two assignments [canvas.width = width] and
    [canvas.height = height]. *)
Definition compressImage_canvas (img : Image) (maxWidth : Z) : Canvas :=
  let width := inject_Z (img_width img) in
  let height := inject_Z (img_height img) in
  let '(width, height) :=
    if maxWidth <? img_width img
    then (inject_Z maxWidth, ((height * inject_Z maxWidth) / width)%Q)
    else (width, height) in
  {| canvas_width := canvas_dimension 300 width;
     canvas_height := canvas_dimension 150 height |}.

Definition compressImage (env : Env) (file : File)
                         (maxWidth : Z) (quality : Q) : IO Js.str :=
  match decode env file with
  | Some img =>
      ret (toDataURL env file (compressImage_canvas img maxWidth)
                     (Js.lit "image/jpeg") quality)
  | None =>
      throw (Js.new_Error
               (Js.lit "Error cargando imagen para compresi" ++
                [Js.o_acute] ++ Js.lit "n"))
  end.

Definition unknown_error : Js.str := Js.lit "Error desconocido".

Definition analyzeImageForProject (env : Env) (base64Image : Js.str)
    (projectType : api.ProjectType) : IO ImageAnalysisResponse :=
  try_catch
    (emit (EvAnalyzeImage base64Image projectType) ;;
     match fetch_analyze_image env base64Image projectType with
     | FetchRejected e => throw e
     | FetchResponse status _ _ json =>
         if negb (response_ok status)
         then throw (Js.new_Error (Js.lit "Error del servidor: " ++
                                   Js.Number_toString status))
         else match json with
              | inl e => throw e
              | inr result =>
                  ret {| ia_success := ia_success result;
                         ia_description := ia_description result;
                         ia_error := ia_error result |}
              end
     end)
    (fun error =>
       ret {| ia_success := false;
              ia_description := None;
              ia_error := Some (Js.message_or error unknown_error) |}).

(** [headers.get('content-type')?.includes('application/zip')] *)
Definition is_zip (contentType : option Js.str) : bool :=
  match contentType with
  | Some c => Js.includes (Js.lit "application/zip") c
  | None => false
  end.

Definition generateProjectFromDescription (env : Env)
    (request : ProjectGenerationRequest) : IO ProjectGenerationResponse :=
  try_catch
    (emit (EvFromPrompt (pg_description request) (pg_nombre request)
                        (pg_projectType request)) ;;
     createdApp <-
       match fetch_from_prompt env (pg_description request)
                               (pg_projectType request) (pg_nombre request) with
       | FetchRejected e => throw e
       | FetchResponse status _ _ json =>
           if negb (response_ok status)
           then throw (Js.new_Error
                         (Js.lit "Error creando aplicaci" ++ [Js.o_acute] ++
                          Js.lit "n: " ++ Js.Number_toString status))
           else match json with
                | inl e => throw e
                | inr createdApp => ret createdApp
                end
       end ;;
     emit (EvGenerate (api.res_id createdApp)) ;;
     match fetch_generate env (api.res_id createdApp) with
     | FetchRejected e => throw e
     | FetchResponse status contentType blob json =>
         if negb (response_ok status)
         then throw (Js.new_Error (Js.lit "Error generando proyecto: " ++
                                   Js.Number_toString status))
         else if is_zip contentType
         then
           emit (EvCreateObjectURL blob) ;;
           ret {| pg_success := true;
                  pg_downloadUrl := Some (createObjectURL env blob);
                  pg_error := None |}
         else match json with
              | inl e => throw e
              | inr result =>
                  ret {| pg_success := false;
                         pg_downloadUrl := None;
                         pg_error :=
                           Some (Js.or_default (gen_message result)
                                   (Js.lit "Error generando proyecto")) |}
              end
     end)
    (fun error =>
       ret {| pg_success := false;
              pg_downloadUrl := None;
              pg_error := Some (Js.message_or error unknown_error) |}).

Definition analyzeImageAndGenerateProject (env : Env) (base64Image : Js.str)
    (projectType : api.ProjectType) (projectName : option Js.str)
    : IO ProjectGenerationResponse :=
  try_catch
    (analysisResult <- analyzeImageForProject env base64Image projectType ;;
     if negb (ia_success analysisResult) ||
        negb (Js.truthy_opt (ia_description analysisResult))
     then
       ret {| pg_success := false;
              pg_downloadUrl := None;
              pg_error :=
                Some (Js.or_default (ia_error analysisResult)
                        (Js.lit "Error analizando imagen")) |}
     else
       generateProjectFromDescription env
         {| pg_description :=
              match ia_description analysisResult with
              | Some d => d
              | None => []
              end;
            pg_projectType := projectType;
            pg_nombre := projectName |})
    (fun error =>
       ret {| pg_success := false;
              pg_downloadUrl := None;
              pg_error := Some (Js.message_or error unknown_error) |}).

Definition fileToBase64 (env : Env) (file : File) (compress : bool)
    : IO Js.str :=
  if compress && Js.startsWith (Js.lit "image/") (file_type file)
  then compressImage env file 1024 (8 # 10)
  else match readAsDataURL env file with
       | inr result => ret result
       | inl e => throw e
       end.

Record Validation := {
  valid : bool;
  validation_error : option Js.str
}.

Definition validTypes : list Js.str :=
  [Js.lit "image/jpeg"; Js.lit "image/jpg"; Js.lit "image/png";
   Js.lit "image/gif"; Js.lit "image/webp"].

Definition maxSize : Z := 20 * 1024 * 1024.

Definition invalid_type_error : Js.str :=
  Js.lit "Tipo de archivo no v" ++ [Js.a_acute] ++
  Js.lit "lido. Use JPEG, PNG, GIF o WebP.".

Definition too_large_error : Js.str :=
  Js.lit "El archivo es demasiado grande. M" ++ [Js.a_acute] ++
  Js.lit "ximo 20MB.".

Definition validateImageFile (file : File) : Validation :=
  if negb (Js.array_includes (file_type file) validTypes)
  then {| valid := false; validation_error := Some invalid_type_error |}
  else if maxSize <? file_size file
  then {| valid := false; validation_error := Some too_large_error |}
  else {| valid := true; validation_error := None |}.

Record ImageInfo := {
  sizeKB : Z;
  format : Js.str
}.

Definition semicolon : N := 59.
Definition slash : N := 47.

Definition getImageInfo (base64Image : Js.str) : ImageInfo :=
  let base64Length := Js.length base64Image in
  let sizeBytes := ((inject_Z base64Length * 3) / 4)%Q in
  let sizeKB := Js.Math_round (sizeBytes / 1024)%Q in
  let format :=
    Js.or_default
      (nth_error (Js.split slash (hd [] (Js.split semicolon base64Image))) 1)
      (Js.lit "unknown") in
  {| sizeKB := sizeKB; format := format |}.

End imageAnalysisService.

(* ================================================================== *)
(** * src/services/apiService.ts                                       *)
(* ================================================================== *)

Module apiService.

Local Open Scope js_scope.

(** The error axios rejects with when the status is outside 2xx. *)
Definition axios_status_error (status : Z) : Js.Thrown :=
  {| Js.is_Error := true;
     Js.message := Js.lit "Request failed with status code " ++
                   Js.Number_toString status;
     Js.response_status := Some status |}.

(** The error axios rejects with when no response came back. *)
Definition axios_network_error (e : Js.Thrown) : Js.Thrown :=
  {| Js.is_Error := true;
     Js.message := Js.message e;
     Js.response_status := None |}.

Definition handleUnauthorized (env : Env) : IO unit :=
  if negb (onLoginPage env) then emit EvLogoutRedirect else ret tt.

(** [api.post(...)] seen from the caller: the response interceptor runs
    [handleUnauthorized] on a 401 and rejects again; a status in 2xx
    resolves with [response.data]. *)
Definition api_post {D : Type} (env : Env) (r : AxiosResult D) : IO D :=
  match r with
  | AxiosNoResponse e => throw (axios_network_error e)
  | AxiosResponse status _ data =>
      if response_ok status then ret data
      else
        (if status =? 401 then handleUnauthorized env else ret tt) ;;
        throw (axios_status_error status)
  end.

Module mobileAppsApi.

Definition not_authenticated : Js.Thrown :=
  Js.new_Error (Js.lit "User not authenticated or user ID not available").

(** [!user || !user.id] *)
Definition no_user (env : Env) : bool :=
  match currentUser env with
  | None => true
  | Some uid => negb (Js.truthy_opt uid)
  end.

Definition createFromPrompt (env : Env) (request : api.CreateFromPromptRequest)
    : IO api.CreateFromPromptResponse :=
  try_catch
    (if no_user env then throw not_authenticated
     else
       let project_type :=
         match api.req_project_type request with
         | Some t => t
         | None => api.FLUTTER
         end in
       emit (EvFromPrompt (api.req_prompt request) (api.req_nombre request)
                          project_type) ;;
       api_post env (axios_from_prompt env (api.req_prompt request)
                       (api.req_nombre request) project_type))
    (fun error => throw error).

Definition generateProject (env : Env) (id : Js.str) : IO Blob :=
  try_catch
    (emit (EvGenerate id) ;;
     api_post env (axios_generate env id))
    (fun error => throw error).

End mobileAppsApi.

End apiService.

(* ================================================================== *)
(** * pages/MobileAppFromImagePage.tsx                                 *)
(* ================================================================== *)

Module MobileAppFromImagePage.

Import imageAnalysisService.
Local Open Scope js_scope.

Record FormData := {
  projectName : Js.str;
  projectType : api.ProjectType;
  imageFile : option File
}.

(** The [useState] cells of the page. *)
Record State := {
  formData : FormData;
  isAnalyzing : bool;
  isGenerating : bool;
  analysisResult : Js.str;
  error : Js.str;
  success : Js.str;
  imagePreview : Js.str;
  imageInfo : option ImageInfo;
  isCompressing : bool
}.

Definition initial : State :=
  {| formData := {| projectName := []; projectType := api.FLUTTER;
                    imageFile := None |};
     isAnalyzing := false;
     isGenerating := false;
     analysisResult := [];
     error := [];
     success := [];
     imagePreview := [];
     imageInfo := None;
     isCompressing := false |}.

Definition setFormData (f : FormData -> FormData) (s : State) : State :=
  {| formData := f (formData s); isAnalyzing := isAnalyzing s;
     isGenerating := isGenerating s; analysisResult := analysisResult s;
     error := error s; success := success s;
     imagePreview := imagePreview s; imageInfo := imageInfo s;
     isCompressing := isCompressing s |}.

Definition setIsAnalyzing (v : bool) (s : State) : State :=
  {| formData := formData s; isAnalyzing := v;
     isGenerating := isGenerating s; analysisResult := analysisResult s;
     error := error s; success := success s;
     imagePreview := imagePreview s; imageInfo := imageInfo s;
     isCompressing := isCompressing s |}.

Definition setIsGenerating (v : bool) (s : State) : State :=
  {| formData := formData s; isAnalyzing := isAnalyzing s;
     isGenerating := v; analysisResult := analysisResult s;
     error := error s; success := success s;
     imagePreview := imagePreview s; imageInfo := imageInfo s;
     isCompressing := isCompressing s |}.

Definition setAnalysisResult (v : Js.str) (s : State) : State :=
  {| formData := formData s; isAnalyzing := isAnalyzing s;
     isGenerating := isGenerating s; analysisResult := v;
     error := error s; success := success s;
     imagePreview := imagePreview s; imageInfo := imageInfo s;
     isCompressing := isCompressing s |}.

Definition setError (v : Js.str) (s : State) : State :=
  {| formData := formData s; isAnalyzing := isAnalyzing s;
     isGenerating := isGenerating s; analysisResult := analysisResult s;
     error := v; success := success s;
     imagePreview := imagePreview s; imageInfo := imageInfo s;
     isCompressing := isCompressing s |}.

Definition setSuccess (v : Js.str) (s : State) : State :=
  {| formData := formData s; isAnalyzing := isAnalyzing s;
     isGenerating := isGenerating s; analysisResult := analysisResult s;
     error := error s; success := v;
     imagePreview := imagePreview s; imageInfo := imageInfo s;
     isCompressing := isCompressing s |}.

Definition setImagePreview (v : Js.str) (s : State) : State :=
  {| formData := formData s; isAnalyzing := isAnalyzing s;
     isGenerating := isGenerating s; analysisResult := analysisResult s;
     error := error s; success := success s;
     imagePreview := v; imageInfo := imageInfo s;
     isCompressing := isCompressing s |}.

Definition setImageInfo (v : option ImageInfo) (s : State) : State :=
  {| formData := formData s; isAnalyzing := isAnalyzing s;
     isGenerating := isGenerating s; analysisResult := analysisResult s;
     error := error s; success := success s;
     imagePreview := imagePreview s; imageInfo := v;
     isCompressing := isCompressing s |}.

Definition setIsCompressing (v : bool) (s : State) : State :=
  {| formData := formData s; isAnalyzing := isAnalyzing s;
     isGenerating := isGenerating s; analysisResult := analysisResult s;
     error := error s; success := success s;
     imagePreview := imagePreview s; imageInfo := imageInfo s;
     isCompressing := v |}.

(** [handleInputChange] for the field named [projectName]. *)
Definition handleInputChange_projectName (value : Js.str) (s : State) : State :=
  setFormData (fun prev => {| projectName := value;
                              projectType := projectType prev;
                              imageFile := imageFile prev |}) s.

(** [handleInputChange] for the field named [projectType]. *)
Definition handleInputChange_projectType (value : api.ProjectType) (s : State)
    : State :=
  setFormData (fun prev => {| projectName := projectName prev;
                              projectType := value;
                              imageFile := imageFile prev |}) s.

(** Every handler below is an [async] function.  It is written in two
    parts: [_begin] is the code that runs at once, up to the first
    [await], and says whether the handler goes on ([Some] of the values
    its closure keeps); [_resume] is the rest, run when the awaited
    work settles.  The handler run without anything in between is the
    composition of the two. *)

Definition run {C : Type} (begin : State -> State * option C)
    (resume : C -> M State unit) (s : State) : State * Log :=
  match begin s with
  | (s1, None) => (s1, [])
  | (s1, Some c) =>
      match resume c s1 [] with
      | (_, s2, log) => (s2, log)
      end
  end.

(* ---------------- handleImageChange ---------------- *)

Definition handleImageChange_begin (e_target_files_0 : option File) (s : State)
    : State * option File :=
  match e_target_files_0 with
  | None => (s, None)
  | Some file =>
      let validation := validateImageFile file in
      if negb (valid validation)
      then (setError (Js.or_default (validation_error validation)
                        (Js.lit "Archivo no v" ++ [Js.a_acute] ++ Js.lit "lido"))
                     s, None)
      else
        (setFormData (fun prev => {| projectName := projectName prev;
                                     projectType := projectType prev;
                                     imageFile := Some file |})
           (setError [] (setIsCompressing true s)),
         Some file)
  end.

Definition image_loaded_message (env : Env) (info : ImageInfo) : Js.str :=
  Js.lit "Imagen cargada y comprimida: " ++ Js.Number_toString (sizeKB info) ++
  Js.lit " KB (" ++ toUpperCase env (format info) ++ Js.lit ")".

Definition handleImageChange_resume (env : Env) (file : File) : M State unit :=
  try_finally
    (try_catch
       (compressedBase64 <- lift (fileToBase64 env file true) ;;
        modify (setImagePreview compressedBase64) ;;
        let info := getImageInfo compressedBase64 in
        modify (setImageInfo (Some info)) ;;
        modify (setSuccess (image_loaded_message env info)))
       (fun err =>
          modify (setError (Js.lit "Error procesando imagen: " ++
                            Js.message_or err unknown_error))))
    (modify (setIsCompressing false)).

Definition handleImageChange (env : Env) (file : option File) (s : State)
    : State * Log :=
  run (handleImageChange_begin file) (handleImageChange_resume env) s.

(* ---------------- handleAnalyzeImage ---------------- *)

Definition select_image_error : Js.str := Js.lit "Por favor selecciona una imagen".

Definition analyze_error : Js.str := Js.lit "Error analizando imagen".

Definition analyzed_message : Js.str :=
  [Js.inv_excl] ++ Js.lit "Imagen analizada correctamente! Revisa la descripci" ++
  [Js.o_acute] ++ Js.lit "n y genera el proyecto.".

(** The closure of a handler started on a selected image: the file
    [formData.imageFile] (known not to be [null] past the guard) and the
    [formData] of the render the handler belongs to. *)
Definition Closure : Type := File * FormData.

Definition handleAnalyzeImage_begin (s : State) : State * option Closure :=
  match imageFile (formData s) with
  | None => (setError select_image_error s, None)
  | Some file =>
      (setAnalysisResult [] (setError [] (setIsAnalyzing true s)),
       Some (file, formData s))
  end.

Definition handleAnalyzeImage_resume (env : Env) (c : Closure)
    : M State unit :=
  let '(file, formData) := c in
  try_finally
    (try_catch
       (base64Image <- lift (fileToBase64 env file true) ;;
        result <- lift (analyzeImageForProject env base64Image
                          (projectType formData)) ;;
        if ia_success result && Js.truthy_opt (ia_description result)
        then
          modify (setAnalysisResult
                    (match ia_description result with
                     | Some d => d
                     | None => []
                     end)) ;;
          modify (setSuccess analyzed_message)
        else
          modify (setError (Js.or_default (ia_error result) analyze_error)))
       (fun err => modify (setError (Js.message_or err analyze_error))))
    (modify (setIsAnalyzing false)).

Definition handleAnalyzeImage (env : Env) (s : State) : State * Log :=
  run handleAnalyzeImage_begin (handleAnalyzeImage_resume env) s.

(* ---------------- handleGenerateProject ---------------- *)

Definition name_required_error : Js.str :=
  Js.lit "Por favor ingresa un nombre para el proyecto".

Definition generate_error : Js.str := Js.lit "Error generando proyecto".

Definition generated_message (t : api.ProjectType) : Js.str :=
  [Js.inv_excl] ++ Js.lit "Proyecto " ++ api.ProjectType_value t ++
  Js.lit " generado y descargado correctamente!".

(** [`${formData.projectName}-${formData.projectType}.zip`] *)
Definition download_name (formData : FormData) : Js.str :=
  projectName formData ++ Js.lit "-" ++
  api.ProjectType_value (projectType formData) ++ Js.lit ".zip".

Definition handleGenerateProject_begin (s : State) : State * option Closure :=
  match imageFile (formData s) with
  | None => (setError select_image_error s, None)
  | Some file =>
      if negb (Js.truthy (Js.trim (projectName (formData s))))
      then (setError name_required_error s, None)
      else
        (setSuccess [] (setError [] (setIsGenerating true s)),
         Some (file, formData s))
  end.

Definition handleGenerateProject_resume (env : Env) (c : Closure)
    : M State unit :=
  let '(file, formData) := c in
  try_finally
    (try_catch
       (base64Image <- lift (fileToBase64 env file true) ;;
        result <- lift (analyzeImageAndGenerateProject env base64Image
                          (projectType formData)
                          (Some (projectName formData))) ;;
        if pg_success result && Js.truthy_opt (pg_downloadUrl result)
        then
          let downloadUrl :=
            match pg_downloadUrl result with
            | Some u => u
            | None => []
            end in
          emit (EvDownload downloadUrl (download_name formData)) ;;
          emit (EvRevokeObjectURL downloadUrl) ;;
          modify (setSuccess (generated_message (projectType formData))) ;;
          modify (setFormData (fun _ => {| projectName := [];
                                           projectType := api.FLUTTER;
                                           imageFile := None |})) ;;
          modify (setImagePreview []) ;;
          modify (setImageInfo None) ;;
          modify (setAnalysisResult []) ;;
          emit EvClearFileInput
        else
          modify (setError (Js.or_default (pg_error result) generate_error)))
       (fun err => modify (setError (Js.message_or err generate_error))))
    (modify (setIsGenerating false)).

Definition handleGenerateProject (env : Env) (s : State) : State * Log :=
  run handleGenerateProject_begin (handleGenerateProject_resume env) s.

(* ---------------- clearImage ---------------- *)

Definition clearImage (s : State) : State * Log :=
  (setSuccess [] (setError [] (setAnalysisResult [] (setImageInfo None
     (setImagePreview []
        (setFormData (fun prev => {| projectName := projectName prev;
                                     projectType := projectType prev;
                                     imageFile := None |}) s))))),
   [EvClearFileInput]).

(* ---------------- the [disabled] attributes ---------------- *)

Definition has_image (s : State) : bool :=
  match imageFile (formData s) with Some _ => true | None => false end.

(** [<input type="file" disabled={isCompressing}>] *)
Definition fileInput_disabled (s : State) : bool := isCompressing s.

(** [disabled={!formData.imageFile || isAnalyzing || isCompressing}] *)
Definition analyze_disabled (s : State) : bool :=
  negb (has_image s) || isAnalyzing s || isCompressing s.

(** [disabled={!formData.imageFile || !formData.projectName.trim() ||
    isGenerating || isCompressing}] *)
Definition generate_disabled (s : State) : bool :=
  negb (has_image s) ||
  negb (Js.truthy (Js.trim (projectName (formData s)))) ||
  isGenerating s || isCompressing s.

(* ---------------- the page over time ---------------- *)

(** A handler that has started and awaits. *)
Inductive Task :=
| Compressing (file : File)
| Analyzing (c : Closure)
| Generating (c : Closure).

(** The page between two events: its state and the handlers in flight. *)
Record Screen := {
  state : State;
  inflight : list Task
}.

Definition mounted : Screen := {| state := initial; inflight := [] |}.

(** What can happen next: the user acts on an affordance, or the work
    awaited by the [i]-th handler in flight settles, the world then
    answering as [env] says. *)
Inductive Action :=
| SelectFile (file : option File)
| ClickAnalyze
| ClickGenerate
| ClickClear
| TypeProjectName (value : Js.str)
| ChooseProjectType (value : api.ProjectType)
| Settle (i : nat) (env : Env).

Fixpoint remove_nth {A : Type} (i : nat) (l : list A) : list A :=
  match i, l with
  | _, [] => []
  | O, _ :: r => r
  | S j, x :: r => x :: remove_nth j r
  end.

Definition start {C : Type} (mk : C -> Task) (sc : Screen)
    (r : State * option C) : Screen :=
  match r with
  | (s1, None) => {| state := s1; inflight := inflight sc |}
  | (s1, Some c) => {| state := s1; inflight := inflight sc ++ [mk c] |}
  end.

Definition resume (env : Env) (t : Task) : M State unit :=
  match t with
  | Compressing file => handleImageChange_resume env file
  | Analyzing c => handleAnalyzeImage_resume env c
  | Generating c => handleGenerateProject_resume env c
  end.

(** One event; [None] when the affordance is disabled (a disabled
    control fires no handler) or absent, or when no such handler is in
    flight. *)
Definition fire (a : Action) (sc : Screen) : option Screen :=
  match a with
  | SelectFile file =>
      if fileInput_disabled (state sc) then None
      else Some (start Compressing sc (handleImageChange_begin file (state sc)))
  | ClickAnalyze =>
      if analyze_disabled (state sc) then None
      else Some (start Analyzing sc (handleAnalyzeImage_begin (state sc)))
  | ClickGenerate =>
      if generate_disabled (state sc) then None
      else Some (start Generating sc (handleGenerateProject_begin (state sc)))
  | ClickClear =>
      if Js.truthy (imagePreview (state sc))
      then Some {| state := fst (clearImage (state sc));
                   inflight := inflight sc |}
      else None
  | TypeProjectName value =>
      Some {| state := handleInputChange_projectName value (state sc);
              inflight := inflight sc |}
  | ChooseProjectType value =>
      Some {| state := handleInputChange_projectType value (state sc);
              inflight := inflight sc |}
  | Settle i env =>
      match nth_error (inflight sc) i with
      | None => None
      | Some t =>
          match resume env t (state sc) [] with
          | (_, s', _) =>
              Some {| state := s'; inflight := remove_nth i (inflight sc) |}
          end
      end
  end.

Fixpoint fire_all (actions : list Action) (sc : Screen) : option Screen :=
  match actions with
  | [] => Some sc
  | a :: rest =>
      match fire a sc with
      | Some sc' => fire_all rest sc'
      | None => None
      end
  end.

(** The screens the page can be in. *)
Definition reachable (sc : Screen) : Prop :=
  exists actions, fire_all actions mounted = Some sc.

End MobileAppFromImagePage.

(* ================================================================== *)
(** * pages/MobileAppFromPromptPage.tsx                                *)
(* ================================================================== *)

Module MobileAppFromPromptPage.

Import apiService.
Local Open Scope js_scope.

Record State := {
  loading : bool;
  error : option Js.str;
  success : bool;
  formData : api.CreateFromPromptRequest
}.

Definition initial : State :=
  {| loading := false;
     error := None;
     success := false;
     formData := {| api.req_prompt := [];
                    api.req_nombre := Some [];
                    api.req_project_type := Some api.FLUTTER |} |}.

Definition setLoading (v : bool) (s : State) : State :=
  {| loading := v; error := error s; success := success s;
     formData := formData s |}.

Definition setError (v : option Js.str) (s : State) : State :=
  {| loading := loading s; error := v; success := success s;
     formData := formData s |}.

Definition setSuccess (v : bool) (s : State) : State :=
  {| loading := loading s; error := error s; success := v;
     formData := formData s |}.

Definition setFormData (v : api.CreateFromPromptRequest) (s : State) : State :=
  {| loading := loading s; error := error s; success := success s;
     formData := v |}.

Definition prompt_required_error : Js.str :=
  Js.lit "La descripci" ++ [Js.o_acute] ++
  Js.lit "n de la aplicaci" ++ [Js.o_acute] ++ Js.lit "n es requerida".

Definition prompt_too_short_error : Js.str :=
  Js.lit "La descripci" ++ [Js.o_acute] ++
  Js.lit "n debe tener al menos 10 caracteres".

Definition bad_request_error : Js.str :=
  Js.lit "Verifica que la descripci" ++ [Js.o_acute] ++
  Js.lit "n sea v" ++ [Js.a_acute] ++ Js.lit "lida".

Definition server_error : Js.str :=
  Js.lit "Error interno del servidor. Intenta m" ++ [Js.a_acute] ++
  Js.lit "s tarde.".

Definition other_error : Js.str :=
  Js.lit "Error creando la aplicaci" ++ [Js.o_acute] ++
  Js.lit "n. Intenta con una descripci" ++ [Js.o_acute] ++
  Js.lit "n m" ++ [Js.a_acute] ++ Js.lit "s espec" ++ [237%N] ++
  Js.lit "fica.".

(** The message chosen from [error.response?.status]. *)
Definition classify (err : Js.Thrown) : Js.str :=
  match Js.response_status err with
  | Some status =>
      if status =? 400 then bad_request_error
      else if status =? 500 then server_error
      else other_error
  | None => other_error
  end.

(** [`${app.nombre || 'mobile-app'}-${app.project_type}.zip`] *)
Definition download_name (app : api.CreateFromPromptResponse) : Js.str :=
  (if Js.truthy (api.res_nombre app) then api.res_nombre app
   else Js.lit "mobile-app") ++
  Js.lit "-" ++ api.ProjectType_value (api.res_project_type app) ++
  Js.lit ".zip".

(** [handleSubmit], in two parts as for the image page. *)
Definition handleSubmit_begin (s : State)
    : State * option api.CreateFromPromptRequest :=
  if negb (Js.truthy (Js.trim (api.req_prompt (formData s))))
  then (setError (Some prompt_required_error) s, None)
  else if Js.length (api.req_prompt (formData s)) <? 10
  then (setError (Some prompt_too_short_error) s, None)
  else (setError None (setLoading true s), Some (formData s)).

Definition handleSubmit_resume (env : Env)
    (formData : api.CreateFromPromptRequest) : M State unit :=
  try_finally
    (try_catch
       (app <- lift (mobileAppsApi.createFromPrompt env formData) ;;
        blob <- lift (mobileAppsApi.generateProject env (api.res_id app)) ;;
        emit (EvCreateObjectURL blob) ;;
        let url := createObjectURL env blob in
        emit (EvDownload url (download_name app)) ;;
        emit (EvRevokeObjectURL url) ;;
        modify (setSuccess true) ;;
        emit (EvNavigateLater (api.res_nombre app) (api.res_id app)))
       (fun error => modify (setError (Some (classify error)))))
    (modify (setLoading false)).

Definition handleSubmit (env : Env) (s : State) : State * Log :=
  match handleSubmit_begin s with
  | (s1, None) => (s1, [])
  | (s1, Some c) =>
      match handleSubmit_resume env c s1 [] with
      | (_, s2, log) => (s2, log)
      end
  end.

Definition handleExampleClick (ejemplo : Js.str) (s : State) : State :=
  setFormData {| api.req_prompt := ejemplo;
                 api.req_nombre := api.req_nombre (formData s);
                 api.req_project_type := api.req_project_type (formData s) |} s.

(** [disabled={loading || !formData.prompt.trim()}] on the submit
    button. *)
Definition submit_disabled (s : State) : bool :=
  loading s || negb (Js.truthy (Js.trim (api.req_prompt (formData s)))).

(** The form, and the submit button in it, is rendered only while
    [success] is false. *)
Definition form_rendered (s : State) : bool := negb (success s).

(* ---------------- the page over time ---------------- *)

(** What can happen next on the page: the user submits or edits the
    form, or the request awaited by the [i]-th submission in flight
    settles, the world then answering as [env] says. *)
Inductive Action :=
| Submit
| EditPrompt (value : Js.str)
| EditNombre (value : Js.str)
| ChooseProjectType (value : api.ProjectType)
| ExampleClick (ejemplo : Js.str)
| Settle (i : nat) (env : Env).

End MobileAppFromPromptPage.

(* ================================================================== *)
(** * The two pages, one [await] at a time                             *)
(* ================================================================== *)

(** An [async] handler runs up to an [await], stays suspended while the
    awaited work is in flight, and goes on when that work settles.
    Here every handler of the two pages is cut at each of its [await]s,
    those of the service functions it calls included, so that between
    any two of them the user can act and another handler can go on.  A
    request and the reading of its body count as one step: the world
    gives the whole response at once. *)

(** The asynchronous steps of the two workflows. *)
Inductive Step :=
| Compression      (* [await fileToBase64(...)] *)
| ModuleImport     (* [await import(...)] *)
| Analysis         (* POST /mobile-generator/analyze-image *)
| Creation         (* POST /mobile-generator/from-prompt *)
| Generation.      (* POST /mobile-generator/{id}/generate *)

Definition Step_eqb (a b : Step) : bool :=
  match a, b with
  | Compression, Compression | ModuleImport, ModuleImport
  | Analysis, Analysis | Creation, Creation | Generation, Generation => true
  | _, _ => false
  end.

(** The stretch of a handler between two [await]s, inside its [try]:
    [body] runs from the point where the awaited work settles.  When it
    reaches the next [await] ([Some]) the handler is suspended again and
    nothing else runs.  When it ends ([None]) or throws, the [catch]
    block runs on what was thrown, then the [finally] block, and the
    handler is over. *)
Definition stretch {S P : Type} (body : M S (option P))
    (catch : Js.Thrown -> M S unit) (finally : M S unit) : M S (option P) :=
  fun s l =>
    match try_catch body (fun err => bind (catch err) (fun _ => ret None)) s l with
    | (Normal (Some p), s', l') => (Normal (Some p), s', l')
    | (r, s', l') =>
        match finally s' l' with
        | (Normal _, s'', l'') => (r, s'', l'')
        | (Abrupt e, s'', l'') => (Abrupt e, s'', l'')
        end
    end.

Fixpoint replace_settled {P : Type} (i : nat) (next : option P) (l : list P)
    : list P :=
  match i, l with
  | _, [] => []
  | O, _ :: r => match next with Some p => p :: r | None => r end
  | S j, x :: r => x :: replace_settled j next r
  end.

Module ImagePageSteps.

Import imageAnalysisService MobileAppFromImagePage.
Local Open Scope js_scope.

(** The three handlers of the image page that await something. *)
Inductive Handler := ImageChange | AnalyzeImage | GenerateProject.

Definition Handler_eqb (a b : Handler) : bool :=
  match a, b with
  | ImageChange, ImageChange | AnalyzeImage, AnalyzeImage
  | GenerateProject, GenerateProject => true
  | _, _ => false
  end.

(** A handler suspended at an [await], with what its closure and the
    closures of the service functions it is in keep. *)
Inductive Pending :=
(* handleImageChange, at [await fileToBase64(file, true)] *)
| ImageChange_compressing (file : File)
(* handleAnalyzeImage, at [await fileToBase64(formData.imageFile, true)] *)
| AnalyzeImage_compressing (c : Closure)
(* handleAnalyzeImage, at [await import('../services/imageAnalysisService')] *)
| AnalyzeImage_importing (c : Closure) (base64Image : Js.str)
(* handleAnalyzeImage, at [await analyzeImageForProject(...)] *)
| AnalyzeImage_analyzing (c : Closure) (base64Image : Js.str)
(* handleGenerateProject, at [await fileToBase64(formData.imageFile, true)] *)
| GenerateProject_compressing (c : Closure)
(* handleGenerateProject, in [analyzeImageAndGenerateProject], at
   [await analyzeImageForProject(...)] *)
| GenerateProject_analyzing (c : Closure) (base64Image : Js.str)
(* the same, in [generateProjectFromDescription], at the create request *)
| GenerateProject_creating (c : Closure) (request : ProjectGenerationRequest)
(* the same, at the generate request *)
| GenerateProject_generating (c : Closure)
                             (createdApp : api.CreateFromPromptResponse).

Definition handler_of (p : Pending) : Handler :=
  match p with
  | ImageChange_compressing _ => ImageChange
  | AnalyzeImage_compressing _ | AnalyzeImage_importing _ _
  | AnalyzeImage_analyzing _ _ => AnalyzeImage
  | GenerateProject_compressing _ | GenerateProject_analyzing _ _
  | GenerateProject_creating _ _ | GenerateProject_generating _ _ =>
      GenerateProject
  end.

(** The step a suspended handler waits for. *)
Definition step_of (p : Pending) : Step :=
  match p with
  | ImageChange_compressing _ | AnalyzeImage_compressing _
  | GenerateProject_compressing _ => Compression
  | AnalyzeImage_importing _ _ => ModuleImport
  | AnalyzeImage_analyzing _ _ | GenerateProject_analyzing _ _ => Analysis
  | GenerateProject_creating _ _ => Creation
  | GenerateProject_generating _ _ => Generation
  end.

(* ---------------- the service functions, cut at their awaits ------ *)

(** The [catch] block of [generateProjectFromDescription] and of
    [analyzeImageAndGenerateProject]. *)
Definition failed_with (error : Js.Thrown) : ProjectGenerationResponse :=
  {| pg_success := false;
     pg_downloadUrl := None;
     pg_error := Some (Js.message_or error unknown_error) |}.

(** [analyzeImageAndGenerateProject] from its start to the point where
    the analysis it awaits has settled: it returns a failure, or goes on
    to call [generateProjectFromDescription] with this request. *)
Definition analysis_settled (env : Env) (base64Image : Js.str)
    (projectType : api.ProjectType) (projectName : option Js.str)
    : IO (ProjectGenerationResponse + ProjectGenerationRequest) :=
  try_catch
    (analysisResult <- analyzeImageForProject env base64Image projectType ;;
     if negb (ia_success analysisResult) ||
        negb (Js.truthy_opt (ia_description analysisResult))
     then
       ret (inl {| pg_success := false;
                   pg_downloadUrl := None;
                   pg_error :=
                     Some (Js.or_default (ia_error analysisResult)
                             (Js.lit "Error analizando imagen")) |})
     else
       ret (inr {| pg_description :=
                     match ia_description analysisResult with
                     | Some d => d
                     | None => []
                     end;
                   pg_projectType := projectType;
                   pg_nombre := projectName |}))
    (fun error => ret (inl (failed_with error))).

(** [generateProjectFromDescription] from its start to the point where
    the create request has settled: it returns a failure, or goes on to
    the generate request for the created record. *)
Definition creation_settled (env : Env) (request : ProjectGenerationRequest)
    : IO (ProjectGenerationResponse + api.CreateFromPromptResponse) :=
  try_catch
    (emit (EvFromPrompt (pg_description request) (pg_nombre request)
                        (pg_projectType request)) ;;
     match fetch_from_prompt env (pg_description request)
                             (pg_projectType request) (pg_nombre request) with
     | FetchRejected e => throw e
     | FetchResponse status _ _ json =>
         if negb (response_ok status)
         then throw (Js.new_Error
                       (Js.lit "Error creando aplicaci" ++ [Js.o_acute] ++
                        Js.lit "n: " ++ Js.Number_toString status))
         else match json with
              | inl e => throw e
              | inr createdApp => ret (inr createdApp)
              end
     end)
    (fun error => ret (inl (failed_with error))).

(** [generateProjectFromDescription] from the generate request to its
    end. *)
Definition generation_settled (env : Env)
    (createdApp : api.CreateFromPromptResponse) : IO ProjectGenerationResponse :=
  try_catch
    (emit (EvGenerate (api.res_id createdApp)) ;;
     match fetch_generate env (api.res_id createdApp) with
     | FetchRejected e => throw e
     | FetchResponse status contentType blob json =>
         if negb (response_ok status)
         then throw (Js.new_Error (Js.lit "Error generando proyecto: " ++
                                   Js.Number_toString status))
         else if is_zip contentType
         then
           emit (EvCreateObjectURL blob) ;;
           ret {| pg_success := true;
                  pg_downloadUrl := Some (createObjectURL env blob);
                  pg_error := None |}
         else match json with
              | inl e => throw e
              | inr result =>
                  ret {| pg_success := false;
                         pg_downloadUrl := None;
                         pg_error :=
                           Some (Js.or_default (gen_message result)
                                   (Js.lit "Error generando proyecto")) |}
              end
     end)
    (fun error => ret (failed_with error)).

(* ---------------- the handlers, cut at their awaits --------------- *)

Definition handleImageChange_catch (err : Js.Thrown) : M State unit :=
  modify (setError (Js.lit "Error procesando imagen: " ++
                    Js.message_or err unknown_error)).

Definition handleAnalyzeImage_catch (err : Js.Thrown) : M State unit :=
  modify (setError (Js.message_or err analyze_error)).

Definition handleGenerateProject_catch (err : Js.Thrown) : M State unit :=
  modify (setError (Js.message_or err generate_error)).

(** [handleGenerateProject] from the result of
    [analyzeImageAndGenerateProject] to the end of its [try] block. *)
Definition handleGenerateProject_then (formData : FormData)
    (result : ProjectGenerationResponse) : M State unit :=
  if pg_success result && Js.truthy_opt (pg_downloadUrl result)
  then
    let downloadUrl :=
      match pg_downloadUrl result with
      | Some u => u
      | None => []
      end in
    emit (EvDownload downloadUrl (download_name formData)) ;;
    emit (EvRevokeObjectURL downloadUrl) ;;
    modify (setSuccess (generated_message (projectType formData))) ;;
    modify (setFormData (fun _ => {| projectName := [];
                                     projectType := api.FLUTTER;
                                     imageFile := None |})) ;;
    modify (setImagePreview []) ;;
    modify (setImageInfo None) ;;
    modify (setAnalysisResult []) ;;
    emit EvClearFileInput
  else
    modify (setError (Js.or_default (pg_error result) generate_error)).

(** What a suspended handler does when the work it awaits settles, the
    world answering as [env] says: the state it leaves and the [await]
    it is suspended at next, if any. *)
Definition settle (env : Env) (p : Pending) : M State (option Pending) :=
  match p with
  | ImageChange_compressing file =>
      stretch
        (compressedBase64 <- lift (fileToBase64 env file true) ;;
         modify (setImagePreview compressedBase64) ;;
         let info := getImageInfo compressedBase64 in
         modify (setImageInfo (Some info)) ;;
         modify (setSuccess (image_loaded_message env info)) ;;
         ret None)
        handleImageChange_catch
        (modify (setIsCompressing false))
  | AnalyzeImage_compressing (file, formData) =>
      stretch
        (base64Image <- lift (fileToBase64 env file true) ;;
         ret (Some (AnalyzeImage_importing (file, formData) base64Image)))
        handleAnalyzeImage_catch
        (modify (setIsAnalyzing false))
  | AnalyzeImage_importing c base64Image =>
      (* the module is the one line 8 has loaded: the import is
         fulfilled, and the call of [analyzeImageForProject] sends the
         request *)
      stretch
        (ret (Some (AnalyzeImage_analyzing c base64Image)))
        handleAnalyzeImage_catch
        (modify (setIsAnalyzing false))
  | AnalyzeImage_analyzing (file, formData) base64Image =>
      stretch
        (result <- lift (analyzeImageForProject env base64Image
                           (projectType formData)) ;;
         (if ia_success result && Js.truthy_opt (ia_description result)
          then
            modify (setAnalysisResult
                      (match ia_description result with
                       | Some d => d
                       | None => []
                       end)) ;;
            modify (setSuccess analyzed_message)
          else
            modify (setError (Js.or_default (ia_error result) analyze_error))) ;;
         ret None)
        handleAnalyzeImage_catch
        (modify (setIsAnalyzing false))
  | GenerateProject_compressing (file, formData) =>
      stretch
        (base64Image <- lift (fileToBase64 env file true) ;;
         ret (Some (GenerateProject_analyzing (file, formData) base64Image)))
        handleGenerateProject_catch
        (modify (setIsGenerating false))
  | GenerateProject_analyzing (file, formData) base64Image =>
      stretch
        (r <- lift (analysis_settled env base64Image (projectType formData)
                      (Some (projectName formData))) ;;
         match r with
         | inl result => handleGenerateProject_then formData result ;; ret None
         | inr request =>
             ret (Some (GenerateProject_creating (file, formData) request))
         end)
        handleGenerateProject_catch
        (modify (setIsGenerating false))
  | GenerateProject_creating (file, formData) request =>
      stretch
        (r <- lift (try_catch (creation_settled env request)
                      (fun error => ret (inl (failed_with error)))) ;;
         match r with
         | inl result => handleGenerateProject_then formData result ;; ret None
         | inr createdApp =>
             ret (Some (GenerateProject_generating (file, formData) createdApp))
         end)
        handleGenerateProject_catch
        (modify (setIsGenerating false))
  | GenerateProject_generating (file, formData) createdApp =>
      stretch
        (result <- lift (try_catch (generation_settled env createdApp)
                           (fun error => ret (failed_with error))) ;;
         handleGenerateProject_then formData result ;;
         ret None)
        handleGenerateProject_catch
        (modify (setIsGenerating false))
  end.

(** The first [await] of a handler that has started. *)
Definition first_await (t : Task) : Pending :=
  match t with
  | Compressing file => ImageChange_compressing file
  | Analyzing c => AnalyzeImage_compressing c
  | Generating c => GenerateProject_compressing c
  end.

(** The steps of one handler run one after the other with nothing in
    between, at most [n] of them. *)
Fixpoint finish (n : nat) (env : Env) (p : Pending) : M State unit :=
  match n with
  | O => ret tt
  | S n' =>
      fun s l =>
        match settle env p s l with
        | (Normal (Some p'), s', l') => finish n' env p' s' l'
        | (Normal None, s', l') => (Normal tt, s', l')
        | (Abrupt e, s', l') => (Abrupt e, s', l')
        end
  end.

(* ---------------- the page over time ---------------- *)

(** The page between two events: its state and the handlers that are
    suspended, each at one [await]. *)
Record Page := {
  cells : State;
  suspended : list Pending
}.

Definition opened : Page := {| cells := initial; suspended := [] |}.

Definition started {C : Type} (first : C -> Pending) (page : Page)
    (r : State * option C) : Page :=
  match r with
  | (s1, None) => {| cells := s1; suspended := suspended page |}
  | (s1, Some c) => {| cells := s1; suspended := suspended page ++ [first c] |}
  end.

(** One event: the user acts on an affordance ([None] when it is
    disabled or absent), or the work the [i]-th suspended handler awaits
    settles and the handler runs to its next [await] or to its end. *)
Definition fire (a : Action) (page : Page) : option Page :=
  match a with
  | SelectFile file =>
      if fileInput_disabled (cells page) then None
      else Some (started ImageChange_compressing page
                   (handleImageChange_begin file (cells page)))
  | ClickAnalyze =>
      if analyze_disabled (cells page) then None
      else Some (started AnalyzeImage_compressing page
                   (handleAnalyzeImage_begin (cells page)))
  | ClickGenerate =>
      if generate_disabled (cells page) then None
      else Some (started GenerateProject_compressing page
                   (handleGenerateProject_begin (cells page)))
  | ClickClear =>
      if Js.truthy (imagePreview (cells page))
      then Some {| cells := fst (clearImage (cells page));
                   suspended := suspended page |}
      else None
  | TypeProjectName value =>
      Some {| cells := handleInputChange_projectName value (cells page);
              suspended := suspended page |}
  | ChooseProjectType value =>
      Some {| cells := handleInputChange_projectType value (cells page);
              suspended := suspended page |}
  | Settle i env =>
      match nth_error (suspended page) i with
      | None => None
      | Some p =>
          match settle env p (cells page) [] with
          | (Normal next, s', _) =>
              Some {| cells := s';
                      suspended := replace_settled i next (suspended page) |}
          | (Abrupt _, s', _) =>
              Some {| cells := s';
                      suspended := replace_settled i None (suspended page) |}
          end
      end
  end.

Fixpoint fire_all (actions : list Action) (page : Page) : option Page :=
  match actions with
  | [] => Some page
  | a :: rest =>
      match fire a page with
      | Some page' => fire_all rest page'
      | None => None
      end
  end.

(** The pages the user can be looking at. *)
Definition reachable (page : Page) : Prop :=
  exists actions, fire_all actions opened = Some page.

(** How many runs of a handler are in flight. *)
Definition runs (h : Handler) (page : Page) : nat :=
  List.length (filter (fun p => Handler_eqb (handler_of p) h) (suspended page)).

(** How many steps of a kind are in flight. *)
Definition in_flight (k : Step) (page : Page) : nat :=
  List.length (filter (fun p => Step_eqb (step_of p) k) (suspended page)).

End ImagePageSteps.

Module PromptPageSteps.

Import apiService MobileAppFromPromptPage.
Local Open Scope js_scope.

(** [handleSubmit] suspended at one of its two [await]s. *)
Inductive Pending :=
(* at [await mobileAppsApi.createFromPrompt(formData)] *)
| Submit_creating (formData : api.CreateFromPromptRequest)
(* at [await mobileAppsApi.generateProject(app.id)] *)
| Submit_generating (app : api.CreateFromPromptResponse).

Definition step_of (p : Pending) : Step :=
  match p with
  | Submit_creating _ => Creation
  | Submit_generating _ => Generation
  end.

Definition handleSubmit_catch (error : Js.Thrown) : M State unit :=
  modify (setError (Some (classify error))).

Definition settle (env : Env) (p : Pending) : M State (option Pending) :=
  match p with
  | Submit_creating formData =>
      stretch
        (app <- lift (mobileAppsApi.createFromPrompt env formData) ;;
         ret (Some (Submit_generating app)))
        handleSubmit_catch
        (modify (setLoading false))
  | Submit_generating app =>
      stretch
        (blob <- lift (mobileAppsApi.generateProject env (api.res_id app)) ;;
         emit (EvCreateObjectURL blob) ;;
         let url := createObjectURL env blob in
         emit (EvDownload url (download_name app)) ;;
         emit (EvRevokeObjectURL url) ;;
         modify (setSuccess true) ;;
         emit (EvNavigateLater (api.res_nombre app) (api.res_id app)) ;;
         ret None)
        handleSubmit_catch
        (modify (setLoading false))
  end.

Fixpoint finish (n : nat) (env : Env) (p : Pending) : M State unit :=
  match n with
  | O => ret tt
  | S n' =>
      fun s l =>
        match settle env p s l with
        | (Normal (Some p'), s', l') => finish n' env p' s' l'
        | (Normal None, s', l') => (Normal tt, s', l')
        | (Abrupt e, s', l') => (Abrupt e, s', l')
        end
  end.

Record Page := {
  cells : State;
  suspended : list Pending
}.

Definition opened : Page := {| cells := initial; suspended := [] |}.

(** One event; [None] when the form is not rendered or submit is
    disabled, or when no such submission is in flight.  The browser's
    own constraint validation of the form ([required], [minLength]) can
    only block more submissions than the [disabled] attribute does; it
    is not modelled. *)
Definition fire (a : Action) (page : Page) : option Page :=
  match a with
  | Submit =>
      if form_rendered (cells page) && negb (submit_disabled (cells page))
      then
        match handleSubmit_begin (cells page) with
        | (s1, None) => Some {| cells := s1; suspended := suspended page |}
        | (s1, Some c) =>
            Some {| cells := s1;
                    suspended := suspended page ++ [Submit_creating c] |}
        end
      else None
  | Settle i env =>
      match nth_error (suspended page) i with
      | None => None
      | Some p =>
          match settle env p (cells page) [] with
          | (Normal next, s', _) =>
              Some {| cells := s';
                      suspended := replace_settled i next (suspended page) |}
          | (Abrupt _, s', _) =>
              Some {| cells := s';
                      suspended := replace_settled i None (suspended page) |}
          end
      end
  | EditPrompt value =>
      Some {| cells :=
                setFormData
                  {| api.req_prompt := value;
                     api.req_nombre := api.req_nombre (formData (cells page));
                     api.req_project_type :=
                       api.req_project_type (formData (cells page)) |}
                  (cells page);
              suspended := suspended page |}
  | EditNombre value =>
      Some {| cells :=
                setFormData
                  {| api.req_prompt := api.req_prompt (formData (cells page));
                     api.req_nombre := Some value;
                     api.req_project_type :=
                       api.req_project_type (formData (cells page)) |}
                  (cells page);
              suspended := suspended page |}
  | ChooseProjectType value =>
      Some {| cells :=
                setFormData
                  {| api.req_prompt := api.req_prompt (formData (cells page));
                     api.req_nombre := api.req_nombre (formData (cells page));
                     api.req_project_type := Some value |}
                  (cells page);
              suspended := suspended page |}
  | ExampleClick ejemplo =>
      Some {| cells := handleExampleClick ejemplo (cells page);
              suspended := suspended page |}
  end.

Fixpoint fire_all (actions : list Action) (page : Page) : option Page :=
  match actions with
  | [] => Some page
  | a :: rest =>
      match fire a page with
      | Some page' => fire_all rest page'
      | None => None
      end
  end.

Definition reachable (page : Page) : Prop :=
  exists actions, fire_all actions opened = Some page.

Definition in_flight (k : Step) (page : Page) : nat :=
  List.length (filter (fun p => Step_eqb (step_of p) k) (suspended page)).

End PromptPageSteps.

(* ================================================================== *)
(** * src/services/apiService.ts: the session and the other requests  *)
(* ================================================================== *)

(** The functions of [apiService.ts] that read or write [localStorage],
    and the requests of [mobileAppsApi] besides the two embedded above.
    Here the browser is a state: the two entries of [localStorage] the
    code uses, the path of the page, and the requests sent so far, each
    with the [Authorization] header the request interceptor gave it.
    What the server answers to a request is an argument of the function
    that sends it. *)
Module session.

Local Open Scope js_scope.

(** [User], [AuthResponse], [LoginRequest], [RegisterRequest],
    [MobileAppConfig], [CreateMobileAppRequest] of [types/api.ts]. *)
Inductive Rol := admin | editor.

Record User := {
  u_id : Js.str;
  u_nombre : Js.str;
  u_email : Js.str;
  u_rol : Rol
}.

Record AuthResponse := {
  token : Js.str;
  usuario : User
}.

Record LoginRequest := {
  login_email : Js.str;
  login_password : Js.str
}.

Record RegisterRequest := {
  reg_nombre : Js.str;
  reg_email : Js.str;
  reg_password : Js.str;
  reg_rol : option Rol
}.

Record MobileAppConfig := {
  package_name : option Js.str;
  version : option Js.str;
  config_description : option Js.str;
  features : option (list Js.str);
  theme : option Js.str
}.

Record CreateMobileAppRequest := {
  cm_nombre : option Js.str;
  cm_xml : option Js.str;
  cm_prompt : option Js.str;
  cm_mockup_id : option Js.str;
  cm_project_type : option api.ProjectType;
  cm_config : option MobileAppConfig
}.

(** The two keys of [localStorage] the code uses. *)
Inductive Key := KToken | KUser.

Record Storage := {
  item_token : option Js.str;
  item_user : option Js.str
}.

Definition getItem (k : Key) (st : Storage) : option Js.str :=
  match k with
  | KToken => item_token st
  | KUser => item_user st
  end.

Definition setItem (k : Key) (v : Js.str) (st : Storage) : Storage :=
  match k with
  | KToken => {| item_token := Some v; item_user := item_user st |}
  | KUser => {| item_token := item_token st; item_user := Some v |}
  end.

Definition removeItem (k : Key) (st : Storage) : Storage :=
  match k with
  | KToken => {| item_token := None; item_user := item_user st |}
  | KUser => {| item_token := item_token st; item_user := None |}
  end.

(** [JSON.stringify] and [JSON.parse] on the stored user: parsing
    throws on text that is not JSON and may yield [null]. *)
Record Json := {
  stringify : User -> Js.str;
  parse : Js.str -> Js.Thrown + option User
}.

Inductive Method := GET | POST | PATCH | DELETE.

(** The body of a request. *)
Inductive Body :=
| NoBody
| EmptyObject
| Credentials (credentials : LoginRequest)
| Registration (userData : RegisterRequest)
| MobileAppData (mobileApp : CreateMobileAppRequest) (user_id : option Js.str)
| FromPromptData (prompt : Js.str) (nombre : option Js.str)
                 (project_type : api.ProjectType)
                 (config : option MobileAppConfig).

Record Request := {
  method : Method;
  url : Js.str;
  authorization : option Js.str;
  body : Body
}.

Record Browser := {
  localStorage : Storage;
  pathname : Js.str;
  sent : list Request
}.

Definition with_storage (f : Storage -> Storage) (b : Browser) : Browser :=
  {| localStorage := f (localStorage b); pathname := pathname b;
     sent := sent b |}.

(** [window.location.href = path] *)
Definition navigate (path : Js.str) (b : Browser) : Browser :=
  {| localStorage := localStorage b; pathname := path; sent := sent b |}.

Definition send (r : Request) (b : Browser) : Browser :=
  {| localStorage := localStorage b; pathname := pathname b;
     sent := sent b ++ [r] |}.

(* ---------------- authApi, the local part ---------------- *)

(** [logout], [isAuthenticated] and [getCurrentUser] come first because
    [handleUnauthorized] calls [authApi.logout]; [authApi] below gives
    them their names of the source. *)
Module authApi_local.

Definition logout : M Browser unit :=
  modify (with_storage (removeItem KToken)) ;;
  modify (with_storage (removeItem KUser)).

(** [Boolean(localStorage.getItem("token"))] *)
Definition isAuthenticated (b : Browser) : bool :=
  Js.truthy_opt (getItem KToken (localStorage b)).

Definition getCurrentUser (json : Json) : M Browser (option User) :=
  fun b l =>
    match getItem KUser (localStorage b) with
    | None => ret None b l
    | Some userStr =>
        if negb (Js.truthy userStr) then ret None b l
        else match parse json userStr with
             | inr user => ret user b l
             | inl _ =>
                 (modify (with_storage (removeItem KUser)) ;; ret None) b l
             end
    end.

End authApi_local.

(* ---------------- the axios instance ---------------- *)

Definition login_path : Js.str := Js.lit "/login".

(** [handleUnauthorized] *)
Definition handleUnauthorized : M Browser unit :=
  fun b l =>
    if negb (Js.eqb (pathname b) login_path)
    then (authApi_local.logout ;;
          modify (navigate login_path) ;;
          emit EvLogoutRedirect) b l
    else ret tt b l.

(** The request interceptor: the header is set when a token is
    stored and truthy. *)
Definition authorization_header (st : Storage) : option Js.str :=
  match getItem KToken st with
  | Some token =>
      if Js.truthy token then Some (Js.lit "Bearer " ++ token) else None
  | None => None
  end.

(** One request through the axios instance [api]: the request
    interceptor, the answer, the response interceptor. *)
Definition request {D : Type} (m : Method) (url : Js.str) (body : Body)
    (answer : AxiosResult D) : M Browser D :=
  (fun b l =>
     modify (send {| method := m; url := url;
                     authorization := authorization_header (localStorage b);
                     body := body |}) b l) ;;
  match answer with
  | AxiosNoResponse e => throw (apiService.axios_network_error e)
  | AxiosResponse status _ data =>
      if response_ok status then ret data
      else
        (if status =? 401 then handleUnauthorized else ret tt) ;;
        throw (apiService.axios_status_error status)
  end.

(* ---------------- authApi, the remote part ---------------- *)

Module authApi.

Definition logout : M Browser unit := authApi_local.logout.

Definition isAuthenticated : Browser -> bool := authApi_local.isAuthenticated.

Definition getCurrentUser : Json -> M Browser (option User) :=
  authApi_local.getCurrentUser.

Definition login (json : Json) (credentials : LoginRequest)
    (answer : AxiosResult AuthResponse) : M Browser AuthResponse :=
  try_catch
    (data <- request POST (Js.lit "/auth/login") (Credentials credentials)
               answer ;;
     modify (with_storage (setItem KToken (token data))) ;;
     modify (with_storage (setItem KUser (stringify json (usuario data)))) ;;
     ret data)
    (fun error => throw error).

Definition register (json : Json) (userData : RegisterRequest)
    (answer : AxiosResult AuthResponse) : M Browser AuthResponse :=
  try_catch
    (data <- request POST (Js.lit "/auth/register") (Registration userData)
               answer ;;
     modify (with_storage (setItem KToken (token data))) ;;
     modify (with_storage (setItem KUser (stringify json (usuario data)))) ;;
     ret data)
    (fun error => throw error).

Definition getProfile {D : Type} (answer : AxiosResult D) : M Browser D :=
  try_catch (request GET (Js.lit "/auth/profile") NoBody answer)
            (fun error => throw error).

End authApi.

(* ---------------- mobileAppsApi ---------------- *)

Module mobileAppsApi.

Definition not_authenticated : Js.Thrown :=
  apiService.mobileAppsApi.not_authenticated.

(** [!user || !user.id] *)
Definition no_user (user : option User) : bool :=
  match user with
  | None => true
  | Some u => negb (Js.truthy (u_id u))
  end.

Definition user_id_of (user : option User) : option Js.str :=
  match user with
  | Some u => Some (u_id u)
  | None => None
  end.

Definition collection : Js.str := Js.lit "/mobile-generator".

(** [`/mobile-generator/${id}`] *)
Definition item (id : Js.str) : Js.str := collection ++ Js.lit "/" ++ id.

Definition getAll (answer : AxiosResult (list api.MobileApp))
    : M Browser (list api.MobileApp) :=
  try_catch (request GET collection NoBody answer) (fun error => throw error).

Definition getById (id : Js.str) (answer : AxiosResult api.MobileApp)
    : M Browser api.MobileApp :=
  try_catch (request GET (item id) NoBody answer) (fun error => throw error).

Definition create (json : Json) (mobileApp : CreateMobileAppRequest)
    (answer : AxiosResult api.MobileApp) : M Browser api.MobileApp :=
  try_catch
    (user <- authApi.getCurrentUser json ;;
     if no_user user then throw not_authenticated
     else request POST collection
            (MobileAppData mobileApp (user_id_of user)) answer)
    (fun error => throw error).

Definition createFromPrompt (json : Json)
    (req : api.CreateFromPromptRequest) (config : option MobileAppConfig)
    (answer : AxiosResult api.CreateFromPromptResponse)
    : M Browser api.CreateFromPromptResponse :=
  try_catch
    (user <- authApi.getCurrentUser json ;;
     if no_user user then throw not_authenticated
     else request POST (collection ++ Js.lit "/from-prompt")
            (FromPromptData (api.req_prompt req) (api.req_nombre req)
               (match api.req_project_type req with
                | Some t => t
                | None => api.FLUTTER
                end)
               config)
            answer)
    (fun error => throw error).

Definition createFromXml (json : Json) (xml : Js.str)
    (projectType : api.ProjectType) (answer : AxiosResult api.MobileApp)
    : M Browser api.MobileApp :=
  try_catch
    (user <- authApi.getCurrentUser json ;;
     if no_user user then throw not_authenticated
     else request POST collection
            (MobileAppData
               {| cm_nombre := None; cm_xml := Some xml; cm_prompt := None;
                  cm_mockup_id := None; cm_project_type := Some projectType;
                  cm_config := None |}
               None)
            answer)
    (fun error => throw error).

Definition createFromMockup (json : Json) (mockupId : Js.str)
    (projectType : api.ProjectType) (answer : AxiosResult api.MobileApp)
    : M Browser api.MobileApp :=
  try_catch
    (user <- authApi.getCurrentUser json ;;
     if no_user user then throw not_authenticated
     else request POST collection
            (MobileAppData
               {| cm_nombre := None; cm_xml := None; cm_prompt := None;
                  cm_mockup_id := Some mockupId;
                  cm_project_type := Some projectType;
                  cm_config := None |}
               None)
            answer)
    (fun error => throw error).

Definition generateFlutter (id : Js.str) (answer : AxiosResult Blob)
    : M Browser Blob :=
  try_catch
    (request POST (item id ++ Js.lit "/generate-flutter") EmptyObject answer)
    (fun error => throw error).

Definition generateProject (id : Js.str) (answer : AxiosResult Blob)
    : M Browser Blob :=
  try_catch
    (request POST (item id ++ Js.lit "/generate") EmptyObject answer)
    (fun error => throw error).

Definition generateFlutterFromXml (json : Json) (xml : Js.str)
    (created : AxiosResult api.MobileApp)
    (generated : Js.str -> AxiosResult Blob) : M Browser Blob :=
  try_catch
    (mobileApp <- createFromXml json xml api.FLUTTER created ;;
     generateFlutter (api.id mobileApp) (generated (api.id mobileApp)))
    (fun error => throw error).

Definition generateAngularFromXml (json : Json) (xml : Js.str)
    (created : AxiosResult api.MobileApp)
    (generated : Js.str -> AxiosResult Blob) : M Browser Blob :=
  try_catch
    (mobileApp <- createFromXml json xml api.ANGULAR created ;;
     generateProject (api.id mobileApp) (generated (api.id mobileApp)))
    (fun error => throw error).

Definition update (id : Js.str) (data : CreateMobileAppRequest)
    (answer : AxiosResult api.MobileApp) : M Browser api.MobileApp :=
  try_catch (request PATCH (item id) (MobileAppData data None) answer)
            (fun error => throw error).

Definition delete (id : Js.str) (answer : AxiosResult unit) : M Browser unit :=
  try_catch (request DELETE (item id) NoBody answer)
            (fun error => throw error).

End mobileAppsApi.

End session.

(* ================================================================== *)
(** * routes: ProtectedRoute                                           *)
(* ================================================================== *)

Module Routes.

(** What a route element renders: its children, or a [Navigate]. *)
Inductive Rendered :=
| Children
| Navigate (to : Js.str) (replace : bool).

Definition ProtectedRoute (b : session.Browser) : Rendered :=
  if negb (session.authApi.isAuthenticated b)
  then Navigate session.login_path true
  else Children.

End Routes.


(* ================================================================== *)
(** * pages/MobileAppsPage.tsx                                         *)
(* ================================================================== *)

Module MobileAppsPage.

Import apiService.
Local Open Scope js_scope.

Record State := {
  mobileApps : list api.MobileApp;
  loading : bool;
  error : option Js.str;
  generatingId : option Js.str;
  searchTerm : Js.str
}.

Definition setError (v : option Js.str) (s : State) : State :=
  {| mobileApps := mobileApps s; loading := loading s; error := v;
     generatingId := generatingId s; searchTerm := searchTerm s |}.

Definition setGeneratingId (v : option Js.str) (s : State) : State :=
  {| mobileApps := mobileApps s; loading := loading s; error := error s;
     generatingId := v; searchTerm := searchTerm s |}.

(** [`${app.nombre}-${app.project_type}.zip`] *)
Definition download_name (app : api.MobileApp) : Js.str :=
  api.nombre app ++ Js.lit "-" ++
  api.ProjectType_value (api.project_type app) ++ Js.lit ".zip".

Definition handleGenerate (env : Env) (app : api.MobileApp) : M State unit :=
  try_finally
    (try_catch
       (modify (setGeneratingId (Some (api.id app))) ;;
        blob <- lift (mobileAppsApi.generateProject env (api.id app)) ;;
        emit (EvCreateObjectURL blob) ;;
        let url := createObjectURL env blob in
        emit (EvDownload url (download_name app)) ;;
        emit (EvRevokeObjectURL url))
       (fun error =>
          modify (setError
                    (Some (Js.lit "Error generando proyecto " ++
                           api.ProjectType_value (api.project_type app))))))
    (modify (setGeneratingId None)).

Inductive Icon := Bot | Globe | Smartphone | Plus.

Record CreationMethod := {
  icon : Icon;
  icon_className : Js.str;
  text : Js.str;
  color : Js.str
}.

Definition getCreationMethod (app : api.MobileApp) : CreationMethod :=
  if Js.truthy_opt (api.prompt app) && negb (Js.truthy_opt (api.xml app)) &&
     negb (Js.truthy_opt (api.mockup_id app))
  then {| icon := Bot; icon_className := Js.lit "w-4 h-4 text-orange-500";
          text := Js.lit "IA"; color := Js.lit "text-orange-600" |}
  else if Js.truthy_opt (api.xml app)
  then {| icon := Globe; icon_className := Js.lit "w-4 h-4 text-blue-500";
          text := Js.lit "XML"; color := Js.lit "text-blue-600" |}
  else if Js.truthy_opt (api.mockup_id app)
  then {| icon := Smartphone; icon_className := Js.lit "w-4 h-4 text-green-500";
          text := Js.lit "Mockup"; color := Js.lit "text-green-600" |}
  else {| icon := Plus; icon_className := Js.lit "w-4 h-4 text-gray-500";
          text := Js.lit "Manual"; color := Js.lit "text-gray-600" |}.

(* ---------------- the list: loading, deleting, searching ---------- *)

Definition setMobileApps (v : list api.MobileApp) (s : State) : State :=
  {| mobileApps := v; loading := loading s; error := error s;
     generatingId := generatingId s; searchTerm := searchTerm s |}.

Definition setLoading (v : bool) (s : State) : State :=
  {| mobileApps := mobileApps s; loading := v; error := error s;
     generatingId := generatingId s; searchTerm := searchTerm s |}.

Definition setSearchTerm (v : Js.str) (s : State) : State :=
  {| mobileApps := mobileApps s; loading := loading s; error := error s;
     generatingId := generatingId s; searchTerm := v |}.

(** The [useState] defaults. *)
Definition initial : State :=
  {| mobileApps := []; loading := true; error := None;
     generatingId := None; searchTerm := [] |}.

(** The page together with the browser its requests go through. *)
Definition Page : Type := State * session.Browser.

(** A call of [apiService] made from the page. *)
Definition on_browser {A : Type} (m : M session.Browser A) : M Page A :=
  fun pg l =>
    match m (snd pg) l with
    | (r, b', l') => (r, (fst pg, b'), l')
    end.

(** A [useState] setter of the page. *)
Definition on_page (f : State -> State) : M Page unit :=
  modify (fun pg => (f (fst pg), snd pg)).

Definition load_error : Js.str :=
  Js.lit "Error cargando aplicaciones m" ++ [Js.o_acute] ++ Js.lit "viles".

Definition delete_error : Js.str :=
  Js.lit "Error eliminando aplicaci" ++ [Js.o_acute] ++ Js.lit "n m" ++
  [Js.o_acute] ++ Js.lit "vil".

Definition loadMobileApps (answer : AxiosResult (list api.MobileApp))
    : M Page unit :=
  try_finally
    (try_catch
       (on_page (setLoading true) ;;
        apps <- on_browser (session.mobileAppsApi.getAll answer) ;;
        on_page (setMobileApps apps))
       (fun error => on_page (setError (Some load_error))))
    (on_page (setLoading false)).

(** [handleDelete]: [confirmed] is what the user answers to
    [confirm(...)]. *)
Definition handleDelete (confirmed : bool) (id nombre : Js.str)
    (deleted : AxiosResult unit) (reloaded : AxiosResult (list api.MobileApp))
    : M Page unit :=
  if negb confirmed then ret tt
  else
    try_catch
      (on_browser (session.mobileAppsApi.delete id deleted) ;;
       loadMobileApps reloaded)
      (fun error => on_page (setError (Some delete_error))).

(** [type === ProjectType.FLUTTER] *)
Definition is_flutter (t : api.ProjectType) : bool :=
  match t with api.FLUTTER => true | api.ANGULAR => false end.

(** [type === ProjectType.ANGULAR] *)
Definition is_angular (t : api.ProjectType) : bool :=
  match t with api.ANGULAR => true | api.FLUTTER => false end.

Definition getProjectColor (t : api.ProjectType) : Js.str :=
  if is_flutter t then Js.lit "bg-blue-50 border-blue-200"
  else Js.lit "bg-red-50 border-red-200".

(** [filteredApps]; [toLowerCase] is [String.prototype.toLowerCase]. *)
Definition filteredApps (toLowerCase : Js.str -> Js.str) (s : State)
    : list api.MobileApp :=
  filter
    (fun app =>
       Js.includes (toLowerCase (searchTerm s)) (toLowerCase (api.nombre app)) ||
       match api.prompt app with
       | Some prompt =>
           Js.truthy prompt &&
           Js.includes (toLowerCase (searchTerm s)) (toLowerCase prompt)
       | None => false
       end)
    (mobileApps s).

(** The four counters of the page. *)
Definition total_apps (s : State) : nat := List.length (mobileApps s).

Definition created_with_ia (s : State) : nat :=
  List.length
    (filter (fun app =>
               Js.truthy_opt (api.prompt app) &&
               negb (Js.truthy_opt (api.xml app)) &&
               negb (Js.truthy_opt (api.mockup_id app)))
            (mobileApps s)).

Definition flutter_apps (s : State) : nat :=
  List.length (filter (fun app => is_flutter (api.project_type app))
                      (mobileApps s)).

Definition angular_apps (s : State) : nat :=
  List.length (filter (fun app => is_angular (api.project_type app))
                      (mobileApps s)).

(** What the list area shows. *)
Inductive ListArea :=
| Spinner
| NothingFound (searched : bool)
| Cards (apps : list api.MobileApp).

Definition list_area (toLowerCase : Js.str -> Js.str) (s : State) : ListArea :=
  if loading s then Spinner
  else match filteredApps toLowerCase s with
       | [] => NothingFound (Js.truthy (searchTerm s))
       | apps => Cards apps
       end.

End MobileAppsPage.

(* ================================================================== *)
(** * components/MobileAppManager.tsx                                  *)
(* ================================================================== *)

Module MobileAppManager.

Import apiService.
Local Open Scope js_scope.

(** The [useState] cells [handleGenerate] writes. *)
Record State := {
  error : option Js.str;
  generatingId : option Js.str
}.

Definition setError (v : option Js.str) (s : State) : State :=
  {| error := v; generatingId := generatingId s |}.

Definition setGeneratingId (v : option Js.str) (s : State) : State :=
  {| error := error s; generatingId := v |}.

Definition handleGenerate (env : Env) (app : api.MobileApp) : M State unit :=
  try_finally
    (try_catch
       (modify (setGeneratingId (Some (api.id app))) ;;
        blob <- lift (mobileAppsApi.generateProject env (api.id app)) ;;
        emit (EvCreateObjectURL blob) ;;
        let url := createObjectURL env blob in
        emit (EvDownload url
                (api.nombre app ++ Js.lit "-" ++
                 api.ProjectType_value (api.project_type app) ++
                 Js.lit ".zip")) ;;
        emit (EvRevokeObjectURL url))
       (fun error =>
          modify (setError
                    (Some (Js.lit "Error generando proyecto " ++
                           api.ProjectType_value (api.project_type app))))))
    (modify (setGeneratingId None)).

End MobileAppManager.

(* ================================================================== *)
(** * Sample values                                                    *)
(* ================================================================== *)

Module Samples.

(** A 5000 x 3000 PNG of 4 MB. *)
Definition png_file : File :=
  {| file_type := Js.lit "image/png"; file_size := 4000000; file_handle := 1 |}.

Definition png_image : Image := {| img_width := 5000; img_height := 3000 |}.

Definition jpeg_data_url : Js.str := Js.lit "data:image/jpeg;base64,/9j/4AAQSkZJRg==".

Definition zip_blob : Blob :=
  {| blob_type := Js.lit "application/zip"; blob_handle := 2 |}.

(** A blob holding the JSON text of an error, not an archive. *)
Definition json_error_blob : Blob :=
  {| blob_type := Js.lit "application/json"; blob_handle := 3 |}.

(** The record the server creates for a request without a name: the
    server chooses the name. *)
Definition gym_app : api.CreateFromPromptResponse :=
  {| api.res_id := Js.lit "app-1";
     api.res_nombre := Js.lit "Gym App";
     api.res_prompt := Js.lit "crea una app de gimnasio y fitness";
     api.res_project_type := api.FLUTTER;
     api.res_user_id := Js.lit "user-1" |}.

(** A world where every step succeeds. *)
Definition world : Env :=
  {| decode := fun _ => Some png_image;
     toDataURL := fun _ _ _ _ => jpeg_data_url;
     readAsDataURL := fun _ => inr jpeg_data_url;
     createObjectURL := fun _ => Js.lit "blob:1";
     toUpperCase := fun s => s;
     currentUser := Some (Some (Js.lit "user-1"));
     onLoginPage := false;
     fetch_analyze_image := fun _ _ =>
       FetchResponse 200 (Some (Js.lit "application/json")) json_error_blob
         (inr {| ia_success := true;
                 ia_description := Some (Js.lit "una pantalla de login");
                 ia_error := None |});
     fetch_from_prompt := fun _ _ _ =>
       FetchResponse 201 (Some (Js.lit "application/json")) json_error_blob
         (inr gym_app);
     fetch_generate := fun _ =>
       FetchResponse 201 (Some (Js.lit "application/zip")) zip_blob
         (inl (Js.new_Error (Js.lit "Unexpected token P in JSON")));
     axios_from_prompt := fun _ _ _ =>
       AxiosResponse 201 (Some (Js.lit "application/json")) gym_app;
     axios_generate := fun _ =>
       AxiosResponse 201 (Some (Js.lit "application/zip")) zip_blob |}.

(** The same world, but the analysis answers [{success: false,
    error: "X"}]. *)
Definition world_analysis_says_X : Env :=
  {| decode := decode world;
     toDataURL := toDataURL world;
     readAsDataURL := readAsDataURL world;
     createObjectURL := createObjectURL world;
     toUpperCase := toUpperCase world;
     currentUser := currentUser world;
     onLoginPage := onLoginPage world;
     fetch_analyze_image := fun _ _ =>
       FetchResponse 200 (Some (Js.lit "application/json")) json_error_blob
         (inr {| ia_success := false;
                 ia_description := None;
                 ia_error := Some (Js.lit "X") |});
     fetch_from_prompt := fetch_from_prompt world;
     fetch_generate := fetch_generate world;
     axios_from_prompt := axios_from_prompt world;
     axios_generate := axios_generate world |}.

(** The same world, but the generate endpoint answers 200 with a JSON
    error body instead of an archive. *)
Definition world_generate_says_json : Env :=
  {| decode := decode world;
     toDataURL := toDataURL world;
     readAsDataURL := readAsDataURL world;
     createObjectURL := createObjectURL world;
     toUpperCase := toUpperCase world;
     currentUser := currentUser world;
     onLoginPage := onLoginPage world;
     fetch_analyze_image := fetch_analyze_image world;
     fetch_from_prompt := fetch_from_prompt world;
     fetch_generate := fun _ =>
       FetchResponse 200 (Some (Js.lit "application/json; charset=utf-8"))
         json_error_blob
         (inr {| gen_message := Some (Js.lit "No se pudo generar") |});
     axios_from_prompt := axios_from_prompt world;
     axios_generate := fun _ =>
       AxiosResponse 200 (Some (Js.lit "application/json; charset=utf-8"))
         json_error_blob |}.

(** The image page with the PNG selected, a name typed and an analysis
    on screen. *)
Definition image_page_ready : MobileAppFromImagePage.State :=
  {| MobileAppFromImagePage.formData :=
       {| MobileAppFromImagePage.projectName := Js.lit "tienda";
          MobileAppFromImagePage.projectType := api.ANGULAR;
          MobileAppFromImagePage.imageFile := Some png_file |};
     MobileAppFromImagePage.isAnalyzing := false;
     MobileAppFromImagePage.isGenerating := false;
     MobileAppFromImagePage.analysisResult := Js.lit "un formulario de registro";
     MobileAppFromImagePage.error := [];
     MobileAppFromImagePage.success := Js.lit "ok";
     MobileAppFromImagePage.imagePreview := jpeg_data_url;
     MobileAppFromImagePage.imageInfo :=
       Some (imageAnalysisService.getImageInfo jpeg_data_url);
     MobileAppFromImagePage.isCompressing := false |}.

(** The prompt page with a prompt typed and no name. *)
Definition prompt_page_with (prompt : Js.str) : MobileAppFromPromptPage.State :=
  {| MobileAppFromPromptPage.loading := false;
     MobileAppFromPromptPage.error := None;
     MobileAppFromPromptPage.success := false;
     MobileAppFromPromptPage.formData :=
       {| api.req_prompt := prompt;
          api.req_nombre := Some [];
          api.req_project_type := Some api.FLUTTER |} |}.

(** Three letters and seven spaces: ten code units, three once
    trimmed. *)
Definition padded_prompt : Js.str := Js.lit "abc       ".

End Samples.

(* ================================================================== *)
(** * Further sample values                                            *)
(* ================================================================== *)

Module MoreSamples.

(** The same world as [Samples.world], with nobody signed in. *)
Definition world_without_user : Env :=
  {| decode := decode Samples.world;
     toDataURL := toDataURL Samples.world;
     readAsDataURL := readAsDataURL Samples.world;
     createObjectURL := createObjectURL Samples.world;
     toUpperCase := toUpperCase Samples.world;
     currentUser := None;
     onLoginPage := onLoginPage Samples.world;
     fetch_analyze_image := fetch_analyze_image Samples.world;
     fetch_from_prompt := fetch_from_prompt Samples.world;
     fetch_generate := fetch_generate Samples.world;
     axios_from_prompt := axios_from_prompt Samples.world;
     axios_generate := axios_generate Samples.world |}.

(** The same world, but the create request is answered 401. *)
Definition world_create_unauthorized : Env :=
  {| decode := decode Samples.world;
     toDataURL := toDataURL Samples.world;
     readAsDataURL := readAsDataURL Samples.world;
     createObjectURL := createObjectURL Samples.world;
     toUpperCase := toUpperCase Samples.world;
     currentUser := currentUser Samples.world;
     onLoginPage := onLoginPage Samples.world;
     fetch_analyze_image := fetch_analyze_image Samples.world;
     fetch_from_prompt := fetch_from_prompt Samples.world;
     fetch_generate := fetch_generate Samples.world;
     axios_from_prompt := fun _ _ _ =>
       AxiosResponse 401 (Some (Js.lit "application/json")) Samples.gym_app;
     axios_generate := axios_generate Samples.world |}.

(** A strip of 1025 x 1 pixels. *)
Definition strip_file : File :=
  {| file_type := Js.lit "image/png"; file_size := 2000; file_handle := 4 |}.

Definition strip_image : Image := {| img_width := 1025; img_height := 1 |}.

(** The sample world seen through a browser's canvas: the strip decodes
    to its 1025 x 1 pixels, and a canvas without pixels encodes to
    "data:,", as HTML has [toDataURL] do. *)
Definition browser : Env :=
  {| decode := fun file =>
       if N.eqb (file_handle file) 4 then Some strip_image
       else decode Samples.world file;
     toDataURL := fun _ c _ _ =>
       if (canvas_width c =? 0) || (canvas_height c =? 0)
       then Js.lit "data:,"
       else Samples.jpeg_data_url;
     readAsDataURL := readAsDataURL Samples.world;
     createObjectURL := createObjectURL Samples.world;
     toUpperCase := toUpperCase Samples.world;
     currentUser := currentUser Samples.world;
     onLoginPage := onLoginPage Samples.world;
     fetch_analyze_image := fetch_analyze_image Samples.world;
     fetch_from_prompt := fetch_from_prompt Samples.world;
     fetch_generate := fetch_generate Samples.world;
     axios_from_prompt := axios_from_prompt Samples.world;
     axios_generate := axios_generate Samples.world |}.

Definition gym_prompt : Js.str := Js.lit "crea una app de gimnasio y fitness".

Definition ana : session.User :=
  {| session.u_id := Js.lit "user-1";
     session.u_nombre := Js.lit "Ana";
     session.u_email := Js.lit "ana@example.org";
     session.u_rol := session.editor |}.

Definition ana_json : Js.str := Js.lit "{ana}".

(** A JSON codec that knows one user: it writes [ana_json] and reads it
    back as [ana]; any other text is not JSON. *)
Definition json : session.Json :=
  {| session.stringify := fun _ => ana_json;
     session.parse := fun text =>
       if Js.eqb text ana_json then inr (Some ana)
       else inl (Js.new_Error (Js.lit "Unexpected token")) |}.

(** Signed in as Ana, on the apps page, nothing sent yet. *)
Definition signed_in : session.Browser :=
  {| session.localStorage :=
       {| session.item_token := Some (Js.lit "t0");
          session.item_user := Some ana_json |};
     session.pathname := Js.lit "/mobile-apps";
     session.sent := [] |}.

(** A token is stored but the stored user is not JSON. *)
Definition corrupt_user : session.Browser :=
  {| session.localStorage :=
       {| session.item_token := Some (Js.lit "t0");
          session.item_user := Some (Js.lit "undefined") |};
     session.pathname := Js.lit "/mobile-apps";
     session.sent := [] |}.

Definition listed_app : api.MobileApp :=
  {| api.id := Js.lit "app-1"; api.nombre := Js.lit "Gym App";
     api.xml := None; api.prompt := Some (Js.lit "gimnasio");
     api.mockup_id := None; api.project_type := api.FLUTTER;
     api.user_id := Js.lit "user-1" |}.

Definition diagram_app : api.MobileApp :=
  {| api.id := Js.lit "app-2"; api.nombre := Js.lit "Tienda";
     api.xml := Some (Js.lit "<mxfile/>"); api.prompt := None;
     api.mockup_id := None; api.project_type := api.ANGULAR;
     api.user_id := Js.lit "user-1" |}.

(** The apps page showing the two apps. *)
Definition apps_page : MobileAppsPage.State :=
  {| MobileAppsPage.mobileApps := [listed_app; diagram_app];
     MobileAppsPage.loading := false;
     MobileAppsPage.error := None;
     MobileAppsPage.generatingId := None;
     MobileAppsPage.searchTerm := [] |}.

End MoreSamples.


(* ================================================================== *)
(** * Predicates the properties are stated with                        *)
(* ================================================================== *)

(** [m] leaves what was logged before it and may add to it. *)
Definition appends {S A : Type} (m : M S A) : Prop :=
  forall s l, exists l', snd (m s l) = l ++ l'.

(** The first thing [m] logs is [e]. *)
Definition starts_with {S A : Type} (e : Event) (m : M S A) : Prop :=
  forall s l, exists l', snd (m s l) = l ++ e :: l'.

(** Every download [m] triggers has a name in [P]. *)
Definition only_downloads {S A : Type} (P : Js.str -> Prop) (m : M S A) : Prop :=
  forall s l href name,
    In (EvDownload href name) (snd (m s l)) ->
    In (EvDownload href name) l \/ P name.

(** Every value [m] completes with is in [Q]. *)
Definition returns {S A : Type} (Q : A -> Prop) (m : M S A) : Prop :=
  forall s l a s' l', m s l = (Normal a, s', l') -> Q a.

(** An event that is not a download. *)
Definition not_download (e : Event) : Prop :=
  match e with EvDownload _ _ => False | _ => True end.

(** A create request that did not yield a record: no response, a
    status outside 2xx, or a body that is not JSON. *)
Definition create_failed (r : FetchResult api.CreateFromPromptResponse) : Prop :=
  match r with
  | FetchRejected _ => True
  | FetchResponse status _ _ json =>
      response_ok status = false \/ exists e, json = inl e
  end.

(** A create request that yielded the record [app]. *)
Definition created (r : FetchResult api.CreateFromPromptResponse)
    (app : api.CreateFromPromptResponse) : Prop :=
  match r with
  | FetchRejected _ => False
  | FetchResponse status _ _ json => response_ok status = true /\ json = inr app
  end.

(** A generate request that did not yield an archive: no response, a
    status outside 2xx, or a content type that is not a zip archive. *)
Definition generate_failed (r : FetchResult GenerateErrorBody) : Prop :=
  match r with
  | FetchRejected _ => True
  | FetchResponse status contentType _ _ =>
      response_ok status = false \/
      imageAnalysisService.is_zip contentType = false
  end.

Section PagePredicates.

Import imageAnalysisService MobileAppFromImagePage.

(** What the analyze action awaits: the selected file compressed, then
    the remote analysis of the result. *)
Definition analysis_attempt (env : Env) (file : File) (t : api.ProjectType)
    : Completion ImageAnalysisResponse :=
  fst (fst (bind (fileToBase64 env file true)
                 (fun base64Image => analyzeImageForProject env base64Image t)
                 tt [])).

(** The three busy flags of the image page. *)
Definition flags (s : State) : bool * bool * bool :=
  (isCompressing s, isAnalyzing s, isGenerating s).

(** The busy flags once a run of handler [h] is over: its own flag is
    down, the two others are as they were. *)
Definition lowered (h : ImagePageSteps.Handler) (f : bool * bool * bool)
    : bool * bool * bool :=
  match h, f with
  | ImagePageSteps.ImageChange, (_, a, g) => (false, a, g)
  | ImagePageSteps.AnalyzeImage, (c, _, g) => (c, false, g)
  | ImagePageSteps.GenerateProject, (c, a, _) => (c, a, false)
  end.

(** As many runs of each handler are in flight as its flag says: one
    when the flag is up, none when it is down. *)
Definition flags_count_runs (page : ImagePageSteps.Page) : Prop :=
  ImagePageSteps.runs ImagePageSteps.ImageChange page =
    Nat.b2n (isCompressing (ImagePageSteps.cells page)) /\
  ImagePageSteps.runs ImagePageSteps.AnalyzeImage page =
    Nat.b2n (isAnalyzing (ImagePageSteps.cells page)) /\
  ImagePageSteps.runs ImagePageSteps.GenerateProject page =
    Nat.b2n (isGenerating (ImagePageSteps.cells page)).

End PagePredicates.

(* ================================================================== *)
(** * Further predicates                                               *)
(* ================================================================== *)

(** A generate request that yielded the archive [blob]: a 2xx response
    whose content type is a zip archive. *)
Definition generated (r : FetchResult GenerateErrorBody) (blob : Blob) : Prop :=
  match r with
  | FetchRejected _ => False
  | FetchResponse status contentType b _ =>
      response_ok status = true /\
      imageAnalysisService.is_zip contentType = true /\ b = blob
  end.

(** The four raster image types the message of the validator names:
    "Use JPEG, PNG, GIF o WebP". *)
Inductive RasterType := JPEG | PNG | GIF | WebP.

(** The media types that declare each of them; JPEG goes by two. *)
Definition media_types (t : RasterType) : list Js.str :=
  match t with
  | JPEG => [Js.lit "image/jpeg"; Js.lit "image/jpg"]
  | PNG => [Js.lit "image/png"]
  | GIF => [Js.lit "image/gif"]
  | WebP => [Js.lit "image/webp"]
  end.

(** The declared media type is one of the four raster image types. *)
Definition allowed_raster_type (type : Js.str) : Prop :=
  exists t, In type (media_types t).

(** [canvas.toDataURL] of a canvas without pixels (a width or a height
    of 0) is "data:,": what HTML prescribes, and so what the browsers
    the code runs in do. *)
Definition empty_canvas_is_no_image (env : Env) : Prop :=
  forall file c type quality,
    canvas_width c = 0 \/ canvas_height c = 0 ->
    toDataURL env file c type quality = Js.lit "data:,".

(** The result [{success: false, error: msg}] of an analysis. *)
Definition analysis_failed (msg : Js.str) : ImageAnalysisResponse :=
  {| ia_success := false; ia_description := None; ia_error := Some msg |}.

(** What the response interceptor adds to the log for a status: the
    sign-out and redirect on a 401 met away from the login page. *)
Definition sign_out_on (env : Env) (status : Z) : Log :=
  if (status =? 401) && negb (onLoginPage env) then [EvLogoutRedirect] else [].

(* ================================================================== *)
(** * Predicates on the session                                        *)
(* ================================================================== *)

(** The request as the request interceptor sends it from browser [b]. *)
Definition stamped (m : session.Method) (url : Js.str) (body : session.Body)
    (b : session.Browser) : session.Request :=
  {| session.method := m; session.url := url;
     session.authorization :=
       session.authorization_header (session.localStorage b);
     session.body := body |}.

(** The browser after a forced sign-out: both entries gone, the page at
    /login, the requests sent as they were. *)
Definition signed_out (b : session.Browser) : session.Browser :=
  {| session.localStorage :=
       {| session.item_token := None; session.item_user := None |};
     session.pathname := session.login_path;
     session.sent := session.sent b |}.

(** The page is not the login page. *)
Definition elsewhere (b : session.Browser) : bool :=
  negb (Js.eqb (session.pathname b) session.login_path).

(** A user is stored and readable: the entry is a text that is not
    empty and parses to [user]. *)
Definition stored_user (json : session.Json) (b : session.Browser)
    (user : session.User) : Prop :=
  exists text,
    session.item_user (session.localStorage b) = Some text /\
    text <> [] /\
    session.parse json text = inr (Some user).


(* ================================================================== *)
(** * Predicates on the image page                                     *)
(* ================================================================== *)

(** The image info on screen is the one of the preview on screen: both
    are absent, or the info is what [getImageInfo] reads from the
    preview. *)
Definition info_matches_preview (s : MobileAppFromImagePage.State) : Prop :=
  (MobileAppFromImagePage.imagePreview s = [] /\
   MobileAppFromImagePage.imageInfo s = None) \/
  MobileAppFromImagePage.imageInfo s =
    Some (imageAnalysisService.getImageInfo
            (MobileAppFromImagePage.imagePreview s)).


(* ================================================================== *)
(** * Facts about strings and numbers                                  *)
(* ================================================================== *)

Lemma eqb_eq (a b : Js.str) : Js.eqb a b = true <-> a = b.
Proof.
  revert b; induction a as [|x a IH]; intros [|y b]; simpl;
    try (split; [discriminate | discriminate]); try tauto.
  rewrite andb_true_iff, N.eqb_eq, IH.
  split; [intros [-> ->]; reflexivity | intros H; inversion H; auto].
Qed.

Lemma array_includes_In (x : Js.str) (arr : list Js.str) :
  Js.array_includes x arr = true <-> In x arr.
Proof.
  unfold Js.array_includes. rewrite existsb_exists. split.
  - intros [y [Hin Heq]]. apply eqb_eq in Heq. now subst.
  - intros Hin. exists x. split; [assumption | now apply eqb_eq].
Qed.

Lemma split_cons_head (sep : N) (s : Js.str) : Js.split sep s <> [].
Proof.
  destruct s as [|c r]; simpl; [discriminate|].
  destruct (N.eqb c sep); [discriminate|].
  destruct (Js.split sep r); discriminate.
Qed.

Lemma split_without_sep (sep : N) (s : Js.str) :
  ~ In sep s -> Js.split sep s = [s].
Proof.
  induction s as [|c r IH]; simpl; intros Hnot; [reflexivity|].
  destruct (N.eqb_spec c sep) as [->|Hne]; [exfalso; auto|].
  rewrite IH by tauto. reflexivity.
Qed.

Lemma split_at_first_sep (sep : N) (p r : Js.str) :
  ~ In sep p -> Js.split sep (p ++ sep :: r) = p :: Js.split sep r.
Proof.
  induction p as [|c p IH]; simpl; intros Hnot.
  - now rewrite N.eqb_refl.
  - destruct (N.eqb_spec c sep) as [->|Hne]; [exfalso; auto|].
    rewrite IH by tauto. reflexivity.
Qed.

Lemma Math_round_quarter_kilobytes (L : Z) :
  Js.Math_round ((inject_Z L * 3) / 4 / 1024)%Q = (3 * L + 2048) / 4096.
Proof.
  unfold Js.Math_round, Qfloor, Qdiv, Qmult, Qplus, Qinv, inject_Z. simpl.
  replace ((L * 3 * 1 * 1 * 2 + 4096)) with ((3 * L + 2048) * 2) by lia.
  replace (Z.pos 8192) with (4096 * 2) by reflexivity.
  rewrite Z.div_mul_cancel_r by lia. reflexivity.
Qed.

Lemma if_orb_true_r {A : Type} (b : bool) (x y : A) :
  (if b || true then x else y) = x.
Proof. now rewrite orb_true_r. Qed.

Lemma ToUint32_of_small_integer (z : Z) :
  0 <= z <= 2147483647 -> Js.ToUint32 (inject_Z z) = z.
Proof.
  intros Hz. unfold Js.ToUint32, Js.IntegerPart.
  assert (Hle : Qle_bool 0 (inject_Z z) = true).
  { apply Qle_bool_iff. unfold Qle; simpl. lia. }
  rewrite Hle, Qfloor_Z. apply Z.mod_small. lia.
Qed.

Lemma canvas_dimension_of_small_integer (default z : Z) :
  0 <= z <= 2147483647 -> canvas_dimension default (inject_Z z) = z.
Proof.
  intros Hz. unfold canvas_dimension.
  rewrite ToUint32_of_small_integer by assumption.
  destruct (Z.leb_spec z 2147483647); [reflexivity | lia].
Qed.

Lemma IntegerPart_comp (x y : Q) :
  (x == y)%Q -> Js.IntegerPart x = Js.IntegerPart y.
Proof.
  intros H. unfold Js.IntegerPart.
  rewrite (Qfloor_comp _ _ H), (Qceiling_comp _ _ H).
  destruct (Qle_bool 0 x) eqn:E1, (Qle_bool 0 y) eqn:E2;
    try reflexivity; exfalso.
  - apply Qle_bool_iff in E1. rewrite H in E1.
    apply Qle_bool_iff in E1. congruence.
  - apply Qle_bool_iff in E2. rewrite <- H in E2.
    apply Qle_bool_iff in E2. congruence.
Qed.

Lemma IntegerPart_of_quotient (a b : Z) :
  0 <= a -> 0 < b ->
  Js.IntegerPart (inject_Z a / inject_Z b)%Q = a / b.
Proof.
  intros Ha Hb. unfold Js.IntegerPart.
  assert (Hq : (inject_Z a / inject_Z b == a # Z.to_pos b)%Q).
  { unfold Qeq, Qdiv, Qmult, Qinv, inject_Z; simpl.
    destruct b as [|b|b]; try lia. simpl. lia. }
  assert (Hle : Qle_bool 0 (inject_Z a / inject_Z b) = true).
  { apply Qle_bool_iff. rewrite Hq. unfold Qle; simpl. lia. }
  rewrite Hle, Hq. unfold Qfloor. rewrite Z2Pos.id by assumption. reflexivity.
Qed.

(* ================================================================== *)
(** * The image codec adapter and the file validator                   *)
(* ================================================================== *)

Section Codec.

Import imageAnalysisService.

(** The canvas of [compressImage], for the dimensions of a decoded
    image: the proportional height is cut to a whole number by the
    assignment to [canvas.height]. *)
Lemma compressImage_canvas_value (img : Image) (maxWidth : Z) :
  0 <= maxWidth ->
  0 <= img_width img <= 2147483647 ->
  0 <= img_height img <= 2147483647 ->
  compressImage_canvas img maxWidth =
    if maxWidth <? img_width img
    then {| canvas_width := maxWidth;
            canvas_height := img_height img * maxWidth / img_width img |}
    else {| canvas_width := img_width img; canvas_height := img_height img |}.
Proof.
  intros Hmax Hw Hh. unfold compressImage_canvas.
  destruct (Z.ltb_spec maxWidth (img_width img)) as [Hlt|Hge].
  - rewrite canvas_dimension_of_small_integer by lia. f_equal.
    unfold canvas_dimension, Js.ToUint32.
    assert (Hi : Js.IntegerPart
                   (inject_Z (img_height img) * inject_Z maxWidth /
                    inject_Z (img_width img))%Q
                 = img_height img * maxWidth / img_width img).
    { rewrite <- IntegerPart_of_quotient by nia.
      apply IntegerPart_comp. now rewrite inject_Z_mult. }
    rewrite Hi.
    assert (Hb : 0 <= img_height img * maxWidth / img_width img
                 <= img_height img).
    { split; [apply Z.div_pos; nia|].
      apply Z.div_le_upper_bound; nia. }
    rewrite Z.mod_small by lia.
    destruct (Z.leb_spec (img_height img * maxWidth / img_width img)
                2147483647); [reflexivity | lia].
  - rewrite !canvas_dimension_of_small_integer by lia. reflexivity.
Qed.

(** C1, as the claim states it, fails on a strip of 1025 x 1 pixels:
    the proportional height 1024/1025 is cut to 0, not rounded to 1, so
    the canvas has no pixels and the output is the empty data URL
    instead of an image 1024 wide.  On 5000 x 3002 the height is 614
    where rounding gives 615: the ratio is kept within one pixel row,
    not within half of one. *)
Lemma compressImage_cuts_the_height :
  decode MoreSamples.browser MoreSamples.strip_file =
    Some {| img_width := 1025; img_height := 1 |} /\
  compressImage_canvas {| img_width := 1025; img_height := 1 |} 1024 =
    {| canvas_width := 1024; canvas_height := 0 |} /\
  Js.Math_round (1 * 1024 / 1025)%Q = 1 /\
  compressImage MoreSamples.browser MoreSamples.strip_file 1024 (8 # 10) tt [] =
    (Normal (Js.lit "data:,"), tt, []) /\
  compressImage_canvas {| img_width := 5000; img_height := 3002 |} 1024 =
    {| canvas_width := 1024; canvas_height := 614 |} /\
  Js.Math_round (3002 * 1024 / 5000)%Q = 615.
Proof. repeat split; vm_compute; reflexivity. Qed.

(** C1, amended.  [compressImage] of a file that decodes to an image at
    most as wide as the maximum encodes a canvas of exactly the pixel
    dimensions of the image.  For a wider image it encodes a canvas as
    wide as the maximum whose height is the proportional height
    [h * max / w] cut (not rounded) to a whole number: the ratio of the
    canvas is below the ratio of the image by less than one pixel row.
    When the proportional height is below 1 the canvas has no pixels,
    and a browser that encodes such a canvas as "data:," makes that the
    output.  The dimensions are those of a decoded image (below 2^31)
    and the product [h * max] is one a double holds exactly. *)
Theorem compressImage_dimensions (env : Env) (file : File) (img : Image)
    (maxWidth : Z) (quality : Q) (l : Log) :
  decode env file = Some img ->
  0 < maxWidth ->
  0 <= img_width img <= 2147483647 ->
  0 <= img_height img <= 2147483647 ->
  img_height img * maxWidth < 2 ^ 53 ->
  let w := img_width img in
  let h := img_height img in
  let encoded c :=
    (Normal (toDataURL env file c (Js.lit "image/jpeg") quality), tt, l) in
  (w <= maxWidth ->
     compressImage env file maxWidth quality tt l =
       encoded {| canvas_width := w; canvas_height := h |}) /\
  (maxWidth < w ->
     compressImage env file maxWidth quality tt l =
       encoded {| canvas_width := maxWidth;
                  canvas_height := h * maxWidth / w |} /\
     (h * maxWidth / w) * w <= h * maxWidth < (h * maxWidth / w + 1) * w /\
     (h * maxWidth / w = 0 <-> h * maxWidth < w) /\
     (empty_canvas_is_no_image env -> h * maxWidth < w ->
      compressImage env file maxWidth quality tt l =
        (Normal (Js.lit "data:,"), tt, l))).
Proof.
  intros Hdecode Hmax Hw Hh _ w h encoded. subst w h encoded.
  assert (Hrun : compressImage env file maxWidth quality tt l =
                 (Normal (toDataURL env file (compressImage_canvas img maxWidth)
                            (Js.lit "image/jpeg") quality), tt, l)).
  { unfold compressImage. rewrite Hdecode. reflexivity. }
  rewrite Hrun.
  rewrite (compressImage_canvas_value img maxWidth) by lia.
  destruct (Z.ltb_spec maxWidth (img_width img)) as [Hlt|Hge].
  - split; [lia|]. intros _.
    assert (Hlow : (img_height img * maxWidth / img_width img) * img_width img
                   <= img_height img * maxWidth).
    { rewrite Z.mul_comm. apply Z.mul_div_le. lia. }
    assert (Hhigh : img_height img * maxWidth
                    < (img_height img * maxWidth / img_width img + 1) *
                      img_width img).
    { pose proof (Z.mul_succ_div_gt (img_height img * maxWidth)
                    (img_width img)). lia. }
    assert (Hzero : img_height img * maxWidth / img_width img = 0 <->
                    img_height img * maxWidth < img_width img).
    { split; intros H.
      - rewrite H in Hhigh. lia.
      - apply Z.div_small. nia. }
    split; [reflexivity|]. split; [split; assumption|].
    split; [exact Hzero|].
    intros Hhtml Hsmall. apply Hzero in Hsmall. rewrite Hsmall.
    rewrite Hhtml; [reflexivity | right; reflexivity].
  - split; [|lia]. intros _. reflexivity.
Qed.

(** The 5000 x 3000 image of the specification is encoded from a canvas
    of 1024 x 614; the strip of 1025 x 1 pixels comes out of a browser
    as the empty data URL. *)
Lemma compressImage_dimensions_witness :
  compressImage Samples.world Samples.png_file 1024 (8 # 10) tt [] =
    (Normal (toDataURL Samples.world Samples.png_file
               {| canvas_width := 1024; canvas_height := 614 |}
               (Js.lit "image/jpeg") (8 # 10)), tt, []) /\
  compressImage MoreSamples.browser MoreSamples.strip_file 1024 (8 # 10) tt [] =
    (Normal (Js.lit "data:,"), tt, []).
Proof.
  split.
  - assert (Hdecode : decode Samples.world Samples.png_file =
                      Some Samples.png_image) by reflexivity.
    assert (Hmax : 0 < 1024) by lia.
    assert (Hw : 0 <= img_width Samples.png_image <= 2147483647)
      by (simpl; lia).
    assert (Hh : 0 <= img_height Samples.png_image <= 2147483647)
      by (simpl; lia).
    assert (Hp : img_height Samples.png_image * 1024 < 2 ^ 53)
      by reflexivity.
    destruct (compressImage_dimensions Samples.world Samples.png_file
                Samples.png_image 1024 (8 # 10) [] Hdecode Hmax Hw Hh Hp)
      as [_ H].
    destruct H as [Hrun _]; [simpl; lia|].
    exact Hrun.
  - assert (Hdecode : decode MoreSamples.browser MoreSamples.strip_file =
                      Some MoreSamples.strip_image) by reflexivity.
    assert (Hmax : 0 < 1024) by lia.
    assert (Hw : 0 <= img_width MoreSamples.strip_image <= 2147483647)
      by (simpl; lia).
    assert (Hh : 0 <= img_height MoreSamples.strip_image <= 2147483647)
      by (simpl; lia).
    assert (Hp : img_height MoreSamples.strip_image * 1024 < 2 ^ 53)
      by reflexivity.
    assert (Hhtml : empty_canvas_is_no_image MoreSamples.browser).
    { intros f c t q [H|H]; cbn [MoreSamples.browser toDataURL];
        rewrite H; [reflexivity | apply if_orb_true_r]. }
    destruct (compressImage_dimensions MoreSamples.browser
                MoreSamples.strip_file MoreSamples.strip_image 1024 (8 # 10)
                [] Hdecode Hmax Hw Hh Hp) as [_ H].
    destruct H as [_ [_ [_ Hempty]]]; [simpl; lia|].
    apply Hempty; [exact Hhtml | simpl; lia].
Defined.

Lemma allowed_raster_type_validTypes (type : Js.str) :
  allowed_raster_type type <-> In type validTypes.
Proof.
  unfold allowed_raster_type, validTypes. split.
  - intros [[| | |] H]; simpl in H; simpl; tauto.
  - simpl. intros [H|[H|[H|[H|[H|[]]]]]].
    + exists JPEG. simpl. tauto.
    + exists JPEG. simpl. tauto.
    + exists PNG. simpl. tauto.
    + exists GIF. simpl. tauto.
    + exists WebP. simpl. tauto.
Qed.

(** C2.  The validator rejects a file whose declared media type is
    outside the four allowed raster image types (JPEG, declared as
    image/jpeg or image/jpg, PNG, GIF and WebP), whatever its size;
    rejects a file of an allowed type above 20 MiB; accepts every other
    file.  Its answer is a function of the file alone: nothing else is
    read or written. *)
Theorem validateImageFile_policy (file : File) :
  let allowed := [Js.lit "image/jpeg"; Js.lit "image/jpg"; Js.lit "image/png";
                  Js.lit "image/gif"; Js.lit "image/webp"] in
  (allowed_raster_type (file_type file) <-> In (file_type file) allowed) /\
  ((~ allowed_raster_type (file_type file) /\
      validateImageFile file =
        {| valid := false; validation_error := Some invalid_type_error |}) \/
   (allowed_raster_type (file_type file) /\ 20971520 < file_size file /\
      validateImageFile file =
        {| valid := false; validation_error := Some too_large_error |}) \/
   (allowed_raster_type (file_type file) /\ file_size file <= 20971520 /\
      validateImageFile file = {| valid := true; validation_error := None |})).
Proof.
  intros allowed. change allowed with validTypes. clear allowed.
  split; [apply allowed_raster_type_validTypes|].
  rewrite allowed_raster_type_validTypes.
  unfold validateImageFile.
  destruct (Js.array_includes (file_type file) validTypes) eqn:Hinc;
    cbn [negb].
  - apply array_includes_In in Hinc. right.
    change maxSize with 20971520.
    destruct (Z.ltb_spec 20971520 (file_size file)); [left | right]; auto.
  - left. split; [|reflexivity]. intros Hin.
    apply array_includes_In in Hin. congruence.
Qed.

(** C8.  For an encoded image string [p/sub;rest] (the media type
    [p/sub] before the first ';', neither part holding a '/' or a ';',
    the subtype not empty), [getImageInfo] reports the subtype as the
    format; and for its length [L] it reports the integer nearest to
    [(L * 3 / 4) / 1024], halves rounded up. *)
Theorem getImageInfo_size_and_format (p sub rest : Js.str) :
  ~ In semicolon p -> ~ In slash p ->
  ~ In semicolon sub -> ~ In slash sub -> sub <> [] ->
  let s := p ++ [slash] ++ sub ++ [semicolon] ++ rest in
  let L := Js.length s in
  sizeKB (getImageInfo s) = (3 * L + 2048) / 4096 /\
  4096 * sizeKB (getImageInfo s) - 2048 <= 3 * L
    < 4096 * sizeKB (getImageInfo s) + 2048 /\
  format (getImageInfo s) = sub.
Proof.
  intros Hp1 Hp2 Hs1 Hs2 Hne s L.
  assert (Hsize : sizeKB (getImageInfo s) = (3 * L + 2048) / 4096).
  { unfold getImageInfo; simpl. apply Math_round_quarter_kilobytes. }
  split; [exact Hsize|]. split.
  - rewrite Hsize.
    pose proof (Z.mul_div_le (3 * L + 2048) 4096).
    pose proof (Z.mul_succ_div_gt (3 * L + 2048) 4096). lia.
  - unfold getImageInfo; simpl. subst s.
    replace (p ++ [slash] ++ sub ++ [semicolon] ++ rest)
      with ((p ++ [slash] ++ sub) ++ semicolon :: rest)
      by (now rewrite <- !app_assoc).
    rewrite split_at_first_sep.
    + simpl hd. change (p ++ [slash] ++ sub) with (p ++ slash :: sub).
      rewrite split_at_first_sep by assumption.
      rewrite split_without_sep by assumption. simpl.
      destruct sub; [congruence | reflexivity].
    + rewrite !in_app_iff. simpl. unfold slash, semicolon in *.
      intuition discriminate.
Qed.

(** The data URL of a JPEG: 38 code units, 0 KB, format jpeg. *)
Lemma getImageInfo_size_and_format_witness :
  sizeKB (getImageInfo Samples.jpeg_data_url) = 0 /\
  format (getImageInfo Samples.jpeg_data_url) = Js.lit "jpeg".
Proof.
  assert (Hp1 : ~ In semicolon (Js.lit "data:image"))
    by (simpl; unfold semicolon; intuition discriminate).
  assert (Hp2 : ~ In slash (Js.lit "data:image"))
    by (simpl; unfold slash; intuition discriminate).
  assert (Hs1 : ~ In semicolon (Js.lit "jpeg"))
    by (simpl; unfold semicolon; intuition discriminate).
  assert (Hs2 : ~ In slash (Js.lit "jpeg"))
    by (simpl; unfold slash; intuition discriminate).
  assert (Hne : Js.lit "jpeg" <> []) by discriminate.
  destruct (getImageInfo_size_and_format
              (Js.lit "data:image") (Js.lit "jpeg")
              (Js.lit "base64,/9j/4AAQSkZJRg==") Hp1 Hp2 Hs1 Hs2 Hne)
    as [Hsize [_ Hformat]].
  split; [exact Hsize | exact Hformat].
Defined.

End Codec.

(* ================================================================== *)
(** * The creation-method classifier                                   *)
(* ================================================================== *)

Section CreationMethod.

Import MobileAppsPage.

(** C10.  A field counts as present when it is truthy (a string that is
    not empty).  The classifier answers one of the four tags IA, XML,
    Mockup, Manual: IA exactly when the record has a prompt and neither
    an xml nor a mockup_id; XML as soon as it has an xml, prompt or
    not; Mockup when it has a mockup_id and no xml; Manual when it has
    none of the three. *)
Theorem getCreationMethod_classification (app : api.MobileApp) :
  let has := Js.truthy_opt in
  let tag := text (getCreationMethod app) in
  (tag = Js.lit "IA" \/ tag = Js.lit "XML" \/
   tag = Js.lit "Mockup" \/ tag = Js.lit "Manual") /\
  (tag = Js.lit "IA" <->
     has (api.prompt app) = true /\ has (api.xml app) = false /\
     has (api.mockup_id app) = false) /\
  (tag = Js.lit "XML" <-> has (api.xml app) = true) /\
  (tag = Js.lit "Mockup" <->
     has (api.xml app) = false /\ has (api.mockup_id app) = true) /\
  (tag = Js.lit "Manual" <->
     has (api.prompt app) = false /\ has (api.xml app) = false /\
     has (api.mockup_id app) = false).
Proof.
  intros has tag. subst has tag. unfold getCreationMethod.
  destruct (Js.truthy_opt (api.prompt app)),
           (Js.truthy_opt (api.xml app)),
           (Js.truthy_opt (api.mockup_id app)); cbn;
    repeat split; intros; try tauto; try discriminate;
    repeat match goal with
           | H : _ /\ _ |- _ => destruct H
           end; try discriminate.
Qed.

End CreationMethod.

(* ================================================================== *)
(** * Facts about the effect monad: the log only grows                 *)
(* ================================================================== *)

Lemma appends_ret {S A : Type} (a : A) : appends (@ret S A a).
Proof. intros s l. exists []. simpl. now rewrite app_nil_r. Qed.

Lemma appends_throw {S A : Type} (e : Js.Thrown) : appends (@throw S A e).
Proof. intros s l. exists []. simpl. now rewrite app_nil_r. Qed.

Lemma appends_emit {S : Type} (e : Event) : appends (@emit S e).
Proof. intros s l. exists [e]. reflexivity. Qed.

Lemma appends_modify {S : Type} (f : S -> S) : appends (modify f).
Proof. intros s l. exists []. simpl. now rewrite app_nil_r. Qed.

Lemma appends_bind {S A B : Type} (m : M S A) (k : A -> M S B) :
  appends m -> (forall a, appends (k a)) -> appends (bind m k).
Proof.
  intros Hm Hk s l. unfold bind.
  destruct (Hm s l) as [l1 H1].
  destruct (m s l) as [[r s'] l'] eqn:E. simpl in H1. subst l'.
  destruct r as [a|e].
  - destruct (Hk a s' (l ++ l1)) as [l2 H2].
    exists (l1 ++ l2). now rewrite H2, app_assoc.
  - exists l1. reflexivity.
Qed.

Lemma appends_try_catch {S A : Type} (m : M S A) (h : Js.Thrown -> M S A) :
  appends m -> (forall e, appends (h e)) -> appends (try_catch m h).
Proof.
  intros Hm Hh s l. unfold try_catch.
  destruct (Hm s l) as [l1 H1].
  destruct (m s l) as [[r s'] l'] eqn:E. simpl in H1. subst l'.
  destruct r as [a|e].
  - exists l1. reflexivity.
  - destruct (Hh e s' (l ++ l1)) as [l2 H2].
    exists (l1 ++ l2). now rewrite H2, app_assoc.
Qed.

Lemma appends_try_finally {S A : Type} (m : M S A) (f : M S unit) :
  appends m -> appends f -> appends (try_finally m f).
Proof.
  intros Hm Hf s l. unfold try_finally.
  destruct (Hm s l) as [l1 H1].
  destruct (m s l) as [[r s'] l'] eqn:E. simpl in H1. subst l'.
  destruct (Hf s' (l ++ l1)) as [l2 H2].
  destruct (f s' (l ++ l1)) as [[r2 s2] l''] eqn:E2. simpl in H2. subst l''.
  exists (l1 ++ l2). destruct r2; simpl; now rewrite app_assoc.
Qed.

Lemma appends_lift {S A : Type} (m : M unit A) : appends m -> appends (@lift S A m).
Proof.
  intros Hm s l. unfold lift.
  destruct (Hm tt l) as [l1 H1].
  destruct (m tt l) as [[r u] l'] eqn:E. simpl in H1. subst l'.
  exists l1. reflexivity.
Qed.

Lemma starts_with_emit {S B : Type} (e : Event) (k : unit -> M S B) :
  (forall a, appends (k a)) -> starts_with e (bind (emit e) k).
Proof.
  intros Hk s l. unfold bind, emit.
  destruct (Hk tt s (l ++ [e])) as [l2 H2].
  exists l2. rewrite H2, <- app_assoc. reflexivity.
Qed.

Lemma starts_with_bind {S A B : Type} (e : Event) (m : M S A) (k : A -> M S B) :
  starts_with e m -> (forall a, appends (k a)) -> starts_with e (bind m k).
Proof.
  intros Hm Hk s l. unfold bind.
  destruct (Hm s l) as [l1 H1].
  destruct (m s l) as [[r s'] l'] eqn:E. simpl in H1. subst l'.
  destruct r as [a|err].
  - destruct (Hk a s' (l ++ e :: l1)) as [l2 H2].
    exists (l1 ++ l2). rewrite H2, <- app_assoc. reflexivity.
  - exists l1. reflexivity.
Qed.

Lemma starts_with_try_catch {S A : Type} (e : Event) (m : M S A)
    (h : Js.Thrown -> M S A) :
  starts_with e m -> (forall err, appends (h err)) ->
  starts_with e (try_catch m h).
Proof.
  intros Hm Hh s l. unfold try_catch.
  destruct (Hm s l) as [l1 H1].
  destruct (m s l) as [[r s'] l'] eqn:E. simpl in H1. subst l'.
  destruct r as [a|err].
  - exists l1. reflexivity.
  - destruct (Hh err s' (l ++ e :: l1)) as [l2 H2].
    exists (l1 ++ l2). rewrite H2, <- app_assoc. reflexivity.
Qed.

Lemma starts_with_try_finally {S A : Type} (e : Event) (m : M S A)
    (f : M S unit) :
  starts_with e m -> appends f -> starts_with e (try_finally m f).
Proof.
  intros Hm Hf s l. unfold try_finally.
  destruct (Hm s l) as [l1 H1].
  destruct (m s l) as [[r s'] l'] eqn:E. simpl in H1. subst l'.
  destruct (Hf s' (l ++ e :: l1)) as [l2 H2].
  destruct (f s' (l ++ e :: l1)) as [[r2 s2] l''] eqn:E2.
  simpl in H2. subst l''.
  exists (l1 ++ l2). destruct r2; simpl; now rewrite <- app_assoc.
Qed.

Lemma starts_with_lift {S A : Type} (e : Event) (m : M unit A) :
  starts_with e m -> starts_with e (@lift S A m).
Proof.
  intros Hm s l. unfold lift.
  destruct (Hm tt l) as [l1 H1].
  destruct (m tt l) as [[r u] l'] eqn:E. simpl in H1. subst l'.
  exists l1. reflexivity.
Qed.

Create HintDb log_grows.

#[export] Hint Resolve appends_ret appends_throw appends_emit appends_modify
  appends_bind appends_try_catch appends_try_finally appends_lift : log_grows.

(** Splits a computation along its [match]es and [if]s until the
    combinators above decide that it only appends. *)
Ltac appends_cases :=
  repeat (intros;
          match goal with
          | |- appends (match ?x with _ => _ end) => destruct x
          | |- appends (if ?b then _ else _) => destruct b
          | |- appends (let _ := _ in _) => cbv zeta
          | |- appends (bind _ _) => apply appends_bind
          | |- appends (try_catch _ _) => apply appends_try_catch
          | |- appends (try_finally _ _) => apply appends_try_finally
          | |- appends (lift _) => apply appends_lift
          | |- appends _ => solve [auto with log_grows]
          end);
  try solve [intros; auto with log_grows].

Lemma appends_api_post {D : Type} (env : Env) (r : AxiosResult D) :
  appends (apiService.api_post env r).
Proof. unfold apiService.api_post, apiService.handleUnauthorized. appends_cases. Qed.

#[export] Hint Resolve appends_api_post : log_grows.

Lemma appends_createFromPrompt (env : Env) (request : api.CreateFromPromptRequest) :
  appends (apiService.mobileAppsApi.createFromPrompt env request).
Proof.
  unfold apiService.mobileAppsApi.createFromPrompt. appends_cases.
Qed.

Lemma appends_generateProject (env : Env) (id : Js.str) :
  appends (apiService.mobileAppsApi.generateProject env id).
Proof.
  unfold apiService.mobileAppsApi.generateProject. appends_cases.
Qed.

#[export] Hint Resolve appends_createFromPrompt appends_generateProject
  : log_grows.

(* ================================================================== *)
(** * The prompt-to-project workflow                                   *)
(* ================================================================== *)

Lemma trimStart_length (s : Js.str) :
  (List.length (Js.trimStart s) <= List.length s)%nat.
Proof.
  induction s as [|c r IH]; simpl; [lia|].
  destruct (Js.isWhiteSpace c); simpl; lia.
Qed.

Lemma trim_length (s : Js.str) : Js.length (Js.trim s) <= Js.length s.
Proof.
  unfold Js.length, Js.trim, Js.trimEnd.
  rewrite length_rev.
  pose proof (trimStart_length (rev (Js.trimStart s))) as H1.
  rewrite length_rev in H1.
  pose proof (trimStart_length s). lia.
Qed.

Lemma truthy_false_iff (s : Js.str) : Js.truthy s = false <-> s = [].
Proof. destruct s; simpl; split; congruence. Qed.

Lemma or_default_not_empty (o : option Js.str) (d : Js.str) :
  d <> [] -> Js.or_default o d <> [].
Proof.
  intros Hd. unfold Js.or_default.
  destruct o as [[|c r]|]; simpl; auto. discriminate.
Qed.

Section PromptWorkflow.

Import apiService MobileAppFromPromptPage.

(** C3, as the claim states it, fails: a prompt of three letters and
    seven spaces is three characters long once trimmed, and yet it is
    submitted, the create request carrying it to the server. *)
Lemma handleSubmit_accepts_short_trimmed_prompt :
  Js.length (Js.trim Samples.padded_prompt) = 3 /\
  (exists rest,
     snd (handleSubmit Samples.world
            (Samples.prompt_page_with Samples.padded_prompt)) =
     EvFromPrompt Samples.padded_prompt (Some []) api.FLUTTER :: rest).
Proof.
  split; [reflexivity|]. eexists. vm_compute. reflexivity.
Qed.

(** C3, amended.  The length is taken before trimming.  A submission is
    rejected, with a validation message and no remote call, when the
    trimmed prompt is empty or when the prompt as typed has fewer than
    10 characters; otherwise it goes on to the create request.  Trimming
    never lengthens, so a prompt of at least 10 characters after
    trimming is always accepted. *)
Theorem handleSubmit_validation (env : Env) (s : State) :
  let p := api.req_prompt (formData s) in
  Js.length (Js.trim p) <= Js.length p /\
  ((Js.trim p = [] /\
    handleSubmit env s = (setError (Some prompt_required_error) s, [])) \/
   (Js.trim p <> [] /\ Js.length p < 10 /\
    handleSubmit env s = (setError (Some prompt_too_short_error) s, [])) \/
   (Js.trim p <> [] /\ 10 <= Js.length p /\
    handleSubmit_begin s =
      (setError None (setLoading true s), Some (formData s)) /\
    ((mobileAppsApi.no_user env = true /\ snd (handleSubmit env s) = []) \/
     (mobileAppsApi.no_user env = false /\
      exists rest,
        snd (handleSubmit env s) =
        EvFromPrompt p (api.req_nombre (formData s))
          (match api.req_project_type (formData s) with
           | Some t => t
           | None => api.FLUTTER
           end) :: rest)))).
Proof.
  intros p. split; [apply trim_length|].
  unfold handleSubmit, handleSubmit_begin. fold p.
  destruct (Js.truthy (Js.trim p)) eqn:Ht; cbn [negb].
  - assert (Hne : Js.trim p <> []).
    { intros E. rewrite E in Ht. discriminate. }
    destruct (Z.ltb_spec (Js.length p) 10) as [Hlt|Hge].
    + right; left. auto.
    + right; right. repeat split; auto.
      destruct (mobileAppsApi.no_user env) eqn:Hu.
      * left. split; [reflexivity|].
        unfold handleSubmit_resume, mobileAppsApi.createFromPrompt,
          try_finally, try_catch, bind, lift, throw, modify.
        rewrite Hu. reflexivity.
      * right. split; [reflexivity|].
        assert (Hs : starts_with
                       (EvFromPrompt p (api.req_nombre (formData s))
                          (match api.req_project_type (formData s) with
                           | Some t => t
                           | None => api.FLUTTER
                           end))
                       (handleSubmit_resume env (formData s))).
        { unfold handleSubmit_resume.
          apply starts_with_try_finally; [|auto with log_grows].
          apply starts_with_try_catch; [|auto with log_grows].
          apply starts_with_bind.
          - apply starts_with_lift.
            unfold mobileAppsApi.createFromPrompt. rewrite Hu.
            apply starts_with_try_catch; [|auto with log_grows].
            apply starts_with_emit. auto with log_grows.
          - intros a. appends_cases. }
        destruct (Hs (setError None (setLoading true s)) []) as [rest Hrest].
        exists rest.
        destruct (handleSubmit_resume env (formData s)
                    (setError None (setLoading true s)) []) as [[r s2] l2].
        exact Hrest.
  - left. apply truthy_false_iff in Ht. auto.
Qed.

End PromptWorkflow.

(* ================================================================== *)
(** * The image-to-project workflow: the analyze action                *)
(* ================================================================== *)

Section AnalyzeAction.

Import imageAnalysisService MobileAppFromImagePage.

(** C6, as the claim states it, fails: with an analysis on screen, an
    analyze action that fails with the message X surfaces X but the
    analysis held before is gone. *)
Lemma handleAnalyzeImage_failure_clears_analysis :
  let s := Samples.image_page_ready in
  let s' := fst (handleAnalyzeImage Samples.world_analysis_says_X s) in
  analysisResult s = Js.lit "un formulario de registro" /\
  error s' = Js.lit "X" /\
  analysisResult s' = [] /\
  analysisResult s' <> analysisResult s.
Proof.
  vm_compute. repeat split; try reflexivity. discriminate.
Qed.

(** C6, amended.  When the analyze action is available and is taken,
    and the attempt fails (the compression throws, or the analysis
    comes back unsuccessful or without a description), the page ends as
    it was except for two cells: the error holds the failure message
    and the analysis description is empty.  The selected image, the
    preview, the image info, the project name and kind, the success
    message and the busy flags are as before. *)
Theorem handleAnalyzeImage_failure (env : Env) (s : State) (file : File) :
  analyze_disabled s = false ->
  imageFile (formData s) = Some file ->
  let s' := fst (handleAnalyzeImage env s) in
  match analysis_attempt env file (projectType (formData s)) with
  | Abrupt e =>
      s' = setError (Js.message_or e analyze_error) (setAnalysisResult [] s)
  | Normal r =>
      ia_success r && Js.truthy_opt (ia_description r) = false ->
      s' = setError (Js.or_default (ia_error r) analyze_error)
             (setAnalysisResult [] s)
  end.
Proof.
  intros Hen Hfile s'. subst s'.
  assert (Hflag : isAnalyzing s = false).
  { unfold analyze_disabled in Hen.
    apply orb_false_iff in Hen. destruct Hen as [Hen _].
    apply orb_false_iff in Hen. tauto. }
  unfold analysis_attempt, handleAnalyzeImage, run, handleAnalyzeImage_begin.
  rewrite Hfile.
  unfold handleAnalyzeImage_resume, try_finally, try_catch, bind, lift, modify.
  destruct (fileToBase64 env file true tt []) as [[r1 []] l1].
  destruct r1 as [base64Image|e]; cbn beta iota delta [fst snd].
  - destruct (analyzeImageForProject env base64Image
                (projectType (formData s)) tt l1) as [[r2 []] l2].
    destruct r2 as [r|e]; cbn beta iota delta [fst snd].
    + intros Hfail. rewrite Hfail. cbn.
      destruct s; cbn in *; subst; reflexivity.
    + destruct s; cbn in *; subst; reflexivity.
  - destruct s; cbn in *; subst; reflexivity.
Qed.

(** The failing analysis of the sample world, on the sample page. *)
Lemma handleAnalyzeImage_failure_witness :
  fst (handleAnalyzeImage Samples.world_analysis_says_X
         Samples.image_page_ready) =
  setError (Js.lit "X") (setAnalysisResult [] Samples.image_page_ready).
Proof.
  exact (handleAnalyzeImage_failure Samples.world_analysis_says_X
           Samples.image_page_ready Samples.png_file
           eq_refl eq_refl eq_refl).
Defined.

End AnalyzeAction.

(* ================================================================== *)
(** * The image-to-project workflow: the generate action               *)
(* ================================================================== *)

Section ServiceRuns.

Import imageAnalysisService.

Lemma fileToBase64_logs_nothing (env : Env) (file : File) (c : bool)
    (u : unit) (l : Log) :
  fileToBase64 env file c u l = (fst (fst (fileToBase64 env file c tt [])), u, l).
Proof.
  destruct u. unfold fileToBase64, compressImage, ret, throw.
  destruct (c && _); [destruct (decode env file) | destruct (readAsDataURL env file)];
    reflexivity.
Qed.

Lemma analyzeImageForProject_run (env : Env) (image : Js.str)
    (t : api.ProjectType) (u : unit) (l : Log) :
  exists r,
    fst (fst (analyzeImageForProject env image t tt [])) = Normal r /\
    analyzeImageForProject env image t u l =
      (Normal r, u, l ++ [EvAnalyzeImage image t]).
Proof.
  destruct u. unfold analyzeImageForProject, try_catch, bind, emit, throw, ret.
  destruct (fetch_analyze_image env image t) as [e|status ct b json].
  - eexists; split; reflexivity.
  - destruct (response_ok status); cbn [negb].
    + destruct json; eexists; split; reflexivity.
    + eexists; split; reflexivity.
Qed.

Lemma analysis_failure_run (env : Env) (image : Js.str) (t : api.ProjectType)
    (name : option Js.str) (r : ImageAnalysisResponse) (l : Log) :
  fst (fst (analyzeImageForProject env image t tt [])) = Normal r ->
  ia_success r && Js.truthy_opt (ia_description r) = false ->
  analyzeImageAndGenerateProject env image t name tt l =
    (Normal {| pg_success := false;
               pg_downloadUrl := None;
               pg_error := Some (Js.or_default (ia_error r)
                                   (Js.lit "Error analizando imagen")) |},
     tt, l ++ [EvAnalyzeImage image t]).
Proof.
  intros Hr Hfail.
  destruct (analyzeImageForProject_run env image t tt l) as [r' [Hr' Hrun]].
  rewrite Hr in Hr'. injection Hr' as <-.
  unfold analyzeImageAndGenerateProject, try_catch, bind.
  rewrite Hrun.
  apply andb_false_iff in Hfail.
  destruct Hfail as [-> | ->]; cbn [negb orb]; [reflexivity|].
  rewrite orb_true_r. reflexivity.
Qed.

Lemma analysis_success_run (env : Env) (image : Js.str) (t : api.ProjectType)
    (name : option Js.str) (r : ImageAnalysisResponse) (d : Js.str) (l : Log) :
  fst (fst (analyzeImageForProject env image t tt [])) = Normal r ->
  ia_success r = true -> ia_description r = Some d -> d <> [] ->
  analyzeImageAndGenerateProject env image t name tt l =
    try_catch
      (generateProjectFromDescription env
         {| pg_description := d; pg_projectType := t; pg_nombre := name |})
      (fun error =>
         ret {| pg_success := false;
                pg_downloadUrl := None;
                pg_error := Some (Js.message_or error unknown_error) |})
      tt (l ++ [EvAnalyzeImage image t]).
Proof.
  intros Hr Hs Hd Hne.
  destruct (analyzeImageForProject_run env image t tt l) as [r' [Hr' Hrun]].
  rewrite Hr in Hr'. injection Hr' as <-.
  unfold analyzeImageAndGenerateProject.
  unfold try_catch at 1, bind at 1. rewrite Hrun.
  rewrite Hs, Hd. destruct d; [congruence|]. reflexivity.
Qed.

Lemma create_failure_run (env : Env) (request : ProjectGenerationRequest)
    (l : Log) :
  create_failed (fetch_from_prompt env (pg_description request)
                   (pg_projectType request) (pg_nombre request)) ->
  exists msg,
    generateProjectFromDescription env request tt l =
      (Normal {| pg_success := false; pg_downloadUrl := None;
                 pg_error := Some msg |},
       tt,
       l ++ [EvFromPrompt (pg_description request) (pg_nombre request)
               (pg_projectType request)]).
Proof.
  intros Hfail.
  unfold generateProjectFromDescription, try_catch, bind, emit, throw, ret.
  destruct (fetch_from_prompt env _ _ _) as [e|status ct b json];
    cbn in Hfail.
  - eexists; reflexivity.
  - destruct Hfail as [-> | [e ->]]; cbn [negb].
    + eexists; reflexivity.
    + destruct (response_ok status); eexists; reflexivity.
Qed.

Lemma generate_failure_run (env : Env) (request : ProjectGenerationRequest)
    (app : api.CreateFromPromptResponse) (l : Log) :
  created (fetch_from_prompt env (pg_description request)
             (pg_projectType request) (pg_nombre request)) app ->
  generate_failed (fetch_generate env (api.res_id app)) ->
  exists msg,
    generateProjectFromDescription env request tt l =
      (Normal {| pg_success := false; pg_downloadUrl := None;
                 pg_error := Some msg |},
       tt,
       l ++ [EvFromPrompt (pg_description request) (pg_nombre request)
               (pg_projectType request);
             EvGenerate (api.res_id app)]).
Proof.
  intros Hok Hfail.
  unfold generateProjectFromDescription, try_catch, bind, emit, throw, ret.
  destruct (fetch_from_prompt env _ _ _) as [e|status ct b json];
    cbn in Hok; [contradiction|].
  destruct Hok as [-> ->]. cbn [negb].
  rewrite <- app_assoc. cbn [List.app].
  destruct (fetch_generate env (api.res_id app)) as [e|status' ct' b' json'];
    cbn in Hfail.
  - eexists; reflexivity.
  - destruct Hfail as [-> | Hz]; cbn [negb].
    + eexists; reflexivity.
    + destruct (response_ok status'); cbn [negb]; [|eexists; reflexivity].
      rewrite Hz. destruct json'; eexists; reflexivity.
Qed.

End ServiceRuns.

Section GenerateAction.

Import imageAnalysisService MobileAppFromImagePage.

Variable env : Env.
Variable s : State.
Variable file : File.

(** The generate action is available and an image is selected. *)
Hypothesis Havailable : generate_disabled s = false.
Hypothesis Hfile : imageFile (formData s) = Some file.

Lemma generate_available_flags :
  Js.truthy (Js.trim (projectName (formData s))) = true /\
  isGenerating s = false.
Proof.
  unfold generate_disabled in Havailable.
  repeat (apply orb_false_iff in Havailable;
          destruct Havailable as [Havailable ?]).
  split; [now apply negb_false_iff | assumption].
Qed.

Lemma handleGenerateProject_begin_proceeds :
  handleGenerateProject_begin s =
    (setSuccess [] (setError [] (setIsGenerating true s)),
     Some (file, formData s)).
Proof.
  destruct generate_available_flags as [Hname _].
  unfold handleGenerateProject_begin. rewrite Hfile, Hname. reflexivity.
Qed.

Lemma same_but_error_and_success (msg : Js.str) :
  setIsGenerating false
    (setError msg (setSuccess [] (setError [] (setIsGenerating true s)))) =
  setError msg (setSuccess [] s).
Proof.
  destruct generate_available_flags as [_ Hflag].
  destruct s; cbn in *; subst; reflexivity.
Qed.

Lemma handleGenerateProject_compress_failure (e : Js.Thrown) :
  fst (fst (fileToBase64 env file true tt [])) = Abrupt e ->
  handleGenerateProject env s =
    (setError (Js.message_or e generate_error) (setSuccess [] s), []).
Proof.
  intros He.
  unfold handleGenerateProject, run.
  rewrite handleGenerateProject_begin_proceeds.
  unfold handleGenerateProject_resume, try_finally, try_catch, bind, lift, modify.
  rewrite fileToBase64_logs_nothing, He.
  rewrite <- (same_but_error_and_success (Js.message_or e generate_error)).
  reflexivity.
Qed.

Lemma handleGenerateProject_failed_result (image msg : Js.str) (log : Log) :
  fst (fst (fileToBase64 env file true tt [])) = Normal image ->
  analyzeImageAndGenerateProject env image (projectType (formData s))
    (Some (projectName (formData s))) tt [] =
    (Normal {| pg_success := false; pg_downloadUrl := None;
               pg_error := Some msg |}, tt, log) ->
  handleGenerateProject env s =
    (setError (Js.or_default (Some msg) generate_error) (setSuccess [] s), log).
Proof.
  intros Himage Hrun.
  unfold handleGenerateProject, run.
  rewrite handleGenerateProject_begin_proceeds.
  unfold handleGenerateProject_resume, try_finally, try_catch, bind, lift, modify.
  rewrite fileToBase64_logs_nothing, Himage, Hrun.
  cbn [pg_success pg_downloadUrl pg_error andb].
  rewrite <- (same_but_error_and_success
                (Js.or_default (Some msg) generate_error)).
  reflexivity.
Qed.

(** C4.  In the generate workflow of the image page, once the image is
    compressed: if the analysis answers [{success: false, error: X}]
    with a message X, the page shows X and the only remote call made is
    the analysis; and whichever step fails, the steps after it are not
    run: a failed compression calls nothing, a failed analysis calls
    neither create nor generate, a failed create does not call
    generate, a failed generate triggers no download.  In each case the
    page is as before, but for the error set (from the analysis on, to a
    message that is not empty) and the success message cleared. *)
Theorem handleGenerateProject_stops_at_first_failure :
  let t := projectType (formData s) in
  let name := projectName (formData s) in
  (forall e,
     fst (fst (fileToBase64 env file true tt [])) = Abrupt e ->
     handleGenerateProject env s =
       (setError (Js.message_or e generate_error) (setSuccess [] s), [])) /\
  (forall image r,
     fst (fst (fileToBase64 env file true tt [])) = Normal image ->
     fst (fst (analyzeImageForProject env image t tt [])) = Normal r ->
     (forall X,
        ia_success r = false -> ia_error r = Some X -> X <> [] ->
        handleGenerateProject env s =
          (setError X (setSuccess [] s), [EvAnalyzeImage image t])) /\
     (ia_success r && Js.truthy_opt (ia_description r) = false ->
      exists msg,
        msg <> [] /\
        handleGenerateProject env s =
          (setError msg (setSuccess [] s), [EvAnalyzeImage image t])) /\
     (forall d,
        ia_success r = true -> ia_description r = Some d -> d <> [] ->
        (create_failed (fetch_from_prompt env d t (Some name)) ->
         exists msg,
           msg <> [] /\
           handleGenerateProject env s =
             (setError msg (setSuccess [] s),
              [EvAnalyzeImage image t; EvFromPrompt d (Some name) t])) /\
        (forall app,
           created (fetch_from_prompt env d t (Some name)) app ->
           generate_failed (fetch_generate env (api.res_id app)) ->
           exists msg,
             msg <> [] /\
             handleGenerateProject env s =
               (setError msg (setSuccess [] s),
                [EvAnalyzeImage image t; EvFromPrompt d (Some name) t;
                 EvGenerate (api.res_id app)])))).
Proof.
  intros t name. split; [exact handleGenerateProject_compress_failure|].
  intros image r Himage Hr. split; [|split].
  - intros X Hs He HX.
    assert (Hfail : ia_success r && Js.truthy_opt (ia_description r) = false)
      by (now rewrite Hs).
    pose proof (analysis_failure_run env image t (Some name) r [] Hr Hfail)
      as Hrun.
    rewrite (handleGenerateProject_failed_result image _ _ Himage Hrun).
    rewrite He. destruct X; [congruence | reflexivity].
  - intros Hfail.
    pose proof (analysis_failure_run env image t (Some name) r [] Hr Hfail)
      as Hrun.
    eexists.
    split; [|exact (handleGenerateProject_failed_result image _ _ Himage Hrun)].
    apply or_default_not_empty. vm_compute. discriminate.
  - intros d Hs Hd Hne.
    pose proof (analysis_success_run env image t (Some name) r d [] Hr Hs Hd Hne)
      as Hrun.
    split.
    + intros Hfail.
      destruct (create_failure_run env
                  {| pg_description := d; pg_projectType := t;
                     pg_nombre := Some name |}
                  [EvAnalyzeImage image t] Hfail) as [msg Hgen].
      unfold try_catch at 1 in Hrun. cbn [List.app] in Hrun.
      rewrite Hgen in Hrun. eexists.
      split; [|exact (handleGenerateProject_failed_result image _ _ Himage Hrun)].
      apply or_default_not_empty. vm_compute. discriminate.
    + intros app Hok Hfail.
      destruct (generate_failure_run env
                  {| pg_description := d; pg_projectType := t;
                     pg_nombre := Some name |}
                  app [EvAnalyzeImage image t] Hok Hfail) as [msg Hgen].
      unfold try_catch at 1 in Hrun. cbn [List.app] in Hrun.
      rewrite Hgen in Hrun. eexists.
      split; [|exact (handleGenerateProject_failed_result image _ _ Himage Hrun)].
      apply or_default_not_empty. vm_compute. discriminate.
Qed.

End GenerateAction.

Section GenerateActionWitness.

Import imageAnalysisService MobileAppFromImagePage.

(** The analysis of the sample world answers X: the page shows X and
    the analysis is the only call. *)
Lemma handleGenerateProject_stops_at_first_failure_witness :
  handleGenerateProject Samples.world_analysis_says_X Samples.image_page_ready =
    (setError (Js.lit "X") (setSuccess [] Samples.image_page_ready),
     [EvAnalyzeImage Samples.jpeg_data_url api.ANGULAR]).
Proof.
  assert (Havailable : generate_disabled Samples.image_page_ready = false)
    by reflexivity.
  assert (Hfile : imageFile (formData Samples.image_page_ready)
                  = Some Samples.png_file) by reflexivity.
  destruct (handleGenerateProject_stops_at_first_failure
              Samples.world_analysis_says_X Samples.image_page_ready
              Samples.png_file Havailable Hfile) as [_ H].
  destruct (H Samples.jpeg_data_url
              {| ia_success := false; ia_description := None;
                 ia_error := Some (Js.lit "X") |}
              eq_refl eq_refl) as [HX _].
  apply HX; [reflexivity | reflexivity | discriminate].
Defined.

End GenerateActionWitness.

(* ================================================================== *)
(** * The name of the downloaded archive                               *)
(* ================================================================== *)

Section OnlyDownloads.

Context {S : Type} (P : Js.str -> Prop).

Lemma only_downloads_ret {A : Type} (a : A) : only_downloads P (@ret S A a).
Proof. intros s l h n Hin. now left. Qed.

Lemma only_downloads_throw {A : Type} (e : Js.Thrown) :
  only_downloads P (@throw S A e).
Proof. intros s l h n Hin. now left. Qed.

Lemma only_downloads_modify (f : S -> S) : only_downloads P (modify f).
Proof. intros s l h n Hin. now left. Qed.

Lemma only_downloads_emit (e : Event) :
  not_download e -> only_downloads P (@emit S e).
Proof.
  intros He s l h n Hin. simpl in Hin.
  apply in_app_or in Hin. destruct Hin as [Hin|[Heq|[]]]; [now left|].
  subst e. contradiction.
Qed.

Lemma only_downloads_emit_download (href name : Js.str) :
  P name -> only_downloads P (@emit S (EvDownload href name)).
Proof.
  intros HP s l h n Hin. simpl in Hin.
  apply in_app_or in Hin. destruct Hin as [Hin|[Heq|[]]]; [now left|].
  injection Heq as <- <-. now right.
Qed.

Lemma only_downloads_bind_returns {A B : Type} (Q : A -> Prop)
    (m : M S A) (k : A -> M S B) :
  only_downloads P m -> returns Q m ->
  (forall a, Q a -> only_downloads P (k a)) ->
  only_downloads P (bind m k).
Proof.
  intros Hm HQ Hk s l h n. unfold bind.
  specialize (Hm s l h n). specialize (HQ s l).
  destruct (m s l) as [[r s'] l'].
  destruct r as [a|e]; simpl in *; [|exact Hm].
  intros Hin. destruct (Hk a (HQ a s' l' eq_refl) s' l' h n Hin); auto.
Qed.

Lemma only_downloads_bind {A B : Type} (m : M S A) (k : A -> M S B) :
  only_downloads P m -> (forall a, only_downloads P (k a)) ->
  only_downloads P (bind m k).
Proof.
  intros Hm Hk.
  apply (only_downloads_bind_returns (fun _ => True)); auto.
  intros s l a s' l' _. exact I.
Qed.

Lemma only_downloads_try_catch {A : Type} (m : M S A)
    (h : Js.Thrown -> M S A) :
  only_downloads P m -> (forall e, only_downloads P (h e)) ->
  only_downloads P (try_catch m h).
Proof.
  intros Hm Hh s l href n. unfold try_catch.
  specialize (Hm s l href n).
  destruct (m s l) as [[r s'] l'].
  destruct r as [a|e]; simpl in *; [exact Hm|].
  intros Hin. destruct (Hh e s' l' href n Hin); auto.
Qed.

Lemma only_downloads_try_finally {A : Type} (m : M S A) (f : M S unit) :
  only_downloads P m -> only_downloads P f ->
  only_downloads P (try_finally m f).
Proof.
  intros Hm Hf s l href n. unfold try_finally.
  specialize (Hm s l href n).
  destruct (m s l) as [[r s'] l']. simpl in Hm.
  specialize (Hf s' l' href n).
  destruct (f s' l') as [[r2 s2] l2]. simpl in Hf.
  destruct r2; simpl; intros Hin; destruct (Hf Hin); auto.
Qed.

Lemma only_downloads_lift {A : Type} (m : M unit A) :
  only_downloads P m -> only_downloads P (@lift S A m).
Proof.
  intros Hm s l href n. unfold lift.
  specialize (Hm tt l href n).
  destruct (m tt l) as [[r u] l']. exact Hm.
Qed.

Lemma returns_lift {A : Type} (Q : A -> Prop) (m : M unit A) :
  returns Q m -> returns Q (@lift S A m).
Proof.
  intros Hm s l a s' l'. unfold lift.
  specialize (Hm tt l a).
  destruct (m tt l) as [[r u] l1]. intros H. injection H as -> _ _.
  eapply Hm. reflexivity.
Qed.

End OnlyDownloads.

Create HintDb downloads.

#[export] Hint Resolve only_downloads_ret only_downloads_throw
  only_downloads_modify only_downloads_bind only_downloads_try_catch
  only_downloads_try_finally only_downloads_lift : downloads.

#[export] Hint Extern 1 (not_download _) => exact I : downloads.
#[export] Hint Extern 2 (only_downloads _ (emit _)) =>
  apply only_downloads_emit; exact I : downloads.

(** Splits a computation along its [match]es and [if]s until the
    combinators above decide what it may download. *)
Ltac downloads_cases :=
  repeat (intros;
          match goal with
          | |- only_downloads _ (match ?x with _ => _ end) => destruct x
          | |- only_downloads _ (if ?b then _ else _) => destruct b
          | |- only_downloads _ (let _ := _ in _) => cbv zeta
          | |- only_downloads _ (bind _ _) => apply only_downloads_bind
          | |- only_downloads _ (try_catch _ _) => apply only_downloads_try_catch
          | |- only_downloads _ (try_finally _ _) =>
              apply only_downloads_try_finally
          | |- only_downloads _ (lift _) => apply only_downloads_lift
          | |- only_downloads _ _ => solve [auto with downloads]
          end);
  try solve [intros; auto with downloads].

Section ServicesDownloadNothing.

Import imageAnalysisService apiService.

Variable P : Js.str -> Prop.
Variable env : Env.

Lemma fileToBase64_downloads_nothing (file : File) (c : bool) :
  only_downloads P (fileToBase64 env file c).
Proof. unfold fileToBase64, compressImage. downloads_cases. Qed.

Lemma analyzeImageForProject_downloads_nothing (image : Js.str)
    (t : api.ProjectType) :
  only_downloads P (analyzeImageForProject env image t).
Proof. unfold analyzeImageForProject. downloads_cases. Qed.

Lemma generateProjectFromDescription_downloads_nothing
    (request : ProjectGenerationRequest) :
  only_downloads P (generateProjectFromDescription env request).
Proof. unfold generateProjectFromDescription. downloads_cases. Qed.

Lemma analyzeImageAndGenerateProject_downloads_nothing (image : Js.str)
    (t : api.ProjectType) (name : option Js.str) :
  only_downloads P (analyzeImageAndGenerateProject env image t name).
Proof.
  unfold analyzeImageAndGenerateProject.
  apply only_downloads_try_catch; [|downloads_cases].
  apply only_downloads_bind;
    [apply analyzeImageForProject_downloads_nothing|].
  intros r. destruct (_ || _); [downloads_cases|].
  apply generateProjectFromDescription_downloads_nothing.
Qed.

Lemma api_post_downloads_nothing {D : Type} (r : AxiosResult D) :
  only_downloads P (api_post env r).
Proof. unfold api_post, handleUnauthorized. downloads_cases. Qed.

Lemma createFromPrompt_downloads_nothing (request : api.CreateFromPromptRequest) :
  only_downloads P (mobileAppsApi.createFromPrompt env request).
Proof.
  unfold mobileAppsApi.createFromPrompt.
  apply only_downloads_try_catch; [|downloads_cases].
  destruct (mobileAppsApi.no_user env); [downloads_cases|].
  cbv zeta. apply only_downloads_bind; [downloads_cases|].
  intros _. apply api_post_downloads_nothing.
Qed.

Lemma generateProject_downloads_nothing (id : Js.str) :
  only_downloads P (mobileAppsApi.generateProject env id).
Proof.
  unfold mobileAppsApi.generateProject.
  apply only_downloads_try_catch; [|downloads_cases].
  apply only_downloads_bind; [downloads_cases|].
  intros _. apply api_post_downloads_nothing.
Qed.

(** [createFromPrompt] resolves only with the record the server sent
    with a 2xx status. *)
Lemma createFromPrompt_returns (request : api.CreateFromPromptRequest) :
  returns
    (fun app =>
       exists status contentType,
         axios_from_prompt env (api.req_prompt request)
           (api.req_nombre request)
           (match api.req_project_type request with
            | Some t => t
            | None => api.FLUTTER
            end) = AxiosResponse status contentType app /\
         response_ok status = true)
    (mobileAppsApi.createFromPrompt env request).
Proof.
  intros [] l a s' l'.
  unfold mobileAppsApi.createFromPrompt, api_post, handleUnauthorized,
    try_catch, bind, emit, throw, ret.
  destruct (mobileAppsApi.no_user env); [discriminate|].
  cbv zeta.
  destruct (axios_from_prompt env _ _ _) as [e|status ct data];
    [discriminate|].
  destruct (response_ok status) eqn:Hok.
  - intros H. injection H as <- _ _. eauto.
  - destruct (status =? 401); [destruct (negb (onLoginPage env))|];
      discriminate.
Qed.

End ServicesDownloadNothing.

#[export] Hint Resolve fileToBase64_downloads_nothing
  analyzeImageForProject_downloads_nothing
  generateProjectFromDescription_downloads_nothing
  analyzeImageAndGenerateProject_downloads_nothing
  api_post_downloads_nothing createFromPrompt_downloads_nothing
  generateProject_downloads_nothing : downloads.

Section DownloadNames.

Import apiService.

(** C9, as the claim states it, fails in the prompt workflow: the form
    sends no project name, the server names the created record
    "Gym App", the generation succeeds, and the download is called
    "Gym App-flutter.zip", not after the (empty) name of the request. *)
Lemma prompt_download_named_after_server_record :
  let s := Samples.prompt_page_with
             (Js.lit "crea una app de gimnasio y fitness") in
  let s' := fst (MobileAppFromPromptPage.handleSubmit Samples.world s) in
  let log := snd (MobileAppFromPromptPage.handleSubmit Samples.world s) in
  api.req_nombre (MobileAppFromPromptPage.formData s) = Some [] /\
  MobileAppFromPromptPage.success s' = true /\
  In (EvDownload (Js.lit "blob:1") (Js.lit "Gym App-flutter.zip")) log /\
  ~ In (EvDownload (Js.lit "blob:1") ([] ++ Js.lit "-flutter.zip")) log.
Proof.
  vm_compute. repeat split; auto 10.
  intros H. repeat (destruct H as [H|H]; [discriminate|]). exact H.
Qed.

(** C9, amended.  Every download is named as follows.  On the image
    page: the project name and the project kind of the form, as they
    were when generate was pressed (they are what the request
    carries).  On the prompt page: the name and the kind of the record
    the server returned for the create request, with "mobile-app" when
    that name is empty.  On the apps page and in the app manager: the
    name and the kind of the listed record. *)
Theorem download_names (env : Env) :
  (forall s href name,
     In (EvDownload href name)
        (snd (MobileAppFromImagePage.handleGenerateProject env s)) ->
     name =
       MobileAppFromImagePage.projectName (MobileAppFromImagePage.formData s)
       ++ Js.lit "-" ++
       api.ProjectType_value
         (MobileAppFromImagePage.projectType (MobileAppFromImagePage.formData s))
       ++ Js.lit ".zip") /\
  (forall s href name,
     In (EvDownload href name)
        (snd (MobileAppFromPromptPage.handleSubmit env s)) ->
     exists status contentType app,
       axios_from_prompt env
         (api.req_prompt (MobileAppFromPromptPage.formData s))
         (api.req_nombre (MobileAppFromPromptPage.formData s))
         (match api.req_project_type (MobileAppFromPromptPage.formData s) with
          | Some t => t
          | None => api.FLUTTER
          end) = AxiosResponse status contentType app /\
       response_ok status = true /\
       name =
         (if Js.truthy (api.res_nombre app) then api.res_nombre app
          else Js.lit "mobile-app")
         ++ Js.lit "-" ++ api.ProjectType_value (api.res_project_type app)
         ++ Js.lit ".zip") /\
  (forall app s href name,
     In (EvDownload href name) (snd (MobileAppsPage.handleGenerate env app s [])) ->
     name = api.nombre app ++ Js.lit "-" ++
            api.ProjectType_value (api.project_type app) ++ Js.lit ".zip") /\
  (forall app s href name,
     In (EvDownload href name)
        (snd (MobileAppManager.handleGenerate env app s [])) ->
     name = api.nombre app ++ Js.lit "-" ++
            api.ProjectType_value (api.project_type app) ++ Js.lit ".zip").
Proof.
  split; [|split; [|split]].
  - intros s href name.
    unfold MobileAppFromImagePage.handleGenerateProject,
      MobileAppFromImagePage.run.
    destruct (MobileAppFromImagePage.handleGenerateProject_begin s)
      as [s1 [[file fd]|]] eqn:Hbegin; [|intros []].
    assert (Hfd : fd = MobileAppFromImagePage.formData s).
    { unfold MobileAppFromImagePage.handleGenerateProject_begin in Hbegin.
      destruct (MobileAppFromImagePage.imageFile _); [|discriminate].
      destruct (negb _); [discriminate|]. now injection Hbegin as _ _ <-. }
    subst fd.
    assert (H : only_downloads
                  (fun n => n = MobileAppFromImagePage.download_name
                                  (MobileAppFromImagePage.formData s))
                  (MobileAppFromImagePage.handleGenerateProject_resume env
                     (file, MobileAppFromImagePage.formData s))).
    { unfold MobileAppFromImagePage.handleGenerateProject_resume.
      apply only_downloads_try_finally; [|downloads_cases].
      apply only_downloads_try_catch; [|downloads_cases].
      apply only_downloads_bind; [downloads_cases|]. intros image.
      apply only_downloads_bind; [downloads_cases|]. intros result.
      destruct (_ && _); [|downloads_cases]. cbv zeta.
      apply only_downloads_bind;
        [now apply only_downloads_emit_download | downloads_cases]. }
    specialize (H s1 [] href name).
    destruct (MobileAppFromImagePage.handleGenerateProject_resume env _ s1 [])
      as [[r s2] log].
    intros Hin. destruct (H Hin) as [[]|Hname]. exact Hname.
  - intros s href name.
    unfold MobileAppFromPromptPage.handleSubmit.
    destruct (MobileAppFromPromptPage.handleSubmit_begin s)
      as [s1 [fd|]] eqn:Hbegin; [|intros []].
    assert (Hfd : fd = MobileAppFromPromptPage.formData s).
    { unfold MobileAppFromPromptPage.handleSubmit_begin in Hbegin.
      destruct (negb _); [discriminate|].
      destruct (_ <? _); [discriminate|]. now injection Hbegin as _ <-. }
    subst fd.
    set (fd := MobileAppFromPromptPage.formData s).
    set (Q := fun app : api.CreateFromPromptResponse =>
                exists status contentType,
                  axios_from_prompt env (api.req_prompt fd) (api.req_nombre fd)
                    (match api.req_project_type fd with
                     | Some t => t
                     | None => api.FLUTTER
                     end) = AxiosResponse status contentType app /\
                  response_ok status = true).
    assert (H : only_downloads
                  (fun n => exists app,
                     Q app /\ n = MobileAppFromPromptPage.download_name app)
                  (MobileAppFromPromptPage.handleSubmit_resume env fd)).
    { unfold MobileAppFromPromptPage.handleSubmit_resume.
      apply only_downloads_try_finally; [|downloads_cases].
      apply only_downloads_try_catch; [|downloads_cases].
      apply (only_downloads_bind_returns _ Q).
      - downloads_cases.
      - apply returns_lift, createFromPrompt_returns.
      - intros app HQ.
        apply only_downloads_bind; [downloads_cases|]. intros blob.
        apply only_downloads_bind; [downloads_cases|]. intros _. cbv zeta.
        apply only_downloads_bind; [|downloads_cases].
        apply only_downloads_emit_download. eauto. }
    specialize (H s1 [] href name).
    destruct (MobileAppFromPromptPage.handleSubmit_resume env fd s1 [])
      as [[r s2] log].
    intros Hin. destruct (H Hin) as [[]|[app [[status [ct [Hax Hok]]] Hname]]].
    exists status, ct, app. auto.
  - intros app s href name Hin.
    assert (H : only_downloads
                  (fun n => n = MobileAppsPage.download_name app)
                  (MobileAppsPage.handleGenerate env app)).
    { unfold MobileAppsPage.handleGenerate.
      apply only_downloads_try_finally; [|downloads_cases].
      apply only_downloads_try_catch; [|downloads_cases].
      apply only_downloads_bind; [downloads_cases|]. intros _.
      apply only_downloads_bind; [downloads_cases|]. intros blob.
      apply only_downloads_bind; [downloads_cases|]. intros _. cbv zeta.
      apply only_downloads_bind; [|downloads_cases].
      now apply only_downloads_emit_download. }
    destruct (H s [] href name Hin) as [[]|Hname]. exact Hname.
  - intros app s href name Hin.
    assert (H : only_downloads
                  (fun n => n = api.nombre app ++ Js.lit "-" ++
                                api.ProjectType_value (api.project_type app) ++
                                Js.lit ".zip")
                  (MobileAppManager.handleGenerate env app)).
    { unfold MobileAppManager.handleGenerate.
      apply only_downloads_try_finally; [|downloads_cases].
      apply only_downloads_try_catch; [|downloads_cases].
      apply only_downloads_bind; [downloads_cases|]. intros _.
      apply only_downloads_bind; [downloads_cases|]. intros blob.
      apply only_downloads_bind; [downloads_cases|]. intros _. cbv zeta.
      apply only_downloads_bind; [|downloads_cases].
      now apply only_downloads_emit_download. }
    destruct (H s [] href name Hin) as [[]|Hname]. exact Hname.
Qed.

End DownloadNames.

(* ================================================================== *)
(** * The content type of the generate response                        *)
(* ================================================================== *)

Section GenerateContentType.

Import imageAnalysisService apiService.

(** C5.  The generate endpoint answers 200 with a JSON error body
    (content type application/json).  The caller written with [fetch],
    [generateProjectFromDescription], reads the content type and
    reports the failure; the image page then shows the server's message
    and downloads nothing.  The callers of [mobileAppsApi.generateProject]
    never look at the content type: the prompt page downloads the error
    body as "Gym App-flutter.zip" and shows its success screen, and the
    apps page and the app manager download it under the record's
    name. *)
Theorem generateProject_callers_download_error_body :
  let env := Samples.world_generate_says_json in
  let prompt_page := Samples.prompt_page_with
                       (Js.lit "crea una app de gimnasio y fitness") in
  let listed := {| api.id := Js.lit "app-1"; api.nombre := Js.lit "Gym App";
                   api.xml := None; api.prompt := Some (Js.lit "gimnasio");
                   api.mockup_id := None; api.project_type := api.FLUTTER;
                   api.user_id := Js.lit "user-1" |} in
  (* the fetch path sees the failure *)
  fst (fst (generateProjectFromDescription env
              {| pg_description := Js.lit "una pantalla de login";
                 pg_projectType := api.ANGULAR;
                 pg_nombre := Some (Js.lit "tienda") |} tt [])) =
    Normal {| pg_success := false; pg_downloadUrl := None;
              pg_error := Some (Js.lit "No se pudo generar") |} /\
  MobileAppFromImagePage.handleGenerateProject env Samples.image_page_ready =
    (MobileAppFromImagePage.setError (Js.lit "No se pudo generar")
       (MobileAppFromImagePage.setSuccess [] Samples.image_page_ready),
     [EvAnalyzeImage Samples.jpeg_data_url api.ANGULAR;
      EvFromPrompt (Js.lit "una pantalla de login") (Some (Js.lit "tienda"))
        api.ANGULAR;
      EvGenerate (Js.lit "app-1")]) /\
  (* the axios path does not *)
  fst (fst (mobileAppsApi.generateProject env (Js.lit "app-1") tt [])) =
    Normal Samples.json_error_blob /\
  MobileAppFromPromptPage.handleSubmit env prompt_page =
    (MobileAppFromPromptPage.setSuccess true prompt_page,
     [EvFromPrompt (Js.lit "crea una app de gimnasio y fitness") (Some [])
        api.FLUTTER;
      EvGenerate (Js.lit "app-1");
      EvCreateObjectURL Samples.json_error_blob;
      EvDownload (Js.lit "blob:1") (Js.lit "Gym App-flutter.zip");
      EvRevokeObjectURL (Js.lit "blob:1");
      EvNavigateLater (Js.lit "Gym App") (Js.lit "app-1")]) /\
  In (EvDownload (Js.lit "blob:1") (Js.lit "Gym App-flutter.zip"))
     (snd (MobileAppsPage.handleGenerate env listed
             {| MobileAppsPage.mobileApps := [listed];
                MobileAppsPage.loading := false;
                MobileAppsPage.error := None;
                MobileAppsPage.generatingId := None;
                MobileAppsPage.searchTerm := [] |} [])) /\
  In (EvDownload (Js.lit "blob:1") (Js.lit "Gym App-flutter.zip"))
     (snd (MobileAppManager.handleGenerate env listed
             {| MobileAppManager.error := None;
                MobileAppManager.generatingId := None |} [])).
Proof.
  vm_compute. repeat split; auto 10.
Qed.

End GenerateContentType.

Section DownloadNamesWitness.

(** On the image page of the sample world a download happens and the
    archive is called "tienda-angular.zip". *)
Lemma download_names_witness :
  exists href name,
    In (EvDownload href name)
       (snd (MobileAppFromImagePage.handleGenerateProject Samples.world
               Samples.image_page_ready)) /\
    name = Js.lit "tienda-angular.zip".
Proof.
  assert (Hin : In (EvDownload (Js.lit "blob:1") (Js.lit "tienda-angular.zip"))
                   (snd (MobileAppFromImagePage.handleGenerateProject
                           Samples.world Samples.image_page_ready))).
  { vm_compute. auto 10. }
  exists (Js.lit "blob:1"), (Js.lit "tienda-angular.zip").
  split; [exact Hin|].
  destruct (download_names Samples.world) as [H _].
  exact (H Samples.image_page_ready _ _ Hin).
Defined.

End DownloadNamesWitness.

(* ================================================================== *)
(** * Steps in flight                                                  *)
(* ================================================================== *)

Section StepsMakeTheHandlers.

Import imageAnalysisService.

Ltac image_step :=
  cbv beta iota zeta;
  cbn [ImagePageSteps.finish ImagePageSteps.settle];
  unfold stretch, ImagePageSteps.handleImageChange_catch,
    ImagePageSteps.handleAnalyzeImage_catch,
    ImagePageSteps.handleGenerateProject_catch,
    ImagePageSteps.handleGenerateProject_then,
    ImagePageSteps.analysis_settled, ImagePageSteps.creation_settled,
    ImagePageSteps.generation_settled, ImagePageSteps.failed_with,
    try_finally, try_catch, bind, lift, modify, ret, emit, throw;
  cbv beta iota zeta.

(** Cutting the handlers of the image page at their [await]s changes
    nothing of what one handler does by itself: its steps, run one after
    the other with nothing in between, are the handler. *)
Lemma image_steps_make_the_handler (env : Env)
    (t : MobileAppFromImagePage.Task) (s : MobileAppFromImagePage.State)
    (l : Log) :
  ImagePageSteps.finish 4 env (ImagePageSteps.first_await t) s l =
  MobileAppFromImagePage.resume env t s l.
Proof.
  destruct t as [file|[file fd]|[file fd]];
    unfold MobileAppFromImagePage.resume, ImagePageSteps.first_await.
  - unfold MobileAppFromImagePage.handleImageChange_resume. image_step.
    destruct (fileToBase64 env file true tt l) as [[[image|e] []] l1];
      reflexivity.
  - unfold MobileAppFromImagePage.handleAnalyzeImage_resume. image_step.
    destruct (fileToBase64 env file true tt l) as [[[image|e] []] l1];
      [|reflexivity].
    image_step. image_step.
    destruct (analyzeImageForProject env image
                (MobileAppFromImagePage.projectType fd) tt l1)
      as [[[r|e] []] l2]; [|reflexivity].
    destruct (ia_success r && Js.truthy_opt (ia_description r)); reflexivity.
  - unfold MobileAppFromImagePage.handleGenerateProject_resume,
      analyzeImageAndGenerateProject, generateProjectFromDescription.
    image_step.
    destruct (fileToBase64 env file true tt l) as [[[image|e] []] l1];
      [|reflexivity].
    image_step.
    destruct (analyzeImageForProject env image
                (MobileAppFromImagePage.projectType fd) tt l1)
      as [[[r|e] []] l2]; [|reflexivity].
    destruct (ia_success r); cbn [negb orb andb]; [|reflexivity].
    destruct (Js.truthy_opt (ia_description r)); cbn [negb]; [|reflexivity].
    image_step. cbn [pg_description pg_projectType pg_nombre].
    destruct (fetch_from_prompt env _ _ _) as [e|status ct blob [e|app]];
      try reflexivity;
      (destruct (response_ok status); cbn [negb]; [|reflexivity]);
      try reflexivity.
    image_step.
    destruct (fetch_generate env (api.res_id app))
      as [e|status' ct' blob' [e|body]];
      try reflexivity;
      (destruct (response_ok status'); cbn [negb]; [|reflexivity]);
      (destruct (is_zip ct'); [|reflexivity]);
      cbn [pg_success pg_downloadUrl andb Js.truthy_opt];
      destruct (Js.truthy (createObjectURL env blob')); reflexivity.
Qed.

Ltac prompt_step :=
  cbv beta iota zeta;
  cbn [PromptPageSteps.finish PromptPageSteps.settle];
  unfold stretch, PromptPageSteps.handleSubmit_catch, try_finally, try_catch,
    bind, lift, modify, ret, emit;
  cbv beta iota zeta.

(** The same for the submission of the prompt page. *)
Lemma prompt_steps_make_the_handler (env : Env)
    (c : api.CreateFromPromptRequest) (s : MobileAppFromPromptPage.State)
    (l : Log) :
  PromptPageSteps.finish 2 env (PromptPageSteps.Submit_creating c) s l =
  MobileAppFromPromptPage.handleSubmit_resume env c s l.
Proof.
  unfold MobileAppFromPromptPage.handleSubmit_resume. prompt_step.
  destruct (apiService.mobileAppsApi.createFromPrompt env c tt l)
    as [[[app|e] []] l1]; [|reflexivity].
  prompt_step.
  destruct (apiService.mobileAppsApi.generateProject env (api.res_id app) tt l1)
    as [[[blob|e] []] l2]; reflexivity.
Qed.

End StepsMakeTheHandlers.

Section StepLists.

Context {P : Type}.

Lemma filter_length_snoc (k : P -> bool) (l : list P) (t : P) :
  List.length (filter k (l ++ [t])) =
  (List.length (filter k l) + Nat.b2n (k t))%nat.
Proof.
  rewrite filter_app, length_app. simpl. destruct (k t); reflexivity.
Qed.

(** A settled step leaves the list: its handler is over, or waits at
    its next [await] in the same place. *)
Lemma filter_length_replace_settled (k : P -> bool) (l : list P) (i : nat)
    (p : P) (next : option P) :
  nth_error l i = Some p ->
  (List.length (filter k (replace_settled i next l)) + Nat.b2n (k p))%nat =
  (List.length (filter k l) +
   match next with Some p' => Nat.b2n (k p') | None => 0 end)%nat.
Proof.
  revert i; induction l as [|x l IH]; intros [|i] H; simpl in *;
    try discriminate.
  - injection H as ->. destruct next as [p'|]; simpl;
      destruct (k p); try destruct (k p'); simpl; lia.
  - specialize (IH i H). destruct (k x); simpl; lia.
Qed.

Lemma length_replace_settled (l : list P) (i : nat) (p : P) (next : option P) :
  nth_error l i = Some p ->
  (List.length (replace_settled i next l) + 1)%nat =
  (List.length l + match next with Some _ => 1 | None => 0 end)%nat.
Proof.
  revert i; induction l as [|x l IH]; intros [|i] H; simpl in *;
    try discriminate.
  - destruct next; simpl; lia.
  - specialize (IH i H). lia.
Qed.

End StepLists.

Section ImagePageInvariant.

Import imageAnalysisService MobileAppFromImagePage ImagePageSteps.

Ltac settle_step :=
  cbv beta iota zeta;
  cbn [settle];
  unfold stretch, handleImageChange_catch, handleAnalyzeImage_catch,
    handleGenerateProject_catch, handleGenerateProject_then,
    try_finally, try_catch, bind, lift, modify, ret, emit, throw;
  cbv beta iota zeta.

(** When the work a handler awaits settles, either the handler is
    suspended again and the busy flags are as they were, or it is over
    and its own flag is down. *)
Lemma settle_flags (env : Env) (p : Pending) (s : State) (l : Log) :
  match settle env p s l with
  | (Normal (Some p'), s', _) =>
      handler_of p' = handler_of p /\ flags s' = flags s
  | (_, s', _) => flags s' = lowered (handler_of p) (flags s)
  end.
Proof.
  destruct p as [file|[file fd]|[file fd] image|[file fd] image
                |[file fd]|[file fd] image|[file fd] request|[file fd] app];
    settle_step.
  - destruct (fileToBase64 env file true tt l) as [[[image|e] []] l1];
      reflexivity.
  - destruct (fileToBase64 env file true tt l) as [[[image|e] []] l1];
      [split|]; reflexivity.
  - split; reflexivity.
  - destruct (analyzeImageForProject env image (projectType fd) tt l)
      as [[[r|e] []] l1]; [|reflexivity].
    destruct (ia_success r && Js.truthy_opt (ia_description r)); reflexivity.
  - destruct (fileToBase64 env file true tt l) as [[[image|e] []] l1];
      [split|]; reflexivity.
  - destruct (analysis_settled env image (projectType fd)
                (Some (projectName fd)) tt l)
      as [[[[result|request]|e] []] l1]; [|split|]; try reflexivity.
    destruct (pg_success result && Js.truthy_opt (pg_downloadUrl result));
      reflexivity.
  - destruct (creation_settled env request tt l)
      as [[[[result|app]|e] []] l1]; [|split|]; try reflexivity.
    destruct (pg_success result && Js.truthy_opt (pg_downloadUrl result));
      reflexivity.
  - destruct (generation_settled env app tt l) as [[[result|e] []] l1].
    + destruct (pg_success result && Js.truthy_opt (pg_downloadUrl result));
        reflexivity.
    + cbn [failed_with pg_success andb]. reflexivity.
Qed.

Lemma opened_flags_count_runs : flags_count_runs opened.
Proof. repeat split. Qed.

Lemma fire_keeps_flags_count_runs (a : Action) (page page' : Page) :
  flags_count_runs page -> fire a page = Some page' -> flags_count_runs page'.
Proof.
  intros [Hc [Ha Hg]] Hfire.
  destruct a as [file| | | |value|value|i env]; simpl in Hfire.
  - (* SelectFile *)
    unfold fileInput_disabled in Hfire.
    destruct (isCompressing (cells page)) eqn:Ec; [discriminate|].
    injection Hfire as <-.
    unfold handleImageChange_begin.
    destruct file as [file|];
      [|unfold flags_count_runs, runs, started in *; cbn;
        rewrite Ec; repeat split; assumption].
    destruct (negb (valid (validateImageFile file)));
      unfold flags_count_runs, runs, started in *; cbn;
      rewrite ?filter_length_snoc; cbn; rewrite ?Ec, Hc, Ha, Hg;
      repeat split; cbn; lia.
  - (* ClickAnalyze *)
    unfold analyze_disabled, has_image in Hfire.
    destruct (imageFile (formData (cells page))) as [file|] eqn:Ef;
      [|discriminate].
    destruct (isAnalyzing (cells page)) eqn:Ea; [discriminate|].
    destruct (isCompressing (cells page)) eqn:Ec; [discriminate|].
    injection Hfire as <-.
    unfold handleAnalyzeImage_begin. rewrite Ef.
    unfold flags_count_runs, runs, started in *; cbn.
    rewrite !filter_length_snoc. cbn. rewrite Hc, Ha, Hg, Ec.
    repeat split; cbn; lia.
  - (* ClickGenerate *)
    unfold generate_disabled, has_image in Hfire.
    destruct (imageFile (formData (cells page))) as [file|] eqn:Ef;
      [|discriminate].
    destruct (negb (Js.truthy (Js.trim (projectName (formData (cells page))))))
      eqn:En; [discriminate|].
    destruct (isGenerating (cells page)) eqn:Eg; [discriminate|].
    destruct (isCompressing (cells page)) eqn:Ec; [discriminate|].
    injection Hfire as <-.
    unfold handleGenerateProject_begin. rewrite Ef, En.
    unfold flags_count_runs, runs, started in *; cbn.
    rewrite !filter_length_snoc. cbn. rewrite Hc, Ha, Hg, Ec.
    repeat split; cbn; lia.
  - (* ClickClear *)
    destruct (Js.truthy (imagePreview (cells page))); [|discriminate].
    injection Hfire as <-. repeat split; assumption.
  - injection Hfire as <-. repeat split; assumption.
  - injection Hfire as <-. repeat split; assumption.
  - (* Settle *)
    destruct (nth_error (suspended page) i) as [p|] eqn:Ep; [|discriminate].
    pose proof (settle_flags env p (cells page) []) as Hflags.
    pose proof (fun next =>
                  filter_length_replace_settled
                    (fun q => Handler_eqb (handler_of q) ImageChange)
                    _ _ _ next Ep) as Rc.
    pose proof (fun next =>
                  filter_length_replace_settled
                    (fun q => Handler_eqb (handler_of q) AnalyzeImage)
                    _ _ _ next Ep) as Ra.
    pose proof (fun next =>
                  filter_length_replace_settled
                    (fun q => Handler_eqb (handler_of q) GenerateProject)
                    _ _ _ next Ep) as Rg.
    destruct (settle env p (cells page) []) as [[[[p'|]|e] s'] l'];
      injection Hfire as <-;
      unfold flags_count_runs, runs, flags in *; cbn [cells suspended].
    + destruct Hflags as [Hsame Hflags].
      specialize (Rc (Some p')); specialize (Ra (Some p'));
        specialize (Rg (Some p')).
      cbn beta iota in Rc, Ra, Rg. rewrite Hsame in Rc, Ra, Rg.
      injection Hflags as -> -> ->. lia.
    + specialize (Rc None); specialize (Ra None); specialize (Rg None).
      cbn beta iota in Rc, Ra, Rg.
      destruct (handler_of p); cbn in Rc, Ra, Rg, Hflags;
        injection Hflags as -> -> ->;
        destruct (isCompressing (cells page)), (isAnalyzing (cells page)),
                 (isGenerating (cells page)); cbn in *; repeat split; lia.
    + specialize (Rc None); specialize (Ra None); specialize (Rg None).
      cbn beta iota in Rc, Ra, Rg.
      destruct (handler_of p); cbn in Rc, Ra, Rg, Hflags;
        injection Hflags as -> -> ->;
        destruct (isCompressing (cells page)), (isAnalyzing (cells page)),
                 (isGenerating (cells page)); cbn in *; repeat split; lia.
Qed.

Lemma reachable_flags_count_runs (page : Page) :
  reachable page -> flags_count_runs page.
Proof.
  intros [actions Hrun].
  assert (H : forall page0, flags_count_runs page0 ->
                            fire_all actions page0 = Some page ->
                            flags_count_runs page).
  { clear Hrun. induction actions as [|a rest IH]; intros page0 Hinv Hrun;
      simpl in Hrun.
    - now injection Hrun as <-.
    - destruct (fire a page0) as [page1|] eqn:Hfire; [|discriminate].
      eapply IH; [|exact Hrun].
      eapply fire_keeps_flags_count_runs; eassumption. }
  exact (H opened opened_flags_count_runs Hrun).
Qed.

(** Every suspended handler is one run of one of the three handlers,
    and only some handlers are ever at a step of a given kind. *)
Lemma steps_among_runs (page : Page) :
  (List.length (suspended page) =
     runs ImageChange page + runs AnalyzeImage page +
     runs GenerateProject page /\
   in_flight Compression page <= List.length (suspended page) /\
   in_flight ModuleImport page <= runs AnalyzeImage page /\
   in_flight Analysis page <= runs AnalyzeImage page + runs GenerateProject page /\
   in_flight Creation page <= runs GenerateProject page /\
   in_flight Generation page <= runs GenerateProject page)%nat.
Proof.
  unfold runs, in_flight.
  induction (suspended page) as [|p l IH]; [cbn; lia|].
  destruct p; cbn; lia.
Qed.

End ImagePageInvariant.

Section PromptPageInvariant.

Import MobileAppFromPromptPage PromptPageSteps.

Ltac settle_step :=
  cbv beta iota zeta;
  cbn [settle];
  unfold stretch, handleSubmit_catch, try_finally, try_catch,
    bind, lift, modify, ret, emit;
  cbv beta iota zeta.

(** When the request a submission awaits settles, either the submission
    is suspended again and [loading] is as it was, or it is over and
    [loading] is false. *)
Lemma settle_loading (env : Env) (p : Pending) (s : State) (l : Log) :
  match settle env p s l with
  | (Normal (Some _), s', _) => loading s' = loading s
  | (_, s', _) => loading s' = false
  end.
Proof.
  destruct p as [c|app]; settle_step.
  - destruct (apiService.mobileAppsApi.createFromPrompt env c tt l)
      as [[[app|e] []] l1]; reflexivity.
  - destruct (apiService.mobileAppsApi.generateProject env (api.res_id app) tt l)
      as [[[blob|e] []] l1]; reflexivity.
Qed.

Lemma fire_keeps_loading_counts (a : Action) (page page' : Page) :
  List.length (suspended page) = Nat.b2n (loading (cells page)) ->
  fire a page = Some page' ->
  List.length (suspended page') = Nat.b2n (loading (cells page')).
Proof.
  intros Hinv Hfire.
  destruct a as [|value|value|value|ejemplo|i env]; simpl in Hfire;
    try (injection Hfire as <-; exact Hinv).
  - (* Submit *)
    unfold form_rendered, submit_disabled in Hfire.
    destruct (success (cells page)); [discriminate|].
    destruct (loading (cells page)) eqn:El; [discriminate|].
    cbn [negb andb orb] in Hfire.
    destruct (Js.truthy (Js.trim (api.req_prompt (formData (cells page)))))
      eqn:Et; [|discriminate].
    cbn [negb] in Hfire.
    unfold handleSubmit_begin in Hfire. rewrite Et in Hfire.
    cbn [negb] in Hfire.
    destruct (Js.length (api.req_prompt (formData (cells page))) <? 10);
      injection Hfire as <-; cbn; rewrite ?El, ?length_app, Hinv; cbn; lia.
  - (* Settle *)
    destruct (nth_error (suspended page) i) as [p|] eqn:Ep; [|discriminate].
    pose proof (settle_loading env p (cells page) []) as Hl.
    pose proof (fun next => length_replace_settled _ _ _ next Ep) as Hlen.
    destruct (settle env p (cells page) []) as [[[[p'|]|e] s'] l'];
      injection Hfire as <-; cbn [cells suspended]; rewrite Hl.
    + specialize (Hlen (Some p')). cbn beta iota in Hlen. lia.
    + specialize (Hlen None). cbn beta iota in Hlen.
      destruct (loading (cells page)); cbn in *; lia.
    + specialize (Hlen None). cbn beta iota in Hlen.
      destruct (loading (cells page)); cbn in *; lia.
Qed.

Lemma reachable_loading_counts (page : Page) :
  reachable page ->
  List.length (suspended page) = Nat.b2n (loading (cells page)).
Proof.
  intros [actions Hrun].
  assert (H : forall page0,
            List.length (suspended page0) = Nat.b2n (loading (cells page0)) ->
            fire_all actions page0 = Some page ->
            List.length (suspended page) = Nat.b2n (loading (cells page))).
  { clear Hrun. induction actions as [|a rest IH]; intros page0 Hinv Hrun;
      simpl in Hrun.
    - now injection Hrun as <-.
    - destruct (fire a page0) as [page1|] eqn:Hfire; [|discriminate].
      eapply IH; [|exact Hrun].
      eapply fire_keeps_loading_counts; eassumption. }
  exact (H opened eq_refl Hrun).
Qed.

(** A submission in flight is at one of its two steps. *)
Lemma prompt_steps_among_runs (page : Page) :
  (in_flight Creation page + in_flight Generation page =
   List.length (suspended page))%nat.
Proof.
  unfold in_flight.
  induction (suspended page) as [|p l IH]; [reflexivity|].
  destruct p; cbn; lia.
Qed.

End PromptPageInvariant.

Section StepsInFlight.

Import MobileAppFromImagePage ImagePageSteps.

(** C7, as the claim states it, fails on the image page.  With an image
    selected and a name typed, pressing analyze sets [isAnalyzing] only:
    while the compression that handler runs is in flight the file input
    and the generate button are enabled.  Pressing generate and
    selecting a file then puts three compressions in flight at once;
    and when the compressions of analyze and generate have settled, two
    analysis requests are in flight together. *)
Lemma steps_overlap_on_the_image_page :
  let ready := [SelectFile (Some Samples.png_file); Settle 0 Samples.world;
                TypeProjectName (Js.lit "tienda"); ClickAnalyze] in
  (exists page,
     fire_all ready opened = Some page /\
     in_flight Compression page = 1%nat /\
     isCompressing (cells page) = false /\
     fileInput_disabled (cells page) = false /\
     generate_disabled (cells page) = false) /\
  (exists page,
     fire_all (ready ++ [ClickGenerate; SelectFile (Some Samples.png_file)])
              opened = Some page /\
     in_flight Compression page = 3%nat /\
     List.length (suspended page) = 3%nat) /\
  (exists page,
     fire_all (ready ++ [ClickGenerate; Settle 0 Samples.world;
                         Settle 0 Samples.world; Settle 1 Samples.world])
              opened = Some page /\
     in_flight Analysis page = 2%nat /\
     analyze_disabled (cells page) = true /\
     fileInput_disabled (cells page) = false).
Proof.
  cbv zeta. split; [|split]; eexists;
    (split; [vm_compute; reflexivity | vm_compute; repeat split; reflexivity]).
Qed.

(** C7, amended.  On the image page each of the three handlers raises
    one flag of its own for its whole run, from the click to its last
    step, and the affordances are disabled by these flags alone (and by
    a missing image or name): the file input exactly while a file
    selection is in flight; analyze exactly while a run of analyze or a
    file selection is; generate exactly while a run of generate or a
    file selection is.  Analyze and generate disable neither each other
    nor the file selection, and the compression and the analysis they
    run themselves raise no flag but their handler's.  So there is
    never a second run of the same handler, but up to three handlers
    are in flight together, each at one step: up to three compressions,
    up to two analysis requests, at most one module import, one create
    request and one generate request.  On the prompt page submit is
    disabled exactly while a submission is in flight (or the prompt is
    blank), so at most one is, at one step. *)
Theorem steps_in_flight :
  (forall page,
     reachable page ->
     let s := cells page in
     (runs ImageChange page = Nat.b2n (isCompressing s) /\
      runs AnalyzeImage page = Nat.b2n (isAnalyzing s) /\
      runs GenerateProject page = Nat.b2n (isGenerating s)) /\
     (fileInput_disabled s = true <-> 0 < runs ImageChange page)%nat /\
     (analyze_disabled s = true <->
      imageFile (formData s) = None \/
      0 < runs AnalyzeImage page \/ 0 < runs ImageChange page)%nat /\
     (generate_disabled s = true <->
      imageFile (formData s) = None \/
      Js.trim (projectName (formData s)) = [] \/
      0 < runs GenerateProject page \/ 0 < runs ImageChange page)%nat /\
     (runs ImageChange page <= 1 /\ runs AnalyzeImage page <= 1 /\
      runs GenerateProject page <= 1 /\
      List.length (suspended page) <= 3 /\
      in_flight Compression page <= 3 /\
      in_flight ModuleImport page <= 1 /\
      in_flight Analysis page <= 2 /\
      in_flight Creation page <= 1 /\
      in_flight Generation page <= 1)%nat) /\
  (forall page,
     PromptPageSteps.reachable page ->
     let s := PromptPageSteps.cells page in
     List.length (PromptPageSteps.suspended page) =
       Nat.b2n (MobileAppFromPromptPage.loading s) /\
     (MobileAppFromPromptPage.submit_disabled s = true <->
      0 < List.length (PromptPageSteps.suspended page) \/
      Js.trim (api.req_prompt (MobileAppFromPromptPage.formData s)) = [])%nat /\
     (List.length (PromptPageSteps.suspended page) <= 1 /\
      PromptPageSteps.in_flight Creation page <= 1 /\
      PromptPageSteps.in_flight Generation page <= 1 /\
      PromptPageSteps.in_flight Creation page +
      PromptPageSteps.in_flight Generation page <= 1)%nat).
Proof.
  split.
  - intros page Hreach s. subst s.
    destruct (reachable_flags_count_runs page Hreach) as [Hc [Ha Hg]].
    pose proof (steps_among_runs page) as Hsteps.
    unfold fileInput_disabled, analyze_disabled, generate_disabled, has_image.
    rewrite Hc, Ha, Hg in *.
    destruct (isCompressing (cells page)), (isAnalyzing (cells page)),
             (isGenerating (cells page)),
             (imageFile (formData (cells page))),
             (Js.trim (projectName (formData (cells page))));
      cbn in *;
      repeat split; intros;
      repeat match goal with
             | H : _ \/ _ |- _ => destruct H
             end;
      try discriminate; try lia; auto.
  - intros page Hreach s. subst s.
    pose proof (reachable_loading_counts page Hreach) as H.
    pose proof (prompt_steps_among_runs page) as Hsteps.
    unfold MobileAppFromPromptPage.submit_disabled. rewrite H in *.
    destruct (MobileAppFromPromptPage.loading _),
             (Js.trim (api.req_prompt _));
      cbn in *;
      repeat split; intros;
      repeat match goal with
             | H : _ \/ _ |- _ => destruct H
             end;
      try discriminate; try lia; auto.
Qed.

(** With analyze and generate pressed one after the other on the sample
    page and their compressions settled, one run of each of the two is
    in flight and no file selection; the two buttons are disabled and
    the file input is not. *)
Lemma steps_in_flight_witness :
  exists page,
    reachable page /\
    runs ImageChange page = 0%nat /\
    runs AnalyzeImage page = 1%nat /\
    runs GenerateProject page = 1%nat /\
    analyze_disabled (cells page) = true /\
    generate_disabled (cells page) = true /\
    fileInput_disabled (cells page) <> true.
Proof.
  pose (actions := [SelectFile (Some Samples.png_file); Settle 0 Samples.world;
                    TypeProjectName (Js.lit "tienda"); ClickAnalyze;
                    ClickGenerate; Settle 0 Samples.world;
                    Settle 0 Samples.world; Settle 1 Samples.world]).
  destruct (fire_all actions opened) as [page|] eqn:E;
    [|vm_compute in E; discriminate].
  exists page.
  assert (Hreach : reachable page) by (exists actions; exact E).
  split; [exact Hreach|].
  destruct steps_in_flight as [H _].
  destruct (H page Hreach)
    as [[Hc [Ha Hg]] [Hinput [Hanalyze [Hgenerate _]]]].
  assert (Hflags : flags (cells page) = (false, true, true)).
  { vm_compute in E. injection E as <-. reflexivity. }
  injection Hflags as Ec Ea Eg.
  rewrite Ec in Hc. rewrite Ea in Ha. rewrite Eg in Hg. cbn in Hc, Ha, Hg.
  repeat split; try assumption.
  - apply Hanalyze. right. left. lia.
  - apply Hgenerate. right. right. left. lia.
  - intros Hdisabled. apply Hinput in Hdisabled. lia.
Defined.

End StepsInFlight.

(* ================================================================== *)
(** * Further properties of the image analysis service                 *)
(* ================================================================== *)

Section ServiceOutcomes.

Import imageAnalysisService.

(** X1.  [analyzeImageForProject] never throws and makes exactly one
    request.  A transport failure (no response, a status outside 2xx, a
    body that is not JSON) comes back as [{success: false, error}] with
    the transport's message; the JSON body of a 2xx response comes back
    as it is. *)
Theorem analyzeImageForProject_never_throws (env : Env) (image : Js.str)
    (t : api.ProjectType) (l : Log) :
  exists r,
    analyzeImageForProject env image t tt l =
      (Normal r, tt, l ++ [EvAnalyzeImage image t]) /\
    match fetch_analyze_image env image t with
    | FetchRejected e => r = analysis_failed (Js.message_or e unknown_error)
    | FetchResponse status _ _ json =>
        if response_ok status
        then match json with
             | inr body => r = body
             | inl e => r = analysis_failed (Js.message_or e unknown_error)
             end
        else r = analysis_failed (Js.lit "Error del servidor: " ++
                                  Js.Number_toString status)
    end.
Proof.
  unfold analyzeImageForProject, try_catch, bind, emit, throw, ret.
  destruct (fetch_analyze_image env image t) as [e|status ct b json].
  - eexists; split; reflexivity.
  - destruct (response_ok status); cbn [negb].
    + destruct json as [e|[s d e]]; eexists; split; reflexivity.
    + eexists; split; reflexivity.
Qed.

Lemma generateProjectFromDescription_cases (env : Env)
    (request : ProjectGenerationRequest) (l : Log) :
  let d := pg_description request in
  let t := pg_projectType request in
  let name := pg_nombre request in
  exists r l',
    generateProjectFromDescription env request tt l =
      (Normal r, tt, l ++ EvFromPrompt d name t :: l') /\
    ((exists app blob,
        created (fetch_from_prompt env d t name) app /\
        generated (fetch_generate env (api.res_id app)) blob /\
        r = {| pg_success := true;
               pg_downloadUrl := Some (createObjectURL env blob);
               pg_error := None |} /\
        l' = [EvGenerate (api.res_id app); EvCreateObjectURL blob]) \/
     (pg_success r = false /\ pg_downloadUrl r = None /\ pg_error r <> None /\
      (l' = [] \/ exists id, l' = [EvGenerate id]))).
Proof.
  intros d t name. subst d t name.
  unfold generateProjectFromDescription, try_catch, bind, emit, throw, ret.
  destruct (fetch_from_prompt env _ _ _) as [e|status ct b json] eqn:Hc.
  - do 2 eexists. split; [reflexivity|]. right.
    repeat split; try discriminate. now left.
  - destruct (response_ok status) eqn:Hok; cbn [negb].
    + destruct json as [e|app].
      * do 2 eexists. split; [reflexivity|]. right.
        repeat split; try discriminate. now left.
      * rewrite <- app_assoc. cbn [List.app].
        destruct (fetch_generate env (api.res_id app))
          as [e|status' ct' b' json'] eqn:Hg.
        -- do 2 eexists. split; [reflexivity|]. right.
           repeat split; try discriminate. right. eexists; reflexivity.
        -- destruct (response_ok status') eqn:Hok'; cbn [negb].
           ++ destruct (is_zip ct') eqn:Hz.
              ** rewrite <- app_assoc. cbn [List.app].
                 do 2 eexists. split; [reflexivity|]. left.
                 exists app, b'. cbn. rewrite Hg. cbn. auto 10.
              ** destruct json'; do 2 eexists; (split; [reflexivity|]);
                   right; repeat split; try discriminate;
                   right; eexists; reflexivity.
           ++ do 2 eexists. split; [reflexivity|]. right.
              repeat split; try discriminate. right. eexists; reflexivity.
    + do 2 eexists. split; [reflexivity|]. right.
      repeat split; try discriminate. now left.
Qed.

(** X2.  [generateProjectFromDescription] never throws and always sends
    the create request first.  Either the create request yielded a
    record and the generate request for that record yielded a zip
    archive, and then the result is a success carrying the object URL of
    the archive, after exactly the two requests and the creation of the
    URL; or the result is a failure with an error and no URL, and no
    object URL was created. *)
Theorem generateProjectFromDescription_outcome (env : Env)
    (request : ProjectGenerationRequest) (l : Log) :
  let d := pg_description request in
  let t := pg_projectType request in
  let name := pg_nombre request in
  exists r l',
    generateProjectFromDescription env request tt l =
      (Normal r, tt, l ++ EvFromPrompt d name t :: l') /\
    ((exists app blob,
        created (fetch_from_prompt env d t name) app /\
        generated (fetch_generate env (api.res_id app)) blob /\
        r = {| pg_success := true;
               pg_downloadUrl := Some (createObjectURL env blob);
               pg_error := None |} /\
        l' = [EvGenerate (api.res_id app); EvCreateObjectURL blob]) \/
     (pg_success r = false /\ pg_downloadUrl r = None /\ pg_error r <> None /\
      (l' = [] \/ exists id, l' = [EvGenerate id]))).
Proof. exact (generateProjectFromDescription_cases env request l). Qed.

(** X3.  [analyzeImageAndGenerateProject] never throws: its promise
    always resolves, after the analysis request.  It reports a success
    only after the three requests analyze, create, generate in this
    order and the creation of the object URL it returns; when it
    reports a failure no object URL was created. *)
Theorem analyzeImageAndGenerateProject_never_throws (env : Env)
    (image : Js.str) (t : api.ProjectType) (name : option Js.str) (l : Log) :
  exists r l',
    analyzeImageAndGenerateProject env image t name tt l =
      (Normal r, tt, l ++ EvAnalyzeImage image t :: l') /\
    (pg_success r = true ->
     exists d app blob,
       l' = [EvFromPrompt d name t; EvGenerate (api.res_id app);
             EvCreateObjectURL blob] /\
       pg_downloadUrl r = Some (createObjectURL env blob)) /\
    (pg_success r = false ->
     pg_downloadUrl r = None /\ forall b, ~ In (EvCreateObjectURL b) l').
Proof.
  destruct (analyzeImageForProject_run env image t tt l) as [ra [_ Hrun]].
  unfold analyzeImageAndGenerateProject.
  unfold try_catch at 1, bind at 1. rewrite Hrun.
  destruct (negb (ia_success ra) || negb (Js.truthy_opt (ia_description ra))).
  - do 2 eexists. split; [reflexivity|]. split; [discriminate|].
    intros _. split; [reflexivity|]. intros b [].
  - destruct (generateProjectFromDescription_cases env
                {| pg_description := match ia_description ra with
                                     | Some d => d
                                     | None => []
                                     end;
                   pg_projectType := t; pg_nombre := name |}
                (l ++ [EvAnalyzeImage image t]))
      as [r [l' [Hgen Hcases]]].
    cbn [pg_description pg_projectType pg_nombre] in Hgen, Hcases.
    rewrite Hgen. rewrite <- app_assoc. cbn [List.app].
    exists r, (EvFromPrompt match ia_description ra with
                            | Some d => d
                            | None => []
                            end name t :: l').
    split; [reflexivity|].
    destruct Hcases as [[app [blob [_ [_ [-> ->]]]]]
                       |[Hs [Hu [_ Hl]]]].
    + split; [|discriminate]. intros _. do 3 eexists. split; reflexivity.
    + split; [rewrite Hs; discriminate|]. intros _. split; [exact Hu|].
      intros b Hin. destruct Hin as [Hin|Hin]; [discriminate|].
      destruct Hl as [-> | [id ->]]; [exact Hin|].
      destruct Hin as [Hin|[]]. discriminate.
Qed.

End ServiceOutcomes.

(* ================================================================== *)
(** * Further properties of the codec adapter                          *)
(* ================================================================== *)

Section CodecMore.

Import imageAnalysisService.

(** X4.  [compressImage] never enlarges an image, its output is never
    wider than the maximum, and compressing its output again with the
    same maximum leaves the dimensions as they are. *)
Theorem compressImage_canvas_idempotent (img : Image) (maxWidth : Z) :
  0 <= maxWidth ->
  0 <= img_width img <= 2147483647 ->
  0 <= img_height img <= 2147483647 ->
  img_height img * maxWidth < 2 ^ 53 ->
  let c := compressImage_canvas img maxWidth in
  canvas_width c = Z.min (img_width img) maxWidth /\
  0 <= canvas_height c <= img_height img /\
  compressImage_canvas
    {| img_width := canvas_width c; img_height := canvas_height c |} maxWidth = c.
Proof.
  intros Hmax Hw Hh _ c. subst c.
  rewrite (compressImage_canvas_value img maxWidth Hmax Hw Hh).
  destruct (Z.ltb_spec maxWidth (img_width img)) as [Hlt|Hge];
    cbn [canvas_width canvas_height].
  - assert (Hb : 0 <= img_height img * maxWidth / img_width img
                 <= img_height img).
    { split; [apply Z.div_pos; nia|].
      apply Z.div_le_upper_bound; nia. }
    split; [lia|]. split; [exact Hb|].
    rewrite compressImage_canvas_value; cbn [img_width img_height]; try lia.
    destruct (Z.ltb_spec maxWidth maxWidth); [lia | reflexivity].
  - split; [lia|]. split; [lia|].
    rewrite compressImage_canvas_value; cbn [img_width img_height]; try lia.
    destruct (Z.ltb_spec maxWidth (img_width img)); [lia | reflexivity].
Qed.

(** The 5000 x 3000 sample: 1024 x 614, and again 1024 x 614. *)
Lemma compressImage_canvas_idempotent_witness :
  compressImage_canvas
    {| img_width := canvas_width (compressImage_canvas Samples.png_image 1024);
       img_height := canvas_height (compressImage_canvas Samples.png_image 1024) |}
    1024 = compressImage_canvas Samples.png_image 1024.
Proof.
  assert (Hmax : 0 <= 1024) by lia.
  assert (Hw : 0 <= img_width Samples.png_image <= 2147483647)
    by (simpl; lia).
  assert (Hh : 0 <= img_height Samples.png_image <= 2147483647)
    by (simpl; lia).
  assert (Hp : img_height Samples.png_image * 1024 < 2 ^ 53) by reflexivity.
  destruct (compressImage_canvas_idempotent Samples.png_image 1024
              Hmax Hw Hh Hp) as [_ [_ H]].
  exact H.
Defined.

Lemma valid_type_is_image (file : File) :
  valid (validateImageFile file) = true ->
  Js.startsWith (Js.lit "image/") (file_type file) = true.
Proof.
  unfold validateImageFile.
  destruct (Js.array_includes (file_type file) validTypes) eqn:Hinc;
    cbn [negb]; [|discriminate].
  intros _. apply array_includes_In in Hinc.
  unfold validTypes in Hinc. simpl in Hinc.
  repeat (destruct Hinc as [<-|Hinc]; [reflexivity|]). contradiction.
Qed.

Lemma validated_file_is_compressed_run (env : Env) (file : File) (l : Log) :
  valid (validateImageFile file) = true ->
  fileToBase64 env file true tt l =
    match decode env file with
    | Some img =>
        (Normal (toDataURL env file (compressImage_canvas img 1024)
                   (Js.lit "image/jpeg") (8 # 10)), tt, l)
    | None =>
        (Abrupt (Js.new_Error
                   (Js.lit "Error cargando imagen para compresi" ++
                    [Js.o_acute] ++ Js.lit "n")), tt, l)
    end.
Proof.
  intros Hvalid. unfold fileToBase64.
  rewrite (valid_type_is_image file Hvalid). cbn [andb].
  unfold compressImage. destruct (decode env file); reflexivity.
Qed.

(** X5.  A file the validator accepts always takes the compression
    branch of [fileToBase64] (every accepted type starts with image/).
    When it decodes, the result is what [toDataURL] gives, asked for
    image/jpeg at quality 0.8, for a canvas as wide as the image or
    1024, whichever is less, and no taller than the image: an empty
    canvas when the proportional height is below 1.  When it does not
    decode, the call throws the compression error.  Either way the file
    is never read as it is: what [FileReader] would answer plays no
    part. *)
Theorem validated_file_is_compressed (env : Env) (file : File) (l : Log) :
  valid (validateImageFile file) = true ->
  match decode env file with
  | Some img =>
      let c := compressImage_canvas img 1024 in
      fileToBase64 env file true tt l =
        (Normal (toDataURL env file c (Js.lit "image/jpeg") (8 # 10)), tt, l) /\
      (0 <= img_width img <= 2147483647 ->
       0 <= img_height img <= 2147483647 ->
       canvas_width c = Z.min (img_width img) 1024 /\
       0 <= canvas_height c <= img_height img /\
       (canvas_height c = 0 <->
        1024 < img_width img /\ img_height img * 1024 < img_width img \/
        img_width img <= 1024 /\ img_height img = 0))
  | None =>
      fileToBase64 env file true tt l =
        (Abrupt (Js.new_Error
                   (Js.lit "Error cargando imagen para compresi" ++
                    [Js.o_acute] ++ Js.lit "n")), tt, l)
  end /\
  (forall env',
     decode env' file = decode env file ->
     (forall c type quality,
        toDataURL env' file c type quality = toDataURL env file c type quality) ->
     fileToBase64 env' file true tt l = fileToBase64 env file true tt l).
Proof.
  intros Hvalid. split.
  - rewrite (validated_file_is_compressed_run env file l Hvalid).
    destruct (decode env file) as [img|]; [|reflexivity].
    cbv zeta. split; [reflexivity|]. intros Hw Hh.
    rewrite (compressImage_canvas_value img 1024) by lia.
    destruct (Z.ltb_spec 1024 (img_width img)) as [Hlt|Hge];
      cbn [canvas_width canvas_height].
    + assert (Hb : 0 <= img_height img * 1024 / img_width img
                   <= img_height img).
      { split; [apply Z.div_pos; nia|].
        apply Z.div_le_upper_bound; nia. }
      split; [lia|]. split; [exact Hb|]. split.
      * intros Hzero. left. split; [exact Hlt|].
        pose proof (Z.mul_succ_div_gt (img_height img * 1024)
                      (img_width img)). nia.
      * intros [[_ Hsmall]|[Hle _]]; [|lia].
        apply Z.div_small. nia.
    + split; [lia|]. split; [lia|]. split.
      * intros Hzero. right. split; assumption.
      * intros [[Hlt _]|[_ Hzero]]; [lia | exact Hzero].
  - intros env' Hdecode Hencode.
    rewrite (validated_file_is_compressed_run env file l Hvalid),
            (validated_file_is_compressed_run env' file l Hvalid), Hdecode.
    destruct (decode env file) as [img|]; [|reflexivity].
    now rewrite Hencode.
Qed.

(** The sample PNG in the sample world: encoded from a canvas 1024
    wide; and the strip of 1025 x 1 pixels, which the validator accepts,
    comes out of a browser as the empty data URL. *)
Lemma validated_file_is_compressed_witness :
  (fileToBase64 Samples.world Samples.png_file true tt [] =
     (Normal Samples.jpeg_data_url, tt, []) /\
   canvas_width (compressImage_canvas Samples.png_image 1024) = 1024) /\
  (fileToBase64 MoreSamples.browser MoreSamples.strip_file true tt [] =
     (Normal (Js.lit "data:,"), tt, []) /\
   canvas_height (compressImage_canvas MoreSamples.strip_image 1024) = 0).
Proof.
  split.
  - destruct (validated_file_is_compressed Samples.world Samples.png_file []
                eq_refl) as [H _].
    change (decode Samples.world Samples.png_file)
      with (Some Samples.png_image) in H.
    cbv beta iota zeta in H. destruct H as [Hrun Hdim].
    split; [exact Hrun|].
    destruct Hdim as [Hwidth _]; [simpl; lia | simpl; lia |].
    exact Hwidth.
  - destruct (validated_file_is_compressed MoreSamples.browser
                MoreSamples.strip_file [] eq_refl) as [H _].
    change (decode MoreSamples.browser MoreSamples.strip_file)
      with (Some MoreSamples.strip_image) in H.
    cbv beta iota zeta in H. destruct H as [Hrun Hdim].
    split; [exact Hrun|].
    destruct Hdim as [_ [_ Hzero]]; [simpl; lia | simpl; lia |].
    apply Hzero. left. simpl. lia.
Defined.

(** X6.  [getImageInfo] answers the format "unknown" for a string with
    no '/' before its first ';' (such as the "data:," an empty canvas
    encodes to), with or without a ';', and for a string whose subtype
    is empty. *)
Theorem getImageInfo_unknown_format (p rest : Js.str) :
  ~ In slash p -> ~ In semicolon p ->
  format (getImageInfo p) = Js.lit "unknown" /\
  format (getImageInfo (p ++ semicolon :: rest)) = Js.lit "unknown" /\
  format (getImageInfo (p ++ slash :: semicolon :: rest)) = Js.lit "unknown".
Proof.
  intros Hslash Hsemi. unfold getImageInfo; cbn [format].
  repeat split.
  - rewrite (split_without_sep semicolon p Hsemi). cbn [hd].
    rewrite (split_without_sep slash p Hslash). reflexivity.
  - rewrite (split_at_first_sep semicolon p rest Hsemi). cbn [hd].
    rewrite (split_without_sep slash p Hslash). reflexivity.
  - replace (p ++ slash :: semicolon :: rest)
      with ((p ++ [slash]) ++ semicolon :: rest)
      by (now rewrite <- app_assoc).
    rewrite split_at_first_sep.
    + cbn [hd]. change (p ++ [slash]) with (p ++ slash :: []).
      rewrite (split_at_first_sep slash p [] Hslash). reflexivity.
    + rewrite in_app_iff. simpl. unfold slash, semicolon in *.
      intuition discriminate.
Qed.

(** The encoding of an empty canvas. *)
Lemma getImageInfo_unknown_format_witness :
  format (getImageInfo (Js.lit "data:,")) = Js.lit "unknown".
Proof.
  assert (H1 : ~ In slash (Js.lit "data:,"))
    by (simpl; unfold slash; intuition discriminate).
  assert (H2 : ~ In semicolon (Js.lit "data:,"))
    by (simpl; unfold semicolon; intuition discriminate).
  destruct (getImageInfo_unknown_format (Js.lit "data:,") [] H1 H2) as [H _].
  exact H.
Defined.

End CodecMore.

(* ================================================================== *)
(** * Further properties of the image page                             *)
(* ================================================================== *)

Section ImagePageOutcomes.

Import imageAnalysisService MobileAppFromImagePage.

(** X7.  Selecting a file never calls the server.  A file the validator
    rejects only sets the validator's own message (the fallback text is
    never shown) and leaves the selection as it was.  An accepted file
    becomes the selected file at once; if it cannot be decoded the page
    shows the decoding error while the preview, the image info and the
    success message stay those of the image selected before; if it can,
    the preview is the compressed data URL, the image info is the one
    [getImageInfo] reads from it, and the error is empty.  In every case
    the compressing flag ends false. *)
Theorem handleImageChange_outcomes (env : Env) (file : File) (s : State) :
  let s' := fst (handleImageChange env (Some file) s) in
  let selected := {| projectName := projectName (formData s);
                     projectType := projectType (formData s);
                     imageFile := Some file |} in
  snd (handleImageChange env (Some file) s) = [] /\
  if valid (validateImageFile file)
  then
    match decode env file with
    | None =>
        s' = {| formData := selected;
                isAnalyzing := isAnalyzing s;
                isGenerating := isGenerating s;
                analysisResult := analysisResult s;
                error := Js.lit "Error procesando imagen: " ++
                         Js.lit "Error cargando imagen para compresi" ++
                         [Js.o_acute] ++ Js.lit "n";
                success := success s;
                imagePreview := imagePreview s;
                imageInfo := imageInfo s;
                isCompressing := false |}
    | Some img =>
        let url := toDataURL env file (compressImage_canvas img 1024)
                     (Js.lit "image/jpeg") (8 # 10) in
        s' = {| formData := selected;
                isAnalyzing := isAnalyzing s;
                isGenerating := isGenerating s;
                analysisResult := analysisResult s;
                error := [];
                success := image_loaded_message env (getImageInfo url);
                imagePreview := url;
                imageInfo := Some (getImageInfo url);
                isCompressing := false |}
    end
  else
    exists msg,
      validation_error (validateImageFile file) = Some msg /\ msg <> [] /\
      s' = setError msg s.
Proof.
  intros s' selected. subst s' selected.
  unfold handleImageChange, run, handleImageChange_begin.
  destruct (valid (validateImageFile file)) eqn:Hvalid; cbn [negb].
  - unfold handleImageChange_resume, try_finally, try_catch, bind, lift, modify.
    rewrite (validated_file_is_compressed_run env file [] Hvalid).
    destruct (decode env file) as [img|]; cbn; split; reflexivity.
  - split; [reflexivity|].
    unfold validateImageFile in *.
    destruct (negb (Js.array_includes (file_type file) validTypes)).
    + eexists. split; [reflexivity|]. split; [discriminate | reflexivity].
    + destruct (maxSize <? file_size file); [|discriminate].
      eexists. split; [reflexivity|]. split; [discriminate | reflexivity].
Qed.

Lemma generate_success_run (env : Env) (request : ProjectGenerationRequest)
    (app : api.CreateFromPromptResponse) (blob : Blob) (l : Log) :
  created (fetch_from_prompt env (pg_description request)
             (pg_projectType request) (pg_nombre request)) app ->
  generated (fetch_generate env (api.res_id app)) blob ->
  generateProjectFromDescription env request tt l =
    (Normal {| pg_success := true;
               pg_downloadUrl := Some (createObjectURL env blob);
               pg_error := None |},
     tt,
     l ++ [EvFromPrompt (pg_description request) (pg_nombre request)
             (pg_projectType request);
           EvGenerate (api.res_id app); EvCreateObjectURL blob]).
Proof.
  intros Hok Hgen.
  unfold generateProjectFromDescription, try_catch, bind, emit, throw, ret.
  destruct (fetch_from_prompt env _ _ _) as [e|status ct b json];
    cbn in Hok; [contradiction|].
  destruct Hok as [-> ->]. cbn [negb].
  destruct (fetch_generate env (api.res_id app)) as [e|status' ct' b' json'];
    cbn in Hgen; [contradiction|].
  destruct Hgen as [-> [-> ->]]. cbn [negb].
  rewrite <- !app_assoc. reflexivity.
Qed.

(** X8.  When every step of the generate action succeeds, the page
    makes the three requests in order, creates the object URL, triggers
    one download named after the form, revokes the URL and clears the
    file input; the form is back to its defaults (no name, flutter, no
    image), the preview, the image info and the analysis are empty, and
    the success message names the project kind that was generated.  The
    analyze and generate buttons are then disabled. *)
Theorem handleGenerateProject_success (env : Env) (s : State) (file : File)
    (image : Js.str) (r : ImageAnalysisResponse) (d : Js.str)
    (app : api.CreateFromPromptResponse) (blob : Blob) :
  let t := projectType (formData s) in
  let name := projectName (formData s) in
  let url := createObjectURL env blob in
  generate_disabled s = false ->
  imageFile (formData s) = Some file ->
  fst (fst (fileToBase64 env file true tt [])) = Normal image ->
  fst (fst (analyzeImageForProject env image t tt [])) = Normal r ->
  ia_success r = true -> ia_description r = Some d -> d <> [] ->
  created (fetch_from_prompt env d t (Some name)) app ->
  generated (fetch_generate env (api.res_id app)) blob ->
  url <> [] ->
  let s' := fst (handleGenerateProject env s) in
  s' = {| formData := {| projectName := []; projectType := api.FLUTTER;
                         imageFile := None |};
          isAnalyzing := isAnalyzing s;
          isGenerating := false;
          analysisResult := [];
          error := [];
          success := generated_message t;
          imagePreview := [];
          imageInfo := None;
          isCompressing := false |} /\
  snd (handleGenerateProject env s) =
    [EvAnalyzeImage image t; EvFromPrompt d (Some name) t;
     EvGenerate (api.res_id app); EvCreateObjectURL blob;
     EvDownload url (name ++ Js.lit "-" ++ api.ProjectType_value t ++
                     Js.lit ".zip");
     EvRevokeObjectURL url; EvClearFileInput] /\
  analyze_disabled s' = true /\ generate_disabled s' = true.
Proof.
  intros t name url Hav Hfile Himage Hr Hs Hd Hne Hcreated Hgenerated Hurl s'.
  assert (Hrun : handleGenerateProject env s =
    ({| formData := {| projectName := []; projectType := api.FLUTTER;
                       imageFile := None |};
        isAnalyzing := isAnalyzing s;
        isGenerating := false;
        analysisResult := [];
        error := [];
        success := generated_message t;
        imagePreview := [];
        imageInfo := None;
        isCompressing := false |},
     [EvAnalyzeImage image t; EvFromPrompt d (Some name) t;
      EvGenerate (api.res_id app); EvCreateObjectURL blob;
      EvDownload url (name ++ Js.lit "-" ++ api.ProjectType_value t ++
                      Js.lit ".zip");
      EvRevokeObjectURL url; EvClearFileInput])).
  { pose proof (analysis_success_run env image t (Some name) r d []
                  Hr Hs Hd Hne) as Hflow.
    unfold try_catch at 1 in Hflow. cbn [List.app] in Hflow.
    pose proof (generate_success_run env
                  {| pg_description := d; pg_projectType := t;
                     pg_nombre := Some name |}
                  app blob [EvAnalyzeImage image t] Hcreated Hgenerated)
      as Hgen.
    cbn [pg_description pg_projectType pg_nombre List.app] in Hgen.
    rewrite Hgen in Hflow.
    assert (Htruthy : Js.truthy url = true).
    { subst url. destruct (createObjectURL env blob);
        [congruence | reflexivity]. }
    assert (Hc : isCompressing s = false).
    { unfold generate_disabled in Hav.
      apply orb_false_iff in Hav. tauto. }
    unfold handleGenerateProject, run.
    rewrite (handleGenerateProject_begin_proceeds s file Hav Hfile).
    unfold handleGenerateProject_resume, try_finally, try_catch, bind, lift,
      modify, emit.
    rewrite fileToBase64_logs_nothing, Himage.
    fold t name. rewrite Hflow.
    cbn [pg_success pg_downloadUrl andb Js.truthy_opt].
    fold url. rewrite Htruthy.
    unfold download_name. fold t name. cbn [List.app].
    match goal with
    | |- (?a, ?b) = (?c, ?d) =>
        assert (Hstate : a = c); [|rewrite Hstate; reflexivity]
    end.
    destruct s as [fd ia ig ar er su ip ii ic].
    cbn [isCompressing] in Hc. subst ic. reflexivity. }
  subst s'. rewrite Hrun. cbn [fst snd].
  repeat split.
Qed.

End ImagePageOutcomes.

Section ImagePageOutcomesMore.

Import imageAnalysisService MobileAppFromImagePage.

(** The sample page in the sample world: seven events, the download
    called "tienda-angular.zip". *)
Lemma handleGenerateProject_success_witness :
  snd (handleGenerateProject Samples.world Samples.image_page_ready) =
    [EvAnalyzeImage Samples.jpeg_data_url api.ANGULAR;
     EvFromPrompt (Js.lit "una pantalla de login") (Some (Js.lit "tienda"))
       api.ANGULAR;
     EvGenerate (Js.lit "app-1"); EvCreateObjectURL Samples.zip_blob;
     EvDownload (Js.lit "blob:1") (Js.lit "tienda-angular.zip");
     EvRevokeObjectURL (Js.lit "blob:1"); EvClearFileInput].
Proof.
  assert (Hne : Js.lit "una pantalla de login" <> []) by discriminate.
  assert (Hcreated : created
            (fetch_from_prompt Samples.world (Js.lit "una pantalla de login")
               api.ANGULAR (Some (Js.lit "tienda"))) Samples.gym_app)
    by (split; reflexivity).
  assert (Hgenerated : generated
            (fetch_generate Samples.world (api.res_id Samples.gym_app))
            Samples.zip_blob)
    by (repeat split; reflexivity).
  assert (Hurl : createObjectURL Samples.world Samples.zip_blob <> [])
    by discriminate.
  destruct (handleGenerateProject_success Samples.world
              Samples.image_page_ready Samples.png_file Samples.jpeg_data_url
              {| ia_success := true;
                 ia_description := Some (Js.lit "una pantalla de login");
                 ia_error := None |}
              (Js.lit "una pantalla de login") Samples.gym_app Samples.zip_blob
              eq_refl eq_refl eq_refl eq_refl eq_refl eq_refl
              Hne Hcreated Hgenerated Hurl) as [_ [Hlog _]].
  exact Hlog.
Defined.

(** X9.  The analyze action never creates an app, never generates a
    project and never downloads.  Whatever the world answers, its whole
    log is: nothing when no image is selected; nothing when the
    selected image cannot be compressed; and otherwise the one request
    for the analysis of the compressed image, for the project kind of
    the form. *)
Theorem handleAnalyzeImage_calls_only_analysis (env : Env) (s : State) :
  snd (handleAnalyzeImage env s) =
    match imageFile (formData s) with
    | None => []
    | Some file =>
        match fst (fst (fileToBase64 env file true tt [])) with
        | Abrupt _ => []
        | Normal image => [EvAnalyzeImage image (projectType (formData s))]
        end
    end.
Proof.
  unfold handleAnalyzeImage, run, handleAnalyzeImage_begin.
  destruct (imageFile (formData s)) as [file|]; [|reflexivity].
  unfold handleAnalyzeImage_resume, try_finally, try_catch, bind, lift, modify.
  rewrite fileToBase64_logs_nothing.
  destruct (fst (fst (fileToBase64 env file true tt []))) as [image|e];
    [|reflexivity].
  destruct (analyzeImageForProject_run env image (projectType (formData s))
              tt []) as [r [_ Hrun]].
  rewrite Hrun.
  destruct (ia_success r && Js.truthy_opt (ia_description r)); reflexivity.
Qed.

(** X10.  When the analyze action is available and the analysis
    succeeds with a description, the page holds that description, shows
    the success message and an empty error, and everything else is as
    before; the only request is the analysis. *)
Theorem handleAnalyzeImage_success (env : Env) (s : State) (file : File)
    (image : Js.str) (r : ImageAnalysisResponse) (d : Js.str) :
  analyze_disabled s = false ->
  imageFile (formData s) = Some file ->
  fst (fst (fileToBase64 env file true tt [])) = Normal image ->
  fst (fst (analyzeImageForProject env image (projectType (formData s))
              tt [])) = Normal r ->
  ia_success r = true -> ia_description r = Some d -> d <> [] ->
  handleAnalyzeImage env s =
    (setSuccess analyzed_message (setAnalysisResult d (setError [] s)),
     [EvAnalyzeImage image (projectType (formData s))]).
Proof.
  intros Hav Hfile Himage Hr Hs Hd Hne.
  assert (Hflag : isAnalyzing s = false).
  { unfold analyze_disabled in Hav.
    apply orb_false_iff in Hav. destruct Hav as [Hav _].
    apply orb_false_iff in Hav. tauto. }
  unfold handleAnalyzeImage, run, handleAnalyzeImage_begin.
  rewrite Hfile.
  unfold handleAnalyzeImage_resume, try_finally, try_catch, bind, lift, modify.
  rewrite fileToBase64_logs_nothing, Himage.
  destruct (analyzeImageForProject_run env image (projectType (formData s))
              tt []) as [r' [Hr' Hrun]].
  rewrite Hr in Hr'. injection Hr' as <-.
  rewrite Hrun, Hs, Hd.
  destruct d as [|c d]; [congruence|]. cbn [Js.truthy_opt Js.truthy andb].
  match goal with
  | |- (?a, ?b) = (?c, ?d) =>
      assert (Hstate : a = c); [|rewrite Hstate; reflexivity]
  end.
  destruct s as [fd ia ig ar er su ip ii ic].
  cbn [isAnalyzing] in Hflag. subst ia. reflexivity.
Qed.

(** The sample page in the sample world. *)
Lemma handleAnalyzeImage_success_witness :
  handleAnalyzeImage Samples.world Samples.image_page_ready =
    (setSuccess analyzed_message
       (setAnalysisResult (Js.lit "una pantalla de login")
          (setError [] Samples.image_page_ready)),
     [EvAnalyzeImage Samples.jpeg_data_url api.ANGULAR]).
Proof.
  assert (Hne : Js.lit "una pantalla de login" <> []) by discriminate.
  exact (handleAnalyzeImage_success Samples.world Samples.image_page_ready
           Samples.png_file Samples.jpeg_data_url
           {| ia_success := true;
              ia_description := Some (Js.lit "una pantalla de login");
              ia_error := None |}
           (Js.lit "una pantalla de login")
           eq_refl eq_refl eq_refl eq_refl eq_refl eq_refl Hne).
Defined.

(** X11.  Clearing the image removes the selected file, the preview,
    the image info, the analysis and both messages, and keeps the
    project name, the project kind and the three busy flags (a handler
    in flight stays marked as such).  Afterwards the analyze and
    generate buttons are disabled, clearing again changes nothing, and
    an analyze or generate handler run all the same only sets the
    "select an image" message, without any request. *)
Theorem clearImage_effects (env : Env) (s : State) :
  let s' := fst (clearImage s) in
  s' = {| formData := {| projectName := projectName (formData s);
                         projectType := projectType (formData s);
                         imageFile := None |};
          isAnalyzing := isAnalyzing s;
          isGenerating := isGenerating s;
          analysisResult := [];
          error := [];
          success := [];
          imagePreview := [];
          imageInfo := None;
          isCompressing := isCompressing s |} /\
  analyze_disabled s' = true /\
  generate_disabled s' = true /\
  fst (clearImage s') = s' /\
  handleAnalyzeImage env s' = (setError select_image_error s', []) /\
  handleGenerateProject env s' = (setError select_image_error s', []).
Proof.
  intros s'. subst s'. repeat split.
Qed.

End ImagePageOutcomesMore.

(* ================================================================== *)
(** * Further properties of the prompt page                            *)
(* ================================================================== *)

Section PromptPageOutcomes.

Import apiService MobileAppFromPromptPage.

Variable env : Env.
Variable s : State.

Let p := api.req_prompt (formData s).
Let nm := api.req_nombre (formData s).
Let t := match api.req_project_type (formData s) with
         | Some t => t
         | None => api.FLUTTER
         end.

(** The page after a failed submission: the message, nothing else
    changed. *)
Let failed (msg : Js.str) : State :=
  {| loading := false; error := Some msg; success := success s;
     formData := formData s |}.

(** The message the page shows for a response status. *)
Let message_for (status : Z) : Js.str :=
  if status =? 400 then bad_request_error
  else if status =? 500 then server_error
  else other_error.

(** The submission passes the validation of [handleSubmit]. *)
Hypothesis Hnot_blank : Js.trim p <> [].
Hypothesis Hlong : 10 <= Js.length p.

Lemma handleSubmit_accepted :
  handleSubmit env s =
    match handleSubmit_resume env (formData s)
            (setError None (setLoading true s)) [] with
    | (_, s2, log) => (s2, log)
    end.
Proof.
  unfold handleSubmit, handleSubmit_begin. fold p.
  destruct (Js.truthy (Js.trim p)) eqn:Ht;
    [|apply truthy_false_iff in Ht; contradiction].
  cbn [negb].
  destruct (Z.ltb_spec (Js.length p) 10); [lia | reflexivity].
Qed.

(** X12.  An accepted submission with nobody signed in, or to which the
    server does not respond, ends with the generic message and without
    a download: with no user not even the create request is sent; with
    no response to it the generate request is not sent. *)
Theorem handleSubmit_without_user_or_response :
  (mobileAppsApi.no_user env = true ->
   handleSubmit env s = (failed other_error, [])) /\
  (mobileAppsApi.no_user env = false ->
   forall e, axios_from_prompt env p nm t = AxiosNoResponse e ->
   handleSubmit env s = (failed other_error, [EvFromPrompt p nm t])).
Proof.
  split.
  - intros Hu. rewrite handleSubmit_accepted.
    unfold handleSubmit_resume, mobileAppsApi.createFromPrompt,
      try_finally, try_catch, bind, lift, throw, modify.
    rewrite Hu. reflexivity.
  - intros Hu e He. rewrite handleSubmit_accepted.
    unfold handleSubmit_resume, mobileAppsApi.createFromPrompt, api_post,
      try_finally, try_catch, bind, lift, throw, modify, emit.
    rewrite Hu. fold p nm t. rewrite He. reflexivity.
Qed.

(** X13.  An accepted submission whose create request is answered with
    a status outside 2xx never sends the generate request; one whose
    generate request is answered with such a status never downloads.
    In both cases the message depends on that status alone (400: check
    the description; 500: server error; anything else: the generic
    message), a 401 met away from the login page also signs the user
    out, and the page is otherwise as before with loading false. *)
Theorem handleSubmit_failure_by_status :
  mobileAppsApi.no_user env = false ->
  (forall status ct app,
     axios_from_prompt env p nm t = AxiosResponse status ct app ->
     response_ok status = false ->
     handleSubmit env s =
       (failed (message_for status),
        EvFromPrompt p nm t :: sign_out_on env status)) /\
  (forall status ct app status' ct' blob,
     axios_from_prompt env p nm t = AxiosResponse status ct app ->
     response_ok status = true ->
     axios_generate env (api.res_id app) = AxiosResponse status' ct' blob ->
     response_ok status' = false ->
     handleSubmit env s =
       (failed (message_for status'),
        EvFromPrompt p nm t :: EvGenerate (api.res_id app) ::
        sign_out_on env status')).
Proof.
  intros Hu. split.
  - intros status ct app Hc Hbad. rewrite handleSubmit_accepted.
    unfold handleSubmit_resume, mobileAppsApi.createFromPrompt, api_post,
      handleUnauthorized, try_finally, try_catch, bind, lift, throw, modify,
      emit, ret.
    rewrite Hu. fold p nm t. rewrite Hc, Hbad.
    unfold sign_out_on, message_for, failed, classify.
    destruct (status =? 401); [destruct (onLoginPage env)|]; reflexivity.
  - intros status ct app status' ct' blob Hc Hok Hg Hbad.
    rewrite handleSubmit_accepted.
    unfold handleSubmit_resume, mobileAppsApi.createFromPrompt,
      mobileAppsApi.generateProject, api_post,
      handleUnauthorized, try_finally, try_catch, bind, lift, throw, modify,
      emit, ret.
    rewrite Hu. fold p nm t. rewrite Hc, Hok, Hg, Hbad.
    unfold sign_out_on, message_for, failed, classify.
    destruct (status' =? 401); [destruct (onLoginPage env)|]; reflexivity.
Qed.

(** X14.  An accepted submission whose two requests are answered with a
    2xx status sends create then generate for the created record,
    downloads the returned blob once under the record's name (or
    "mobile-app"), revokes the object URL, schedules the navigation
    home, and leaves the page with success true, no error and loading
    false; the form keeps what was typed. *)
Theorem handleSubmit_success :
  mobileAppsApi.no_user env = false ->
  forall status ct app status' ct' blob,
    axios_from_prompt env p nm t = AxiosResponse status ct app ->
    response_ok status = true ->
    axios_generate env (api.res_id app) = AxiosResponse status' ct' blob ->
    response_ok status' = true ->
    handleSubmit env s =
      ({| loading := false; error := None; success := true;
          formData := formData s |},
       [EvFromPrompt p nm t; EvGenerate (api.res_id app);
        EvCreateObjectURL blob;
        EvDownload (createObjectURL env blob) (download_name app);
        EvRevokeObjectURL (createObjectURL env blob);
        EvNavigateLater (api.res_nombre app) (api.res_id app)]).
Proof.
  intros Hu status ct app status' ct' blob Hc Hok Hg Hok'.
  rewrite handleSubmit_accepted.
  unfold handleSubmit_resume, mobileAppsApi.createFromPrompt,
    mobileAppsApi.generateProject, api_post,
    try_finally, try_catch, bind, lift, throw, modify, emit, ret.
  rewrite Hu. fold p nm t. rewrite Hc, Hok, Hg, Hok'. reflexivity.
Qed.

End PromptPageOutcomes.

Section PromptPageOutcomesWitnesses.

Import MobileAppFromPromptPage.

(** Nobody signed in: the generic message and no request. *)
Lemma handleSubmit_without_user_or_response_witness :
  handleSubmit MoreSamples.world_without_user
    (Samples.prompt_page_with MoreSamples.gym_prompt) =
    ({| loading := false; error := Some other_error; success := false;
        formData := formData (Samples.prompt_page_with MoreSamples.gym_prompt) |},
     []).
Proof.
  assert (Hnot_blank : Js.trim MoreSamples.gym_prompt <> [])
    by (vm_compute; discriminate).
  assert (Hlong : 10 <= Js.length MoreSamples.gym_prompt)
    by (vm_compute; discriminate).
  destruct (handleSubmit_without_user_or_response
              MoreSamples.world_without_user
              (Samples.prompt_page_with MoreSamples.gym_prompt)
              Hnot_blank Hlong) as [H _].
  exact (H eq_refl).
Defined.

(** The create request answered 401 away from the login page: the
    generic message, the sign-out, no generate request. *)
Lemma handleSubmit_failure_by_status_witness :
  handleSubmit MoreSamples.world_create_unauthorized
    (Samples.prompt_page_with MoreSamples.gym_prompt) =
    ({| loading := false; error := Some other_error; success := false;
        formData := formData (Samples.prompt_page_with MoreSamples.gym_prompt) |},
     [EvFromPrompt MoreSamples.gym_prompt (Some []) api.FLUTTER;
      EvLogoutRedirect]).
Proof.
  assert (Hnot_blank : Js.trim MoreSamples.gym_prompt <> [])
    by (vm_compute; discriminate).
  assert (Hlong : 10 <= Js.length MoreSamples.gym_prompt)
    by (vm_compute; discriminate).
  destruct (handleSubmit_failure_by_status
              MoreSamples.world_create_unauthorized
              (Samples.prompt_page_with MoreSamples.gym_prompt)
              Hnot_blank Hlong eq_refl) as [H _].
  exact (H 401 (Some (Js.lit "application/json")) Samples.gym_app
           eq_refl eq_refl).
Defined.

(** The sample world: the archive is downloaded as
    "Gym App-flutter.zip". *)
Lemma handleSubmit_success_witness :
  handleSubmit Samples.world (Samples.prompt_page_with MoreSamples.gym_prompt) =
    ({| loading := false; error := None; success := true;
        formData := formData (Samples.prompt_page_with MoreSamples.gym_prompt) |},
     [EvFromPrompt MoreSamples.gym_prompt (Some []) api.FLUTTER;
      EvGenerate (Js.lit "app-1");
      EvCreateObjectURL Samples.zip_blob;
      EvDownload (Js.lit "blob:1") (Js.lit "Gym App-flutter.zip");
      EvRevokeObjectURL (Js.lit "blob:1");
      EvNavigateLater (Js.lit "Gym App") (Js.lit "app-1")]).
Proof.
  assert (Hnot_blank : Js.trim MoreSamples.gym_prompt <> [])
    by (vm_compute; discriminate).
  assert (Hlong : 10 <= Js.length MoreSamples.gym_prompt)
    by (vm_compute; discriminate).
  exact (handleSubmit_success Samples.world
           (Samples.prompt_page_with MoreSamples.gym_prompt)
           Hnot_blank Hlong eq_refl
           201 (Some (Js.lit "application/json")) Samples.gym_app
           201 (Some (Js.lit "application/zip")) Samples.zip_blob
           eq_refl eq_refl eq_refl eq_refl).
Defined.

End PromptPageOutcomesWitnesses.

(* ================================================================== *)
(** * Further properties of the apps page and the app manager          *)
(* ================================================================== *)

Section ListedAppGeneration.

Import apiService.

(** X15.  Generating from the list never throws and always ends with
    no app marked as generating.  On a 2xx answer the blob is
    downloaded once under the name of the listed record and the error
    on screen, if any, stays as it was; on any other answer nothing is
    downloaded and the error names the project kind of the record.  The
    app manager does the same. *)
Theorem handleGenerate_outcomes (env : Env) (app : api.MobileApp) :
  let url blob := createObjectURL env blob in
  let name := api.nombre app ++ Js.lit "-" ++
              api.ProjectType_value (api.project_type app) ++ Js.lit ".zip" in
  let msg := Js.lit "Error generando proyecto " ++
             api.ProjectType_value (api.project_type app) in
  (forall s,
     MobileAppsPage.handleGenerate env app s [] =
       match axios_generate env (api.id app) with
       | AxiosNoResponse _ =>
           (Normal tt,
            MobileAppsPage.setGeneratingId None
              (MobileAppsPage.setError (Some msg) s),
            [EvGenerate (api.id app)])
       | AxiosResponse status _ blob =>
           if response_ok status
           then (Normal tt, MobileAppsPage.setGeneratingId None s,
                 [EvGenerate (api.id app); EvCreateObjectURL blob;
                  EvDownload (url blob) name; EvRevokeObjectURL (url blob)])
           else (Normal tt,
                 MobileAppsPage.setGeneratingId None
                   (MobileAppsPage.setError (Some msg) s),
                 EvGenerate (api.id app) :: sign_out_on env status)
       end) /\
  (forall s,
     MobileAppManager.handleGenerate env app s [] =
       match axios_generate env (api.id app) with
       | AxiosNoResponse _ =>
           (Normal tt,
            MobileAppManager.setGeneratingId None
              (MobileAppManager.setError (Some msg) s),
            [EvGenerate (api.id app)])
       | AxiosResponse status _ blob =>
           if response_ok status
           then (Normal tt, MobileAppManager.setGeneratingId None s,
                 [EvGenerate (api.id app); EvCreateObjectURL blob;
                  EvDownload (url blob) name; EvRevokeObjectURL (url blob)])
           else (Normal tt,
                 MobileAppManager.setGeneratingId None
                   (MobileAppManager.setError (Some msg) s),
                 EvGenerate (api.id app) :: sign_out_on env status)
       end).
Proof.
  intros url name msg. split; intros s.
  - unfold MobileAppsPage.handleGenerate, mobileAppsApi.generateProject,
      api_post, handleUnauthorized, try_finally, try_catch, bind, lift,
      throw, modify, emit, ret, sign_out_on.
    destruct (axios_generate env (api.id app)) as [e|status ct blob];
      [reflexivity|].
    destruct (response_ok status); [reflexivity|].
    destruct (status =? 401); [destruct (onLoginPage env)|]; reflexivity.
  - unfold MobileAppManager.handleGenerate, mobileAppsApi.generateProject,
      api_post, handleUnauthorized, try_finally, try_catch, bind, lift,
      throw, modify, emit, ret, sign_out_on.
    destruct (axios_generate env (api.id app)) as [e|status ct blob];
      [reflexivity|].
    destruct (response_ok status); [reflexivity|].
    destruct (status =? 401); [destruct (onLoginPage env)|]; reflexivity.
Qed.

End ListedAppGeneration.

(* ================================================================== *)
(** * Properties of the session                                        *)
(* ================================================================== *)

Section SessionFacts.

Import session.

Lemma request_run {D : Type} (m : Method) (url : Js.str) (body : Body)
    (answer : AxiosResult D) (b : Browser) (l : Log) :
  request m url body answer b l =
    let b1 := send (stamped m url body b) b in
    match answer with
    | AxiosNoResponse e => (Abrupt (apiService.axios_network_error e), b1, l)
    | AxiosResponse status _ data =>
        if response_ok status then (Normal data, b1, l)
        else if (status =? 401) && elsewhere b
        then (Abrupt (apiService.axios_status_error status),
              signed_out b1, l ++ [EvLogoutRedirect])
        else (Abrupt (apiService.axios_status_error status), b1, l)
    end.
Proof.
  unfold request, handleUnauthorized, authApi_local.logout, elsewhere,
    bind, modify, throw, ret, emit.
  destruct answer as [e|status ct data]; [reflexivity|].
  destruct (response_ok status); [reflexivity|].
  destruct (status =? 401); [|reflexivity].
  cbn [send pathname andb].
  destruct (negb (Js.eqb (pathname b) login_path)); reflexivity.
Qed.

Lemma getCurrentUser_stored (json : Json) (b : Browser) (user : User)
    (l : Log) :
  stored_user json b user ->
  authApi.getCurrentUser json b l = (Normal (Some user), b, l).
Proof.
  intros [text [Hitem [Hne Hparse]]].
  unfold authApi.getCurrentUser, authApi_local.getCurrentUser, getItem.
  rewrite Hitem. destruct text as [|c text]; [congruence|].
  cbn [Js.truthy negb]. rewrite Hparse. reflexivity.
Qed.

(** X16.  A request answered 401 while the page is not the login page
    removes the token and the user from [localStorage], moves the page
    to /login, and still rejects with the status; on the login page, or
    for any other answer, the storage and the path stay as they are.
    Every request is sent exactly once, with [Bearer] and the stored
    token as authorization when a token that is not empty is stored and
    with none otherwise. *)
Theorem request_signs_out_on_401 {D : Type} (m : Method) (url : Js.str)
    (body : Body) (answer : AxiosResult D) (b : Browser) (l : Log) :
  let r := request m url body answer b l in
  let b' := snd (fst r) in
  sent b' = sent b ++ [stamped m url body b] /\
  authorization (stamped m url body b) =
    match item_token (localStorage b) with
    | Some (c :: tk) => Some (Js.lit "Bearer " ++ c :: tk)
    | _ => None
    end /\
  match answer with
  | AxiosResponse status _ data =>
      if response_ok status
      then r = (Normal data, send (stamped m url body b) b, l)
      else
        fst (fst r) = Abrupt (apiService.axios_status_error status) /\
        if (status =? 401) && elsewhere b
        then localStorage b' = {| item_token := None; item_user := None |} /\
             pathname b' = login_path /\ snd r = l ++ [EvLogoutRedirect]
        else localStorage b' = localStorage b /\
             pathname b' = pathname b /\ snd r = l
  | AxiosNoResponse e =>
      r = (Abrupt (apiService.axios_network_error e),
           send (stamped m url body b) b, l)
  end.
Proof.
  intros r b'. subst r b'. rewrite request_run. cbv zeta.
  split; [|split].
  - destruct answer as [e|status ct data]; [reflexivity|].
    destruct (response_ok status); [reflexivity|].
    destruct ((status =? 401) && elsewhere b); reflexivity.
  - unfold stamped, authorization_header, getItem; cbn [authorization].
    destruct (item_token (localStorage b)) as [[|c tk]|]; reflexivity.
  - destruct answer as [e|status ct data]; [reflexivity|].
    destruct (response_ok status); [reflexivity|].
    split; [destruct ((status =? 401) && elsewhere b); reflexivity|].
    destruct ((status =? 401) && elsewhere b); repeat split.
Qed.

(** X17.  Signing out is local: it sends nothing and leaves the path;
    afterwards nobody is authenticated, [getCurrentUser] answers null,
    a protected route redirects to /login, and creating an app fails
    with "User not authenticated" before any request is sent. *)
Theorem logout_ends_the_session (json : Json) (b : Browser) (l : Log)
    (mobileApp : CreateMobileAppRequest) (answer : AxiosResult api.MobileApp) :
  exists b',
    authApi.logout b l = (Normal tt, b', l) /\
    sent b' = sent b /\ pathname b' = pathname b /\
    authApi.isAuthenticated b' = false /\
    authApi.getCurrentUser json b' l = (Normal None, b', l) /\
    Routes.ProtectedRoute b' = Routes.Navigate login_path true /\
    mobileAppsApi.create json mobileApp answer b' l =
      (Abrupt mobileAppsApi.not_authenticated, b', l).
Proof.
  eexists. split; [reflexivity|]. repeat split.
Qed.

(** X18.  A login answered with a 2xx status sends the credentials to
    /auth/login, stores the token and the serialized user, and resolves
    with the response.  The user is then authenticated exactly when the
    token is not empty, and (the stored text being read back as it was
    written) [getCurrentUser] answers the user of the response. *)
Theorem login_stores_the_session (json : Json) (credentials : LoginRequest)
    (status : Z) (ct : option Js.str) (data : AuthResponse)
    (b : Browser) (l : Log) :
  response_ok status = true ->
  stringify json (usuario data) <> [] ->
  parse json (stringify json (usuario data)) = inr (Some (usuario data)) ->
  let b' := {| localStorage :=
                 {| item_token := Some (token data);
                    item_user := Some (stringify json (usuario data)) |};
               pathname := pathname b;
               sent := sent b ++
                       [stamped POST (Js.lit "/auth/login")
                          (Credentials credentials) b] |} in
  authApi.login json credentials (AxiosResponse status ct data) b l =
    (Normal data, b', l) /\
  authApi.isAuthenticated b' = Js.truthy (token data) /\
  authApi.getCurrentUser json b' l = (Normal (Some (usuario data)), b', l).
Proof.
  intros Hok Hne Hparse b'. split; [|split].
  - unfold authApi.login, try_catch, bind at 1. rewrite request_run.
    cbv zeta. rewrite Hok. reflexivity.
  - reflexivity.
  - apply getCurrentUser_stored.
    exists (stringify json (usuario data)). auto.
Qed.

(** Ana logs in from the login page. *)
Lemma login_stores_the_session_witness :
  authApi.isAuthenticated
    (snd (fst (authApi.login MoreSamples.json
                 {| login_email := Js.lit "ana@example.org";
                    login_password := Js.lit "secreto" |}
                 (AxiosResponse 201 None
                    {| token := Js.lit "t1"; usuario := MoreSamples.ana |})
                 {| localStorage := {| item_token := None; item_user := None |};
                    pathname := login_path; sent := [] |} []))) = true.
Proof.
  assert (Hne : stringify MoreSamples.json MoreSamples.ana <> [])
    by discriminate.
  destruct (login_stores_the_session MoreSamples.json
              {| login_email := Js.lit "ana@example.org";
                 login_password := Js.lit "secreto" |}
              201 None {| token := Js.lit "t1"; usuario := MoreSamples.ana |}
              {| localStorage := {| item_token := None; item_user := None |};
                 pathname := login_path; sent := [] |} []
              eq_refl Hne eq_refl) as [Hrun [Hauth _]].
  rewrite Hrun. exact Hauth.
Defined.

(** X19.  A login that fails writes nothing: the token and the user
    stored before are still there, unless the answer is a 401 received
    away from the login page, which removes both.  The error the caller
    gets carries the status. *)
Theorem failed_login_writes_nothing (json : Json) (credentials : LoginRequest)
    (status : Z) (ct : option Js.str) (data : AuthResponse)
    (b : Browser) (l : Log) :
  response_ok status = false ->
  let r := authApi.login json credentials (AxiosResponse status ct data) b l in
  fst (fst r) = Abrupt (apiService.axios_status_error status) /\
  localStorage (snd (fst r)) =
    (if (status =? 401) && elsewhere b
     then {| item_token := None; item_user := None |}
     else localStorage b).
Proof.
  intros Hbad r. subst r.
  unfold authApi.login, try_catch, bind. rewrite request_run.
  cbv zeta. rewrite Hbad.
  destruct ((status =? 401) && elsewhere b); split; reflexivity.
Qed.

(** Wrong password on the login page while Ana's session is stored. *)
Lemma failed_login_writes_nothing_witness :
  localStorage
    (snd (fst (authApi.login MoreSamples.json
                 {| login_email := Js.lit "ana@example.org";
                    login_password := Js.lit "otra" |}
                 (AxiosResponse 401 None
                    {| token := []; usuario := MoreSamples.ana |})
                 (navigate login_path MoreSamples.signed_in) []))) =
  localStorage MoreSamples.signed_in.
Proof.
  destruct (failed_login_writes_nothing MoreSamples.json
              {| login_email := Js.lit "ana@example.org";
                 login_password := Js.lit "otra" |}
              401 None {| token := []; usuario := MoreSamples.ana |}
              (navigate login_path MoreSamples.signed_in) [] eq_refl)
    as [_ H].
  exact H.
Defined.

(** X20.  When the stored user is not JSON, [getCurrentUser] answers
    null and removes that entry, keeping the token: the session still
    counts as authenticated and protected routes still render, but
    creating an app fails with "User not authenticated" and sends
    nothing.  Asking again answers null and changes nothing. *)
Theorem getCurrentUser_drops_corrupt_user (json : Json) (b : Browser)
    (text : Js.str) (e : Js.Thrown) (l : Log)
    (mobileApp : CreateMobileAppRequest) (answer : AxiosResult api.MobileApp) :
  item_user (localStorage b) = Some text ->
  text <> [] ->
  parse json text = inl e ->
  let b' := with_storage (removeItem KUser) b in
  authApi.getCurrentUser json b l = (Normal None, b', l) /\
  item_token (localStorage b') = item_token (localStorage b) /\
  authApi.isAuthenticated b' = authApi.isAuthenticated b /\
  Routes.ProtectedRoute b' = Routes.ProtectedRoute b /\
  authApi.getCurrentUser json b' l = (Normal None, b', l) /\
  mobileAppsApi.create json mobileApp answer b l =
    (Abrupt mobileAppsApi.not_authenticated, b', l).
Proof.
  intros Hitem Hne Hparse b'.
  assert (Hget : authApi.getCurrentUser json b l = (Normal None, b', l)).
  { unfold authApi.getCurrentUser, authApi_local.getCurrentUser, getItem.
    rewrite Hitem. destruct text as [|c text]; [congruence|].
    cbn [Js.truthy negb]. rewrite Hparse. reflexivity. }
  split; [exact Hget|]. repeat split.
  unfold mobileAppsApi.create, try_catch, bind at 1. rewrite Hget.
  reflexivity.
Qed.

(** The stored text "undefined". *)
Lemma getCurrentUser_drops_corrupt_user_witness :
  authApi.getCurrentUser MoreSamples.json MoreSamples.corrupt_user [] =
    (Normal None,
     with_storage (removeItem KUser) MoreSamples.corrupt_user, []).
Proof.
  assert (Hne : Js.lit "undefined" <> []) by discriminate.
  destruct (getCurrentUser_drops_corrupt_user MoreSamples.json
              MoreSamples.corrupt_user (Js.lit "undefined")
              (Js.new_Error (Js.lit "Unexpected token")) []
              {| cm_nombre := None; cm_xml := None; cm_prompt := None;
                 cm_mockup_id := None; cm_project_type := None;
                 cm_config := None |}
              (AxiosNoResponse (Js.new_Error []))
              eq_refl Hne eq_refl) as [H _].
  exact H.
Defined.

End SessionFacts.

Section SessionRequests.

Import session.

Lemma try_catch_rethrow {S A : Type} (m : M S A) (s : S) (l : Log) :
  try_catch m (fun error => throw error) s l = m s l.
Proof.
  unfold try_catch, throw. destruct (m s l) as [[[a|e] s'] l']; reflexivity.
Qed.

Lemma create_with_user (json : Json) (b : Browser) (user : User) (l : Log)
    {D : Type} (k : option User -> M Browser D) :
  stored_user json b user ->
  bind (authApi.getCurrentUser json) k b l = k (Some user) b l.
Proof.
  intros Hu. unfold bind. rewrite (getCurrentUser_stored json b user l Hu).
  reflexivity.
Qed.

(** X21.  With a readable stored user whose id is not empty, [create]
    sends the given data with that id as [user_id], while
    [createFromXml] and [createFromMockup] send only the xml (or the
    mockup id) and the project type, without a [user_id]; each is one
    POST to /mobile-generator.  With no stored user none of the three
    sends anything: each fails with "User not authenticated". *)
Theorem create_requests (json : Json) (b : Browser) (l : Log)
    (mobileApp : CreateMobileAppRequest) (text : Js.str)
    (t : api.ProjectType) (answer : AxiosResult api.MobileApp) :
  (forall user,
     stored_user json b user -> u_id user <> [] ->
     mobileAppsApi.create json mobileApp answer b l =
       request POST (Js.lit "/mobile-generator")
         (MobileAppData mobileApp (Some (u_id user))) answer b l /\
     mobileAppsApi.createFromXml json text t answer b l =
       request POST (Js.lit "/mobile-generator")
         (MobileAppData
            {| cm_nombre := None; cm_xml := Some text; cm_prompt := None;
               cm_mockup_id := None; cm_project_type := Some t;
               cm_config := None |} None) answer b l /\
     mobileAppsApi.createFromMockup json text t answer b l =
       request POST (Js.lit "/mobile-generator")
         (MobileAppData
            {| cm_nombre := None; cm_xml := None; cm_prompt := None;
               cm_mockup_id := Some text; cm_project_type := Some t;
               cm_config := None |} None) answer b l) /\
  (item_user (localStorage b) = None ->
   mobileAppsApi.create json mobileApp answer b l =
     (Abrupt mobileAppsApi.not_authenticated, b, l) /\
   mobileAppsApi.createFromXml json text t answer b l =
     (Abrupt mobileAppsApi.not_authenticated, b, l) /\
   mobileAppsApi.createFromMockup json text t answer b l =
     (Abrupt mobileAppsApi.not_authenticated, b, l)).
Proof.
  split.
  - intros user Hu Hid.
    assert (Hno : mobileAppsApi.no_user (Some user) = false).
    { unfold mobileAppsApi.no_user. destruct (u_id user); [congruence|].
      reflexivity. }
    unfold mobileAppsApi.create, mobileAppsApi.createFromXml,
      mobileAppsApi.createFromMockup.
    rewrite !try_catch_rethrow, !(create_with_user json b user l _ Hu), Hno.
    repeat split.
  - intros Hnone.
    unfold mobileAppsApi.create, mobileAppsApi.createFromXml,
      mobileAppsApi.createFromMockup, try_catch, bind,
      authApi.getCurrentUser, authApi_local.getCurrentUser, getItem.
    rewrite Hnone. repeat split.
Qed.

(** Ana creates an app: the data goes out with her id. *)
Lemma create_requests_witness :
  sent (snd (fst (mobileAppsApi.create MoreSamples.json
                    {| cm_nombre := Some (Js.lit "Gym App");
                       cm_xml := None;
                       cm_prompt := Some (Js.lit "gimnasio");
                       cm_mockup_id := None;
                       cm_project_type := Some api.FLUTTER;
                       cm_config := None |}
                    (AxiosResponse 201 None MoreSamples.listed_app)
                    MoreSamples.signed_in []))) =
    [{| method := POST; url := Js.lit "/mobile-generator";
        authorization := Some (Js.lit "Bearer t0");
        body := MobileAppData
                  {| cm_nombre := Some (Js.lit "Gym App");
                     cm_xml := None;
                     cm_prompt := Some (Js.lit "gimnasio");
                     cm_mockup_id := None;
                     cm_project_type := Some api.FLUTTER;
                     cm_config := None |}
                  (Some (Js.lit "user-1")) |}].
Proof.
  assert (Hu : stored_user MoreSamples.json MoreSamples.signed_in
                 MoreSamples.ana).
  { exists MoreSamples.ana_json. repeat split. discriminate. }
  assert (Hid : u_id MoreSamples.ana <> []) by discriminate.
  destruct (create_requests MoreSamples.json MoreSamples.signed_in []
              {| cm_nombre := Some (Js.lit "Gym App");
                 cm_xml := None;
                 cm_prompt := Some (Js.lit "gimnasio");
                 cm_mockup_id := None;
                 cm_project_type := Some api.FLUTTER;
                 cm_config := None |}
              [] api.FLUTTER
              (AxiosResponse 201 None MoreSamples.listed_app)) as [H _].
  destruct (H MoreSamples.ana Hu Hid) as [Hcreate _].
  rewrite Hcreate. reflexivity.
Defined.

(** X22.  [generateFlutterFromXml] and [generateAngularFromXml] create
    the app first, as a flutter and as an angular project, and ask for
    the project of the created record only when the creation was
    answered with a 2xx status: the first through
    /mobile-generator/{id}/generate-flutter, the second through
    /mobile-generator/{id}/generate, with the id the server returned.
    When the creation fails they reject with its error after that one
    request. *)
Theorem generate_from_xml_requests (json : Json) (b : Browser) (user : User)
    (l : Log) (xml : Js.str) (status : Z) (ct : option Js.str)
    (app : api.MobileApp) (generated : Js.str -> AxiosResult Blob) :
  stored_user json b user -> u_id user <> [] ->
  let data t := MobileAppData
                  {| cm_nombre := None; cm_xml := Some xml; cm_prompt := None;
                     cm_mockup_id := None; cm_project_type := Some t;
                     cm_config := None |} None in
  let created := AxiosResponse status ct app in
  let after t := send (stamped POST (Js.lit "/mobile-generator") (data t) b) b in
  if response_ok status
  then
    mobileAppsApi.generateFlutterFromXml json xml created generated b l =
      request POST (Js.lit "/mobile-generator/" ++ api.id app ++
                    Js.lit "/generate-flutter")
        EmptyObject (generated (api.id app)) (after api.FLUTTER) l /\
    mobileAppsApi.generateAngularFromXml json xml created generated b l =
      request POST (Js.lit "/mobile-generator/" ++ api.id app ++
                    Js.lit "/generate")
        EmptyObject (generated (api.id app)) (after api.ANGULAR) l
  else
    (let r := mobileAppsApi.generateFlutterFromXml json xml created generated
                b l in
     fst (fst r) = Abrupt (apiService.axios_status_error status) /\
     sent (snd (fst r)) = sent (after api.FLUTTER)) /\
    (let r := mobileAppsApi.generateAngularFromXml json xml created generated
                b l in
     fst (fst r) = Abrupt (apiService.axios_status_error status) /\
     sent (snd (fst r)) = sent (after api.ANGULAR)).
Proof.
  intros Hu Hid data created after.
  assert (Hno : mobileAppsApi.no_user (Some user) = false).
  { unfold mobileAppsApi.no_user. destruct (u_id user); [congruence|].
    reflexivity. }
  assert (Hx : forall t,
            mobileAppsApi.createFromXml json xml t created b l =
            request POST (Js.lit "/mobile-generator") (data t) created b l).
  { intros t. unfold mobileAppsApi.createFromXml.
    rewrite try_catch_rethrow, (create_with_user json b user l _ Hu), Hno.
    reflexivity. }
  unfold mobileAppsApi.generateFlutterFromXml,
    mobileAppsApi.generateAngularFromXml,
    mobileAppsApi.generateFlutter, mobileAppsApi.generateProject.
  destruct (response_ok status) eqn:Hok.
  - split; rewrite try_catch_rethrow; unfold bind;
      rewrite Hx, request_run; subst created; cbv beta iota zeta;
      rewrite Hok; cbv beta iota; rewrite try_catch_rethrow; reflexivity.
  - cbv zeta.
    split; rewrite try_catch_rethrow; unfold bind;
      rewrite Hx, request_run; subst created; cbv beta iota zeta;
      rewrite Hok;
      destruct ((status =? 401) && elsewhere b); split; reflexivity.
Qed.

(** Ana generates an angular project from a diagram. *)
Lemma generate_from_xml_requests_witness :
  map url
    (sent (snd (fst (mobileAppsApi.generateAngularFromXml MoreSamples.json
                       (Js.lit "<mxfile/>")
                       (AxiosResponse 201 None MoreSamples.diagram_app)
                       (fun _ => AxiosResponse 201 None Samples.zip_blob)
                       MoreSamples.signed_in [])))) =
    [Js.lit "/mobile-generator"; Js.lit "/mobile-generator/app-2/generate"].
Proof.
  assert (Hu : stored_user MoreSamples.json MoreSamples.signed_in
                 MoreSamples.ana).
  { exists MoreSamples.ana_json. repeat split. discriminate. }
  assert (Hid : u_id MoreSamples.ana <> []) by discriminate.
  pose proof (generate_from_xml_requests MoreSamples.json
                MoreSamples.signed_in MoreSamples.ana [] (Js.lit "<mxfile/>")
                201 None MoreSamples.diagram_app
                (fun _ => AxiosResponse 201 None Samples.zip_blob) Hu Hid)
    as H.
  destruct H as [_ Hangular]. rewrite Hangular. reflexivity.
Defined.

(** The two embeddings of [mobileAppsApi.generateProject] agree:
    for the same answer, and the page being the login page in both or
    in neither, they settle alike, the first logging the request and
    the second sending it, and both logging the forced sign-out or
    neither. *)
Lemma generateProject_embeddings_agree (env : Env) (id : Js.str)
    (b : Browser) (l l0 : Log) :
  onLoginPage env = Js.eqb (pathname b) login_path ->
  let old := apiService.mobileAppsApi.generateProject env id tt l0 in
  let new := mobileAppsApi.generateProject id (axios_generate env id) b l in
  fst (fst new) = fst (fst old) /\
  sent (snd (fst new)) =
    sent b ++ [stamped POST (Js.lit "/mobile-generator/" ++ id ++
                             Js.lit "/generate") EmptyObject b] /\
  exists extra, snd new = l ++ extra /\ snd old = l0 ++ EvGenerate id :: extra.
Proof.
  intros Hpage old new. subst old new.
  unfold mobileAppsApi.generateProject, apiService.mobileAppsApi.generateProject.
  rewrite !try_catch_rethrow, request_run.
  unfold apiService.api_post, apiService.handleUnauthorized,
    elsewhere, bind, emit, throw, ret.
  rewrite Hpage. cbv zeta.
  destruct (axios_generate env id) as [e|status ct blob].
  - repeat split. exists []. rewrite app_nil_r. split; reflexivity.
  - destruct (response_ok status).
    + repeat split. exists []. rewrite app_nil_r. split; reflexivity.
    + destruct (status =? 401); cbn [andb].
      * destruct (negb (Js.eqb (pathname b) login_path)); repeat split.
        -- exists [EvLogoutRedirect].
           split; [reflexivity | now rewrite <- ?app_assoc].
        -- exists []. rewrite app_nil_r. split; reflexivity.
      * repeat split. exists []. rewrite app_nil_r. split; reflexivity.
Qed.

(** The sample world and Ana's browser, away from the login page. *)
Lemma generateProject_embeddings_agree_witness :
  fst (fst (mobileAppsApi.generateProject (Js.lit "app-1")
              (axios_generate Samples.world (Js.lit "app-1"))
              MoreSamples.signed_in [])) = Normal Samples.zip_blob.
Proof.
  destruct (generateProject_embeddings_agree Samples.world (Js.lit "app-1")
              MoreSamples.signed_in [] [] eq_refl) as [H _].
  rewrite H. reflexivity.
Defined.

End SessionRequests.

(* ================================================================== *)
(** * Properties of the list of the apps page                          *)
(* ================================================================== *)

Section AppsList.

Import session MobileAppsPage.

Lemma loadMobileApps_run (answer : AxiosResult (list api.MobileApp))
    (s : State) (b : Browser) (l : Log) :
  loadMobileApps answer (s, b) l =
    let b1 := send (stamped GET (Js.lit "/mobile-generator") NoBody b) b in
    let failed := setLoading false (setError (Some load_error) s) in
    match answer with
    | AxiosNoResponse _ => (Normal tt, (failed, b1), l)
    | AxiosResponse status _ apps =>
        if response_ok status
        then (Normal tt, (setLoading false (setMobileApps apps s), b1), l)
        else if (status =? 401) && elsewhere b
        then (Normal tt, (failed, signed_out b1), l ++ [EvLogoutRedirect])
        else (Normal tt, (failed, b1), l)
    end.
Proof.
  unfold loadMobileApps, session.mobileAppsApi.getAll, on_browser, on_page,
    try_finally, try_catch at 1, bind, modify.
  cbn [fst snd]. rewrite try_catch_rethrow, request_run. cbv zeta.
  destruct answer as [e|status ct apps]; [reflexivity|].
  destruct (response_ok status); [reflexivity|].
  destruct ((status =? 401) && elsewhere b); reflexivity.
Qed.

(** X24.  Loading the list never throws, sends exactly one GET to
    /mobile-generator and always ends with loading false.  A 2xx answer
    replaces the list and leaves the error on screen as it was; any
    other answer keeps the list and sets the loading error, and a 401
    met away from the login page also signs the user out. *)
Theorem loadMobileApps_outcomes (answer : AxiosResult (list api.MobileApp))
    (s : State) (b : Browser) (l : Log) :
  let b1 := send (stamped GET (Js.lit "/mobile-generator") NoBody b) b in
  let failed := setLoading false (setError (Some load_error) s) in
  loadMobileApps answer (s, b) l =
    match answer with
    | AxiosNoResponse _ => (Normal tt, (failed, b1), l)
    | AxiosResponse status _ apps =>
        if response_ok status
        then (Normal tt, (setLoading false (setMobileApps apps s), b1), l)
        else if (status =? 401) && elsewhere b
        then (Normal tt, (failed, signed_out b1), l ++ [EvLogoutRedirect])
        else (Normal tt, (failed, b1), l)
    end.
Proof. exact (loadMobileApps_run answer s b l). Qed.

(** X25.  Deleting an app does nothing at all when the user does not
    confirm.  When the user confirms, one DELETE to
    /mobile-generator/{id} is sent; if it is answered with a 2xx status
    the list is then loaded again, and if not the list is not loaded
    again: the page keeps showing the old list, with the deletion
    error. *)
Theorem handleDelete_outcomes (id nombre : Js.str)
    (deleted : AxiosResult unit) (reloaded : AxiosResult (list api.MobileApp))
    (s : State) (b : Browser) (l : Log) :
  let b1 := send (stamped DELETE (Js.lit "/mobile-generator/" ++ id) NoBody b)
              b in
  handleDelete false id nombre deleted reloaded (s, b) l =
    (Normal tt, (s, b), l) /\
  handleDelete true id nombre deleted reloaded (s, b) l =
    match deleted with
    | AxiosNoResponse _ => (Normal tt, (setError (Some delete_error) s, b1), l)
    | AxiosResponse status _ _ =>
        if response_ok status then loadMobileApps reloaded (s, b1) l
        else if (status =? 401) && elsewhere b
        then (Normal tt, (setError (Some delete_error) s, signed_out b1),
              l ++ [EvLogoutRedirect])
        else (Normal tt, (setError (Some delete_error) s, b1), l)
    end.
Proof.
  intros b1. split; [reflexivity|].
  unfold handleDelete, session.mobileAppsApi.delete, on_browser, on_page.
  cbn [negb]. unfold try_catch at 1, bind at 1.
  cbn [fst snd]. rewrite try_catch_rethrow, request_run. cbv zeta.
  destruct deleted as [e|status ct []]; [reflexivity|].
  destruct (response_ok status).
  - cbv beta iota. subst b1.
    rewrite (loadMobileApps_run reloaded s
               (send (stamped DELETE (mobileAppsApi.item id) NoBody b) b) l).
    rewrite (loadMobileApps_run reloaded s
               (send (stamped DELETE (Js.lit "/mobile-generator/" ++ id)
                        NoBody b) b) l).
    destruct reloaded as [e|status' ct' apps]; [reflexivity|].
    destruct (response_ok status'); [reflexivity|].
    destruct ((status' =? 401) && elsewhere _); reflexivity.
  - destruct ((status =? 401) && elsewhere b); reflexivity.
Qed.

Lemma includes_empty (x : Js.str) : Js.includes [] x = true.
Proof. destruct x; reflexivity. Qed.

(** X26.  With an empty search term (which lower-cases to the empty
    string) every app of the list is shown, in the order of the list;
    and once loading is over the list area shows these cards, or the
    "no apps" text without a search when the list is empty. *)
Theorem empty_search_shows_every_app (toLowerCase : Js.str -> Js.str)
    (s : State) :
  toLowerCase [] = [] ->
  searchTerm s = [] ->
  filteredApps toLowerCase s = mobileApps s /\
  (loading s = false ->
   list_area toLowerCase s =
     match mobileApps s with
     | [] => NothingFound false
     | apps => Cards apps
     end).
Proof.
  intros Hlower Hterm.
  assert (Hall : filteredApps toLowerCase s = mobileApps s).
  { unfold filteredApps. rewrite Hterm, Hlower.
    induction (mobileApps s) as [|app apps IH]; [reflexivity|].
    cbn [filter]. rewrite includes_empty. cbn [orb]. now rewrite IH. }
  split; [exact Hall|].
  intros Hloading. unfold list_area. rewrite Hloading, Hall, Hterm.
  destruct (mobileApps s); reflexivity.
Qed.

(** The two sample apps, nothing typed in the search box. *)
Lemma empty_search_shows_every_app_witness :
  list_area (fun x => x) MoreSamples.apps_page =
    Cards [MoreSamples.listed_app; MoreSamples.diagram_app].
Proof.
  destruct (empty_search_shows_every_app (fun x => x) MoreSamples.apps_page
              eq_refl eq_refl) as [_ H].
  exact (H eq_refl).
Defined.

(** X27.  The counters of the page are consistent: every app is counted
    as a flutter app or as an angular app and never as both, so the two
    counters add up to the total; and the "created with IA" counter is
    the number of apps that [getCreationMethod] tags IA. *)
Theorem counters_are_consistent (s : State) :
  (flutter_apps s + angular_apps s = total_apps s)%nat /\
  (created_with_ia s <= total_apps s)%nat /\
  created_with_ia s =
    List.length
      (filter (fun app => Js.eqb (text (getCreationMethod app)) (Js.lit "IA"))
              (mobileApps s)).
Proof.
  unfold flutter_apps, angular_apps, total_apps, created_with_ia.
  split; [|split].
  - induction (mobileApps s) as [|app apps IH]; [reflexivity|].
    cbn [filter List.length].
    destruct (api.project_type app); cbn; lia.
  - apply filter_length_le.
  - f_equal. apply filter_ext. intros app. unfold getCreationMethod.
    destruct (Js.truthy_opt (api.prompt app)),
             (Js.truthy_opt (api.xml app)),
             (Js.truthy_opt (api.mockup_id app)); reflexivity.
Qed.

End AppsList.

(* ================================================================== *)
(** * An invariant of the image page                                   *)
(* ================================================================== *)

Section PreviewInvariant.

Import imageAnalysisService MobileAppFromImagePage.

Lemma resume_keeps_info_matching (env : Env) (t : Task) (s : State) (l : Log) :
  info_matches_preview s ->
  info_matches_preview (snd (fst (resume env t s l))).
Proof.
  intros Hinv. destruct t as [file|[file fd]|[file fd]]; unfold resume.
  - unfold handleImageChange_resume, try_finally, try_catch, bind, lift, modify.
    destruct (fileToBase64 env file true tt l) as [[[url|e] []] l1];
      cbn [fst snd].
    + right. reflexivity.
    + exact Hinv.
  - unfold handleAnalyzeImage_resume, try_finally, try_catch, bind, lift,
      modify.
    destruct (fileToBase64 env file true tt l) as [[[image|e] []] l1];
      cbn [fst snd]; [|exact Hinv].
    destruct (analyzeImageForProject env image (projectType fd) tt l1)
      as [[[r|e] []] l2]; cbn [fst snd]; [|exact Hinv].
    destruct (ia_success r && Js.truthy_opt (ia_description r));
      exact Hinv.
  - unfold handleGenerateProject_resume, try_finally, try_catch, bind, lift,
      modify, emit.
    destruct (fileToBase64 env file true tt l) as [[[image|e] []] l1];
      cbn [fst snd]; [|exact Hinv].
    destruct (analyzeImageAndGenerateProject env image (projectType fd)
                (Some (projectName fd)) tt l1)
      as [[[r|e] []] l2]; cbn [fst snd]; [|exact Hinv].
    destruct (pg_success r && Js.truthy_opt (pg_downloadUrl r));
      cbn [fst snd]; [|exact Hinv].
    left. split; reflexivity.
Qed.

Lemma fire_keeps_info_matching (a : Action) (sc sc' : Screen) :
  info_matches_preview (state sc) -> fire a sc = Some sc' ->
  info_matches_preview (state sc').
Proof.
  intros Hinv Hfire.
  destruct a as [file| | | |value|value|i env]; simpl in Hfire.
  - destruct (fileInput_disabled (state sc)); [discriminate|].
    injection Hfire as <-. unfold handleImageChange_begin.
    destruct file as [file|]; [|exact Hinv].
    destruct (negb (valid (validateImageFile file))); exact Hinv.
  - destruct (analyze_disabled (state sc)); [discriminate|].
    injection Hfire as <-. unfold handleAnalyzeImage_begin.
    destruct (imageFile (formData (state sc))); exact Hinv.
  - destruct (generate_disabled (state sc)); [discriminate|].
    injection Hfire as <-. unfold handleGenerateProject_begin.
    destruct (imageFile (formData (state sc))); [|exact Hinv].
    destruct (negb _); exact Hinv.
  - destruct (Js.truthy (imagePreview (state sc))); [|discriminate].
    injection Hfire as <-. left. split; reflexivity.
  - injection Hfire as <-. exact Hinv.
  - injection Hfire as <-. exact Hinv.
  - destruct (nth_error (inflight sc) i) as [t|]; [|discriminate].
    pose proof (resume_keeps_info_matching env t (state sc) [] Hinv) as H.
    destruct (resume env t (state sc) []) as [[r s'] l'].
    injection Hfire as <-. exact H.
Qed.

(** X28.  Whatever the user does on the image page and however the
    handlers in flight interleave and settle, the image info on screen
    is the one of the preview on screen: either there is neither, or
    the info is exactly what [getImageInfo] reads from the preview. *)
Theorem info_always_matches_preview (sc : Screen) :
  reachable sc -> info_matches_preview (state sc).
Proof.
  intros [actions Hrun].
  assert (H : forall sc0, info_matches_preview (state sc0) ->
                          fire_all actions sc0 = Some sc ->
                          info_matches_preview (state sc)).
  { clear Hrun. induction actions as [|a rest IH]; intros sc0 Hinv Hrun;
      simpl in Hrun.
    - now injection Hrun as <-.
    - destruct (fire a sc0) as [sc1|] eqn:Hfire; [|discriminate].
      eapply IH; [|exact Hrun].
      eapply fire_keeps_info_matching; eassumption. }
  apply (H mounted); [|exact Hrun]. left. split; reflexivity.
Qed.

(** After the sample file is selected and compressed, the info on
    screen is the one of the sample data URL. *)
Lemma info_always_matches_preview_witness :
  exists sc,
    reachable sc /\
    imagePreview (state sc) = Samples.jpeg_data_url /\
    imageInfo (state sc) = Some (getImageInfo Samples.jpeg_data_url).
Proof.
  pose (actions := [SelectFile (Some Samples.png_file);
                    Settle 0 Samples.world]).
  destruct (fire_all actions mounted) as [sc|] eqn:E;
    [|vm_compute in E; discriminate].
  exists sc.
  assert (Hreach : reachable sc) by (exists actions; exact E).
  split; [exact Hreach|].
  pose proof (info_always_matches_preview sc Hreach) as H.
  vm_compute in E. injection E as <-.
  split; [reflexivity|].
  destruct H as [[Hempty _]|H]; [discriminate Hempty | exact H].
Defined.

End PreviewInvariant.
